(** * Menu management console: import / export pipeline and mock storage

    A shallow embedding of
      - [src/services/mockApiService.ts]   (the in-memory storage collaborator),
      - [src/services/exportImportService.ts] (CSV / JSON / XLSX export and import),
      - the spreadsheet handlers of [src/App.tsx]
        ([handleExcelUpload], [handleExcelExport], [handleExport]) with the
        refresh functions they call, and its handlers for saving, deleting,
        toggling and reordering categories and items, one by one and in bulk,
      - [handleDrop] of [src/components/CategoryList.tsx],
    together with the JavaScript built-ins these functions use.  The JSON and
    XLSX readers of the import service take what [JSON.parse] and the XLSX
    library make of the file; the objects they return are kept as read.

    Conventions of the embedding:
      - a JS string is a [string] (a sequence of 8-bit characters); white
        space is that of the ASCII range, and so is the case mapping, except
        where it is applied to the names of categories: there it is a
        parameter of the embedding (see [App.categoryKey]);
      - a JS number is [number]: NaN, the two infinities, or a rational that is
        the value of a binary64 float.  Every arithmetic result is rounded to
        the nearest binary64 value (ties to even) by [roundQ].  Negative zero is
        identified with zero: the code never divides by a zero it computed and
        never prints one;
      - a JS [Map] is an association list in insertion order ([JsMap]);
      - a row object of [XLSX.utils.sheet_to_json] is a [gmap string cell];
      - an [async] function is a state transformer over [World] that returns
        either a value or the thrown error ([M]). *)

From Stdlib Require Import ZArith QArith Qround Qabs Qpower Ascii String List Bool Lia.
From Stdlib Require Qcanon.
From stdpp Require Import base option list strings pretty sorting gmap.

Local Open Scope Z_scope.

(** ** JavaScript strings *)

Module Js.

Definition isUpper (c : ascii) : bool :=
  let n := nat_of_ascii c in (Nat.leb 65 n && Nat.leb n 90)%bool.

(** [String.prototype.toLowerCase] on the ASCII range: the letters A to Z
    are lowered and every other character is kept.  It stands for the method
    only where the result is compared with ASCII text ([App.isTrue],
    [exportImportService.findIndex]); the names of categories go through the
    parameter of [App.categoryKey] instead. *)
Definition lowerChar (c : ascii) : ascii :=
  if isUpper c then ascii_of_nat (nat_of_ascii c + 32) else c.

Fixpoint toLowerCase (s : string) : string :=
  match s with
  | EmptyString => EmptyString
  | String c r => String (lowerChar c) (toLowerCase r)
  end.

(** White space of [trim] and of the numeric parsers: TAB, LF, VT, FF, CR, SP. *)
Definition isSpace (c : ascii) : bool :=
  let n := nat_of_ascii c in
  (Nat.eqb n 32 || (Nat.leb 9 n && Nat.leb n 13))%bool.

Fixpoint trimStart (s : string) : string :=
  match s with
  | String c r => if isSpace c then trimStart r else s
  | EmptyString => EmptyString
  end.

(** [trimEnd] keeps a character when it is not a space or when something
    that is kept follows it. *)
Fixpoint trimEnd (s : string) : string :=
  match s with
  | EmptyString => EmptyString
  | String c r =>
      match trimEnd r with
      | EmptyString => if isSpace c then EmptyString else String c EmptyString
      | r' => String c r'
      end
  end.

Definition trim (s : string) : string := trimEnd (trimStart s).

Fixpoint startsWith (p s : string) : bool :=
  match p, s with
  | EmptyString, _ => true
  | String a p', String b s' => (Ascii.eqb a b && startsWith p' s')%bool
  | String _ _, EmptyString => false
  end.

(** [s.includes(sub)] *)
Fixpoint includes (sub s : string) : bool :=
  (startsWith sub s ||
   match s with
   | EmptyString => false
   | String _ r => includes sub r
   end)%bool.

(** [s.replace(/c/g, '')]: every occurrence of the character is removed. *)
Fixpoint removeChar (c : ascii) (s : string) : string :=
  match s with
  | EmptyString => EmptyString
  | String a r => if Ascii.eqb a c then removeChar c r else String a (removeChar c r)
  end.

(** [s.split(c)] for a one-character separator: never the empty list. *)
Fixpoint split (c : ascii) (s : string) : list string :=
  match s with
  | EmptyString => [EmptyString]
  | String a r =>
      if Ascii.eqb a c then EmptyString :: split c r
      else match split c r with
           | [] => [String a EmptyString]
           | h :: t => String a h :: t
           end
  end.

(** [xs.join(sep)] on strings. *)
Fixpoint join (sep : string) (xs : list string) : string :=
  match xs with
  | [] => EmptyString
  | [x] => x
  | x :: r => x +:+ sep +:+ join sep r
  end.

(** A string is falsy exactly when it is empty. *)
Definition nonEmpty (s : string) : bool :=
  match s with EmptyString => false | _ => true end.

Definition isDigit (c : ascii) : bool :=
  let n := nat_of_ascii c in (Nat.leb 48 n && Nat.leb n 57)%bool.

Definition digitVal (c : ascii) : Z := Z.of_nat (nat_of_ascii c) - 48.

(** Longest prefix of decimal digits: its value, its length, and the rest. *)
Fixpoint takeDigits (acc : Z) (len : nat) (s : string) : Z * nat * string :=
  match s with
  | String c r =>
      if isDigit c then takeDigits (10 * acc + digitVal c) (S len) r
      else (acc, len, s)
  | EmptyString => (acc, len, s)
  end.

(** Decimal digits of a non-negative integer. *)
Definition digits (z : Z) : string := pretty (Z.to_N z).

(** Decimal rendering of an integer, as a template literal prints it. *)
Definition intToString (z : Z) : string := pretty z.

Fixpoint zeros (n : nat) : string :=
  match n with O => EmptyString | S k => String "0"%char (zeros k) end.

(** [String(n).padStart(w, '0')] for a non-negative integer. *)
Definition pad (w : nat) (z : Z) : string :=
  let d := digits z in zeros (w - String.length d) +:+ d.

End Js.

(** ** JavaScript numbers *)

Module Num.

Inductive number : Type :=
  | NaN
  | Infinity (negative : bool)
  | Finite (q : Q).

Definition zero : number := Finite 0.

Definition pow2 (e : Z) : Q := Qpower 2 e.
Definition pow10 (e : Z) : Q := Qpower 10 e.

(** [floorLog2 a] is the integer [e] with [2^e <= a < 2^(e+1)], for [0 < a]. *)
Definition floorLog2 (a : Q) : Z :=
  let e0 := Z.log2 (Qnum a) - Z.log2 (Zpos (Qden a)) in
  if Qle_bool (pow2 e0) a then e0 else e0 - 1.

Definition roundHalfEven (q : Q) : Z :=
  let f := Qfloor q in
  match Qcompare (Qminus q (inject_Z f)) (1 # 2) with
  | Lt => f
  | Gt => f + 1
  | Eq => if Z.even f then f else f + 1
  end.

(** Rounding of an exact rational to binary64: 53 significant bits, least
    exponent -1022 (subnormals below), overflow to an infinity. *)
Definition roundQ (q : Q) : number :=
  match Qcompare q 0 with
  | Eq => zero
  | c =>
      let a := Qabs q in
      let e := Z.max (floorLog2 a) (-1022) in
      let m := roundHalfEven (Qmult a (pow2 (52 - e))) in
      let v := Qmult (inject_Z m) (pow2 (e - 52)) in
      if Qle_bool (pow2 1024) v then Infinity (match c with Lt => true | _ => false end)
      else Finite (Qred (match c with Lt => Qopp v | _ => v end))
  end.

Definition ofZ (z : Z) : number := roundQ (inject_Z z).

Definition isNaN (x : number) : bool :=
  match x with NaN => true | _ => false end.

(** [x <= 0] *)
Definition leZero (x : number) : bool :=
  match x with
  | NaN => false
  | Infinity neg => neg
  | Finite q => Qle_bool q 0
  end.

(** A number is falsy when it is NaN or zero. *)
Definition truthy (x : number) : bool :=
  match x with
  | NaN => false
  | Infinity _ => true
  | Finite q => negb (Qeq_bool q 0)
  end.

Definition eqb (x y : number) : bool :=
  match x, y with
  | Infinity a, Infinity b => Bool.eqb a b
  | Finite p, Finite q => Qeq_bool p q
  | _, _ => false
  end.

Definition add (x y : number) : number :=
  match x, y with
  | NaN, _ | _, NaN => NaN
  | Infinity a, Infinity b => if Bool.eqb a b then Infinity a else NaN
  | Infinity a, Finite _ | Finite _, Infinity a => Infinity a
  | Finite p, Finite q => roundQ (Qplus p q)
  end.

Definition div (x y : number) : number :=
  match x, y with
  | NaN, _ | _, NaN => NaN
  | Infinity _, Infinity _ => NaN
  | Infinity a, Finite q => Infinity (xorb a (negb (Qle_bool 0 q)))
  | Finite _, Infinity _ => zero
  | Finite p, Finite q =>
      if Qeq_bool q 0 then
        (if Qeq_bool p 0 then NaN else Infinity (negb (Qle_bool 0 p)))
      else roundQ (Qdiv p q)
  end.

(** *** [Number::toString] (radix 10) *)

(** The least [n] with [a < 10^n], for [0 < a]. *)
Fixpoint raiseExp (fuel : nat) (a : Q) (n : Z) : Z :=
  match fuel with
  | O => n
  | S f => if Qle_bool (pow10 n) a then raiseExp f a (n + 1) else n
  end.

Definition decExp (a : Q) : Z :=
  raiseExp 4 a (floorLog2 a * 30102 / 100000 - 1).

(** Among the two [k]-digit neighbours of [a / 10^(n-k)], the one that rounds
    back to [a] and is nearest to it (the even one on a tie). *)
Definition candidate (a : Q) (n : Z) (k : Z) : option Z :=
  let scale := pow10 (n - k) in
  let lo := Qfloor (Qdiv a scale) in
  let hi := lo + 1 in
  let ok (s : Z) := ((0 <? s) && eqb (roundQ (Qmult (inject_Z s) scale)) (Finite a))%bool in
  let dlo := Qminus a (Qmult (inject_Z lo) scale) in
  let dhi := Qminus (Qmult (inject_Z hi) scale) a in
  match ok lo, ok hi with
  | true, false => Some lo
  | false, true => Some hi
  | false, false => None
  | true, true =>
      match Qcompare dlo dhi with
      | Lt => Some lo
      | Gt => Some hi
      | Eq => Some (if Z.even lo then lo else hi)
      end
  end.

(** The shortest digit string: least [k] that has a candidate. *)
Fixpoint shortest (fuel : nat) (a : Q) (n : Z) (k : Z) : Z * Z :=
  match fuel with
  | O => (Qfloor (Qdiv a (pow10 (n - k))), k)
  | S f =>
      match candidate a n k with
      | Some s => (s, k)
      | None => shortest f a n (k + 1)
      end
  end.

Definition splitAt (n : nat) (s : string) : string * string :=
  (String.substring 0 n s, String.substring n (String.length s - n) s).

Definition formatDigits (ds : string) (n : Z) : string :=
  let k := Z.of_nat (String.length ds) in
  if ((k <=? n) && (n <=? 21))%bool then
    ds +:+ Js.zeros (Z.to_nat (n - k))
  else if ((0 <? n) && (n <=? 21))%bool then
    let '(a, b) := splitAt (Z.to_nat n) ds in a +:+ "." +:+ b
  else if ((-6 <? n) && (n <=? 0))%bool then
    "0." +:+ Js.zeros (Z.to_nat (- n)) +:+ ds
  else
    let e := n - 1 in
    let es := (if e <? 0 then "-" else "+") +:+ Js.digits (Z.abs e) in
    let '(a, b) := splitAt 1 ds in
    if k =? 1 then a +:+ "e" +:+ es else a +:+ "." +:+ b +:+ "e" +:+ es.

Definition toString (x : number) : string :=
  match x with
  | NaN => "NaN"
  | Infinity neg => if neg then "-Infinity" else "Infinity"
  | Finite q =>
      match Qcompare q 0 with
      | Eq => "0"
      | c =>
          let a := Qred (Qabs q) in
          let n := decExp a in
          let '(s, k) := shortest 17 a n 1 in
          (* a candidate equal to 10^k has one digit more than asked for *)
          let '(ds, n) :=
            if s =? 10 ^ k then ("1"%string, n + 1) else (Js.digits s, n) in
          (match c with Lt => "-"%string | _ => EmptyString end) +:+ formatDigits ds n
      end
  end.

(** *** [parseFloat] and [parseInt] on strings *)

(** An exponent part [e], [e+] or [e-] followed by at least one digit. *)
Definition exponent (s : string) : Z :=
  match s with
  | String c r =>
      if (Ascii.eqb c "e" || Ascii.eqb c "E")%bool then
        let '(neg, r') :=
          match r with
          | String "-"%char t => (true, t)
          | String "+"%char t => (false, t)
          | _ => (false, r)
          end in
        let '(v, len, _) := Js.takeDigits 0 0 r' in
        match len with
        | O => 0
        | _ => if neg then - v else v
        end
      else 0
  | EmptyString => 0
  end.

(** Longest prefix that is a decimal literal, after leading white space:
    sign, then [Infinity] or digits with an optional fraction and exponent. *)
Definition parseFloat (s : string) : number :=
  let s := Js.trimStart s in
  let '(neg, s) :=
    match s with
    | String "-"%char t => (true, t)
    | String "+"%char t => (false, t)
    | _ => (false, s)
    end in
  if Js.startsWith "Infinity" s then Infinity neg
  else
    let '(ip, ilen, r) := Js.takeDigits 0 0 s in
    let '(fp, flen, r) :=
      match r with
      | String "."%char t =>
          (* a lone point after no digits needs a digit after it *)
          let '(fp, flen, r') := Js.takeDigits 0 0 t in
          match ilen, flen with
          | O, O => (0, O, r)
          | _, _ => (fp, flen, r')
          end
      | _ => (0, O, r)
      end in
    match ilen, flen with
    | O, O => NaN
    | _, _ =>
        let mant := ip * 10 ^ Z.of_nat flen + fp in
        let e := exponent r - Z.of_nat flen in
        let v := Qmult (inject_Z mant) (pow10 e) in
        roundQ (if neg then Qopp v else v)
    end.

(** [parseInt(s, 10)] *)
Definition parseInt (s : string) : number :=
  let s := Js.trimStart s in
  let '(neg, s) :=
    match s with
    | String "-"%char t => (true, t)
    | String "+"%char t => (false, t)
    | _ => (false, s)
    end in
  let '(v, len, _) := Js.takeDigits 0 0 s in
  match len with
  | O => NaN
  | _ => ofZ (if neg then - v else v)
  end.

Definition isHexDigit (c : ascii) : bool :=
  let n := nat_of_ascii (Js.lowerChar c) in
  (Js.isDigit c || (Nat.leb 97 n && Nat.leb n 102))%bool.

Definition hexVal (c : ascii) : Z :=
  if Js.isDigit c then Js.digitVal c
  else Z.of_nat (nat_of_ascii (Js.lowerChar c)) - 87.

Fixpoint takeHex (acc : Z) (len : nat) (s : string) : Z * nat :=
  match s with
  | String c r =>
      if isHexDigit c then takeHex (16 * acc + hexVal c) (S len) r else (acc, len)
  | EmptyString => (acc, len)
  end.

(** [parseInt(s)] without a radix: base 16 after a [0x] prefix, else base 10. *)
Definition parseIntAuto (s : string) : number :=
  let s := Js.trimStart s in
  let '(neg, s) :=
    match s with
    | String "-"%char t => (true, t)
    | String "+"%char t => (false, t)
    | _ => (false, s)
    end in
  let '(v, len) :=
    match s with
    | String "0"%char (String x t) =>
        if (Ascii.eqb x "x" || Ascii.eqb x "X")%bool then takeHex 0 0 t
        else let '(v, len, _) := Js.takeDigits 0 0 s in (v, len)
    | _ => let '(v, len, _) := Js.takeDigits 0 0 s in (v, len)
    end in
  match len with
  | O => NaN
  | _ => ofZ (if neg then - v else v)
  end.

(** [a - b < 0], the test a sort comparator [(a, b) => a - b] is used for. *)
Definition ltb (x y : number) : bool :=
  match x, y with
  | Finite p, Finite q => negb (Qle_bool q p)
  | Infinity true, Finite _ | Finite _, Infinity false => true
  | Infinity true, Infinity false => true
  | _, _ => false
  end.

(** [x || d] on numbers *)
Definition orElse (x d : number) : number := if truthy x then x else d.

End Num.

(** ** Dates *)

Module Date.

(** Civil date of a day count from 1970-01-01 (proleptic Gregorian calendar). *)
Definition civil (days : Z) : Z * Z * Z :=
  let z := days + 719468 in
  let era := z / 146097 in
  let doe := z - era * 146097 in
  let yoe := (doe - doe / 1460 + doe / 36524 - doe / 146096) / 365 in
  let doy := doe - (365 * yoe + yoe / 4 - yoe / 100) in
  let mp := (5 * doy + 2) / 153 in
  let d := doy - (153 * mp + 2) / 5 + 1 in
  let m := if mp <? 10 then mp + 3 else mp - 9 in
  ((yoe + era * 400 + (if m <=? 2 then 1 else 0)), m, d).

(** [new Date(ms).toISOString()], for the years 0 to 9999. *)
Definition toISOString (ms : Z) : string :=
  let r := ms mod 86400000 in
  let '(y, m, d) := civil (ms / 86400000) in
  Js.pad 4 y +:+ "-" +:+ Js.pad 2 m +:+ "-" +:+ Js.pad 2 d +:+ "T" +:+
  Js.pad 2 (r / 3600000) +:+ ":" +:+ Js.pad 2 (r / 60000 mod 60) +:+ ":" +:+
  Js.pad 2 (r / 1000 mod 60) +:+ "." +:+ Js.pad 3 (r mod 1000) +:+ "Z".

(** [iso.split('T')[0]] *)
Definition datePart (iso : string) : string :=
  match Js.split "T" iso with
  | d :: _ => d
  | [] => EmptyString
  end.

End Date.

(** ** [Map<string, V>]: entries in insertion order *)

Module JsMap.
Section WithValue.
Context {V : Type}.

Definition t : Type := list (string * V).

Definition empty : t := [].

Fixpoint get (k : string) (m : t) : option V :=
  match m with
  | [] => None
  | (k', v) :: r => if String.eqb k' k then Some v else get k r
  end.

Definition has (k : string) (m : t) : bool :=
  match get k m with Some _ => true | None => false end.

(** [m.set(k, v)]: an existing key keeps its place, a new key goes last. *)
Fixpoint set (k : string) (v : V) (m : t) : t :=
  match m with
  | [] => [(k, v)]
  | (k', v') :: r =>
      if String.eqb k' k then (k, v) :: r else (k', v') :: set k v r
  end.

(** [m.delete(k)]; the boolean it returns is [has k m]. *)
Definition delete (k : string) (m : t) : t :=
  List.filter (fun kv => negb (String.eqb (fst kv) k)) m.

Definition entries (m : t) : list (string * V) := m.
Definition values (m : t) : list V := List.map snd m.
Definition keys (m : t) : list string := List.map fst m.

(** [new Map(entries)] *)
Definition ofEntries (l : list (string * V)) : t :=
  List.fold_left (fun m kv => set (fst kv) (snd kv) m) l empty.

End WithValue.
Arguments t : clear implicits.
End JsMap.

(** ** Data model ([types.ts]) *)

Abbreviation number := Num.number.

Module MenuCategory.
(** [Omit<MenuCategory, 'id'>] *)
Record data : Type := mkData {
  name : string;
  description : string;
  sortOrder : number;
  activeFlag : bool;
  tenantId : string
}.
Record t : Type := mk { id : string; fields : data }.

(** [{ ...d, tenantId }] *)
Definition withTenantId (tenant : string) (d : data) : data :=
  mkData (name d) (description d) (sortOrder d) (activeFlag d) tenant.

(** [{ ...c, sortOrder }] *)
Definition withSortOrder (order : number) (c : t) : t :=
  mk (id c)
     (mkData (name (fields c)) (description (fields c)) order (activeFlag (fields c))
             (tenantId (fields c))).
End MenuCategory.

(** The enums are string enums: at run time their values are these strings. *)
Module Currency.
Definition USD : string := "USD".
Definition values : list string := ["USD"; "EUR"; "GBP"; "JPY"].
End Currency.

Module SpecialType.
Definition NONE : string := "None".
Definition values : list string :=
  ["None"; "Vegetarian"; "Non-Vegetarian"; "Vegan"; "Chef's Special"].
End SpecialType.

Module ImageOrientation.
Definition SQUARE : string := "1:1".
Definition values : list string := ["16:9"; "3:4"; "1:1"].
End ImageOrientation.

Module MenuItem.
(** [Omit<MenuItem, 'id' | 'createdAt' | 'updatedAt'>]; an optional
    property that is absent or [undefined] is [None]. *)
Record data : Type := mkData {
  name : string;
  description : string;
  price : number;
  currency : string;
  imageUrl : string;
  videoUrl : option string;
  allergens : list string;
  categoryId : string;
  availabilityFlag : bool;
  tenantId : string;
  displayName : option string;
  itemCode : option string;
  prepTime : option number;
  soldOut : bool;
  portion : option string;
  specialType : option string;
  calories : option number;
  maxOrderQty : option number;
  bogo : bool;
  complimentary : option string;
  imageOrientation : option string;
  availableTime : option string;
  availableDate : option string
}.
Record t : Type := mk {
  id : string;
  createdAt : string;
  updatedAt : string;
  fields : data
}.

(** [{ ...d, availabilityFlag }] *)
Definition withAvailabilityFlag (flag : bool) (d : data) : data :=
  mkData (name d) (description d) (price d) (currency d) (imageUrl d) (videoUrl d)
         (allergens d) (categoryId d) flag (tenantId d) (displayName d) (itemCode d)
         (prepTime d) (soldOut d) (portion d) (specialType d) (calories d) (maxOrderQty d)
         (bogo d) (complimentary d) (imageOrientation d) (availableTime d) (availableDate d).

(** [{ ...d, tenantId }] *)
Definition withTenantId (tenant : string) (d : data) : data :=
  mkData (name d) (description d) (price d) (currency d) (imageUrl d) (videoUrl d)
         (allergens d) (categoryId d) (availabilityFlag d) tenant (displayName d) (itemCode d)
         (prepTime d) (soldOut d) (portion d) (specialType d) (calories d) (maxOrderQty d)
         (bogo d) (complimentary d) (imageOrientation d) (availableTime d) (availableDate d).
End MenuItem.

(** ** The environment of a run *)

(** What the storage collaborator was asked to do, in order.  The log is kept
    beside the stores so that statements about the number and order of calls
    can be made; no function reads it. *)
Inductive ApiCall : Type :=
  | GetCategories (tenantId : string)
  | AddCategory (categoryData : MenuCategory.data)
  | UpdateCategory (updatedCategory : MenuCategory.t)
  | DeleteCategory (categoryId : string)
  | GetMenuItems (tenantId categoryId : string)
  | GetAllMenuItems (tenantId : string)
  | AddMenuItem (itemData : MenuItem.data)
  | AddMenuItemsBatch (itemsData : list MenuItem.data)
  | UpdateMenuItem (updatedItem : MenuItem.t)
  | DeleteMenuItem (itemId : string).

(** A cell of a worksheet as the XLSX library hands it over. *)
Inductive cell : Type :=
  | CStr (s : string)
  | CNum (n : number)
  | CBool (b : bool).

(** A written worksheet: rows of (column, value) pairs; [None] is a property
    whose value is [undefined]. *)
Definition sheetRow : Type := list (string * option cell).
Record Worksheet : Type := mkSheet {
  sheetName : string;
  sheetRows : list sheetRow;
  cols : option (list Z)             (* [worksheet['!cols']], widths in characters *)
}.

Record ExportOptions : Type := mkOptions {
  format : string;                   (* 'csv' | 'json' | 'xlsx' in the type *)
  includeImages : option bool;
  includeMetadata : option bool;
  dateRange : option (Z * Z)
}.

(** The object [exportToJSON] serialises. *)
Record JsonExport : Type := mkJsonExport {
  exportDate : string;
  version : string;
  metadata : option (nat * nat * ExportOptions);
  jsonCategories : list MenuCategory.t;
  jsonMenuItems : list MenuItem.t
}.

(** What a download carries, before the browser or the XLSX library encodes it. *)
Inductive Content : Type :=
  | CsvText (text : string)
  | JsonDoc (doc : JsonExport)
  | Workbook (sheets : list Worksheet).

Record Download : Type := mkDownload { fileName : string; content : Content }.

Record World : Type := mkWorld {
  categoryDB : JsMap.t MenuCategory.t;
  menuItemDB : JsMap.t MenuItem.t;
  now : Z;                           (* [Date.now()], milliseconds *)
  random : nat -> string;            (* the ids [generateId] will draw *)
  drawn : nat;
  xlsxAvailable : bool;              (* [typeof XLSX !== 'undefined'] *)
  downloads : list Download;         (* files handed to the browser, oldest first *)
  console : list string;             (* [console.error] lines *)
  calls : list ApiCall
}.

Definition setCategoryDB (f : JsMap.t MenuCategory.t -> JsMap.t MenuCategory.t) (w : World) : World :=
  mkWorld (f (categoryDB w)) (menuItemDB w) (now w) (random w) (drawn w)
          (xlsxAvailable w) (downloads w) (console w) (calls w).

Definition setMenuItemDB (f : JsMap.t MenuItem.t -> JsMap.t MenuItem.t) (w : World) : World :=
  mkWorld (categoryDB w) (f (menuItemDB w)) (now w) (random w) (drawn w)
          (xlsxAvailable w) (downloads w) (console w) (calls w).

Definition advance (ms : Z) (w : World) : World :=
  mkWorld (categoryDB w) (menuItemDB w) (now w + ms) (random w) (drawn w)
          (xlsxAvailable w) (downloads w) (console w) (calls w).

Definition draw (w : World) : World :=
  mkWorld (categoryDB w) (menuItemDB w) (now w) (random w) (S (drawn w))
          (xlsxAvailable w) (downloads w) (console w) (calls w).

Definition addDownload (d : Download) (w : World) : World :=
  mkWorld (categoryDB w) (menuItemDB w) (now w) (random w) (drawn w)
          (xlsxAvailable w) (downloads w ++ [d]) (console w) (calls w).

Definition addConsole (line : string) (w : World) : World :=
  mkWorld (categoryDB w) (menuItemDB w) (now w) (random w) (drawn w)
          (xlsxAvailable w) (downloads w) (console w ++ [line]) (calls w).

Definition addCall (c : ApiCall) (w : World) : World :=
  mkWorld (categoryDB w) (menuItemDB w) (now w) (random w) (drawn w)
          (xlsxAvailable w) (downloads w) (console w) (calls w ++ [c]).

(** ** Computations that may throw *)

Inductive result (A : Type) : Type :=
  | Ok (a : A)
  | Throw (message : string).
Arguments Ok {A} a.
Arguments Throw {A} message.

Definition M (A : Type) : Type := World -> result A * World.

Global Instance M_ret : MRet M := fun A a w => (Ok a, w).

Global Instance M_bind : MBind M := fun A B f m w =>
  match m w with
  | (Ok a, w') => f a w'
  | (Throw e, w') => (Throw e, w')
  end.

Definition throw {A : Type} (message : string) : M A := fun w => (Throw message, w).

(** [try { body } catch (e) { handler(e.message) }] *)
Definition tryCatch {A : Type} (body : M A) (handler : string -> M A) : M A := fun w =>
  match body w with
  | (Ok a, w') => (Ok a, w')
  | (Throw e, w') => handler e w'
  end.

(** [try { body } finally { after }] *)
Definition finally {A : Type} (body : M A) (after : M unit) : M A := fun w =>
  match body w with
  | (r, w') =>
      match after w' with
      | (Ok _, w'') => (r, w'')
      | (Throw e, w'') => (Throw e, w'')
      end
  end.

(** A result that was obtained outside, brought into the run. *)
Definition ofResult {A : Type} (r : result A) : M A := fun w => (r, w).

Definition gets {A : Type} (f : World -> A) : M A := fun w => (Ok (f w), w).
Definition modify (f : World -> World) : M unit := fun w => (Ok tt, f w).

(** [for (const x of xs) { body }] with the loop variables threaded as [s]. *)
Fixpoint forEach {S X : Type} (body : S -> X -> M S) (xs : list X) (s : S) : M S :=
  match xs with
  | [] => mret s
  | x :: r => s' ← body s x; forEach body r s'
  end.

(** [Promise.all(xs.map(f))] for calls that do all their work before they
    first wait, as the calls of the storage collaborator do.  The calls are
    started one after the other at the same moment [t]; [startAll] gives the
    outcome of each with the moment it settles. *)
Definition setNow (t : Z) (w : World) : World := advance (t - now w) w.

Fixpoint startAll {X A : Type} (f : X -> M A) (t : Z) (xs : list X) (w : World)
    : list (result A * Z) * World :=
  match xs with
  | [] => ([], w)
  | x :: r =>
      match f x (setNow t w) with
      | (res, w1) =>
          match startAll f t r w1 with
          | (rs, w2) => ((res, now w1) :: rs, w2)
          end
      end
  end.

(** The rejection that comes first in time, the earlier call on a tie. *)
Fixpoint firstRejection {A : Type} (rs : list (result A * Z)) : option (string * Z) :=
  match rs with
  | [] => None
  | (Throw e, t) :: r =>
      match firstRejection r with
      | Some (e', t') => if Z.ltb t' t then Some (e', t') else Some (e, t)
      | None => Some (e, t)
      end
  | (Ok _, _) :: r => firstRejection r
  end.

Definition fulfilled {A : Type} (rs : list (result A * Z)) : list A :=
  List.flat_map (fun r => match fst r with Ok a => [a] | Throw _ => [] end) rs.

(** The promise rejects as soon as one call has rejected, and else fulfils
    when the last call has. *)
Definition promiseAll {X A : Type} (f : X -> M A) (xs : list X) : M (list A) := fun w =>
  match startAll f (now w) xs w with
  | (rs, w') =>
      match firstRejection rs with
      | Some (e, t) => (Throw e, setNow t w')
      | None => (Ok (fulfilled rs), setNow (List.fold_left Z.max (List.map snd rs) (now w)) w')
      end
  end.

Definition dateNow : M Z := gets now.
Definition newDateISO : M string := gets (fun w => Date.toISOString (now w)).
Definition consoleError (line : string) : M unit := modify (addConsole line).

(** ** The storage collaborator ([mockApiService.ts]) *)

Module api.

Definition category (id name description : string) (sortOrder : Z) : MenuCategory.t :=
  MenuCategory.mk id
    {| MenuCategory.name := name;
       MenuCategory.description := description;
       MenuCategory.sortOrder := Num.ofZ sortOrder;
       MenuCategory.activeFlag := true;
       MenuCategory.tenantId := "tenant-123" |}.

Definition initialCategoriesData : list MenuCategory.t :=
  [ category "cat-1" "Appetizers" "Start your meal with our delicious appetizers" 1;
    category "cat-2" "Main Course" "Our signature main dishes" 2;
    category "cat-3" "Desserts" "Sweet endings to your meal" 3;
    category "cat-4" "Beverages" "Refreshing drinks and cocktails" 4 ].

(** An entry of [initialMenuItemsData]; [loaded] is the time stamp taken when
    the module is loaded. *)
Definition item (loaded id name description price imageUrl : string) (allergens : list string)
    (categoryId specialType : string) (calories prepTime : Z) : MenuItem.t :=
  MenuItem.mk id loaded loaded
    {| MenuItem.name := name;
       MenuItem.description := description;
       MenuItem.price := Num.parseFloat price;
       MenuItem.currency := "USD";
       MenuItem.imageUrl := imageUrl;
       MenuItem.videoUrl := None;
       MenuItem.allergens := allergens;
       MenuItem.categoryId := categoryId;
       MenuItem.availabilityFlag := true;
       MenuItem.tenantId := "tenant-123";
       MenuItem.displayName := None;
       MenuItem.itemCode := None;
       MenuItem.prepTime := Some (Num.ofZ prepTime);
       MenuItem.soldOut := false;
       MenuItem.portion := None;
       MenuItem.specialType := Some specialType;
       MenuItem.calories := Some (Num.ofZ calories);
       MenuItem.maxOrderQty := None;
       MenuItem.bogo := false;
       MenuItem.complimentary := None;
       MenuItem.imageOrientation := None;
       MenuItem.availableTime := None;
       MenuItem.availableDate := None |}.

Definition initialMenuItemsData (loaded : string) : list MenuItem.t :=
  [ item loaded "item-1" "Bruschetta"
      "Toasted bread topped with tomatoes, garlic, and fresh basil" "8.99"
      "https://images.unsplash.com/photo-1572445271230-a78b5944a659?w=400"
      ["Gluten"] "cat-1" "Vegetarian" 120 10;
    item loaded "item-2" "Margherita Pizza"
      "Classic pizza with tomato sauce, mozzarella, and fresh basil" "16.99"
      "https://images.unsplash.com/photo-1574071318508-1cdbab80d002?w=400"
      ["Gluten"; "Dairy"] "cat-2" "Vegetarian" 280 20;
    item loaded "item-3" "Caesar Salad"
      "Fresh romaine lettuce with Caesar dressing, croutons, and parmesan" "12.99"
      "https://images.unsplash.com/photo-1546793665-c74683f339c1?w=400"
      ["Gluten"; "Dairy"; "Eggs"] "cat-1" "Vegetarian" 180 8;
    item loaded "item-4" "Chocolate Lava Cake"
      "Warm chocolate cake with molten center, served with vanilla ice cream" "9.99"
      "https://images.unsplash.com/photo-1624353365286-3f8d62daad51?w=400"
      ["Gluten"; "Dairy"; "Eggs"] "cat-3" "None" 320 15;
    item loaded "item-5" "Iced Latte"
      "Smooth espresso with cold milk and ice" "4.99"
      "https://images.unsplash.com/photo-1509042239860-f550ce710b93?w=400"
      ["Dairy"] "cat-4" "None" 80 5 ].

(** The two stores as the module creates them. *)
Definition initialCategoryDB : JsMap.t MenuCategory.t :=
  JsMap.ofEntries (List.map (fun c => (MenuCategory.id c, c)) initialCategoriesData).

Definition initialMenuItemDB (loaded : string) : JsMap.t MenuItem.t :=
  JsMap.ofEntries (List.map (fun i => (MenuItem.id i, i)) (initialMenuItemsData loaded)).

(** [setTimeout] resolves after [delay] milliseconds; nothing else moves the clock. *)
Definition simulateDelay (delay : Z) : M unit := modify (advance delay).

(** [structuredClone] of an immutable value is the value. *)
Definition resolveWithCopy {T : Type} (data : T) : M T :=
  simulateDelay 500;; mret data.

(** [xs.sort((a, b) => a.sortOrder - b.sortOrder)]: a stable sort.  When a
    sort order is NaN the comparator is not consistent, and the order of the
    result is then the engine's own; the result is a rearrangement of the
    list in any case.  Nothing below relies on the order of the result
    unless the sort orders are finite. *)
Fixpoint insertSorted (c : MenuCategory.t) (l : list MenuCategory.t) : list MenuCategory.t :=
  match l with
  | [] => [c]
  | h :: r =>
      if Num.ltb (MenuCategory.sortOrder (MenuCategory.fields h))
                 (MenuCategory.sortOrder (MenuCategory.fields c))
      then h :: insertSorted c r else c :: l
  end.

Definition sortBySortOrder (l : list MenuCategory.t) : list MenuCategory.t :=
  List.fold_right insertSorted [] l.

Definition getCategories (tenantId : string) : M (list MenuCategory.t) :=
  modify (addCall (GetCategories tenantId));;
  db ← gets categoryDB;
  let data :=
    sortBySortOrder
      (List.filter (fun c => String.eqb (MenuCategory.tenantId (MenuCategory.fields c)) tenantId)
                   (JsMap.values db)) in
  resolveWithCopy data.

Definition addCategory (categoryData : MenuCategory.data) : M MenuCategory.t :=
  modify (addCall (AddCategory categoryData));;
  t ← dateNow;
  let newCategory := MenuCategory.mk ("cat-" +:+ Js.intToString t) categoryData in
  modify (setCategoryDB (JsMap.set (MenuCategory.id newCategory) newCategory));;
  resolveWithCopy newCategory.

Definition updateCategory (updatedCategory : MenuCategory.t) : M MenuCategory.t :=
  modify (addCall (UpdateCategory updatedCategory));;
  db ← gets categoryDB;
  if negb (JsMap.has (MenuCategory.id updatedCategory) db) then
    throw "Category not found"
  else
    modify (setCategoryDB (JsMap.set (MenuCategory.id updatedCategory) updatedCategory));;
    resolveWithCopy updatedCategory.

Definition deleteCategory (categoryId : string) : M unit :=
  modify (addCall (DeleteCategory categoryId));;
  db ← gets categoryDB;
  if negb (JsMap.has categoryId db) then
    throw "Category not found"
  else
    modify (setCategoryDB (JsMap.delete categoryId));;
    items ← gets menuItemDB;
    let itemsToDelete :=
      List.map fst
        (List.filter
           (fun e => String.eqb (MenuItem.categoryId (MenuItem.fields (snd e))) categoryId)
           (JsMap.entries items)) in
    modify (setMenuItemDB
              (fun db => List.fold_left (fun db id => JsMap.delete id db) itemsToDelete db));;
    simulateDelay 500.

Definition getMenuItems (tenantId categoryId : string) : M (list MenuItem.t) :=
  modify (addCall (GetMenuItems tenantId categoryId));;
  db ← gets menuItemDB;
  let data :=
    List.filter
      (fun item =>
         (String.eqb (MenuItem.tenantId (MenuItem.fields item)) tenantId &&
          String.eqb (MenuItem.categoryId (MenuItem.fields item)) categoryId)%bool)
      (JsMap.values db) in
  resolveWithCopy data.

Definition getAllMenuItems (tenantId : string) : M (list MenuItem.t) :=
  modify (addCall (GetAllMenuItems tenantId));;
  db ← gets menuItemDB;
  let data :=
    List.filter (fun item => String.eqb (MenuItem.tenantId (MenuItem.fields item)) tenantId)
                (JsMap.values db) in
  resolveWithCopy data.

Definition addMenuItem (itemData : MenuItem.data) : M MenuItem.t :=
  modify (addCall (AddMenuItem itemData));;
  t ← dateNow;
  iso ← newDateISO;
  let newItem := MenuItem.mk ("item-" +:+ Js.intToString t) iso iso itemData in
  modify (setMenuItemDB (JsMap.set (MenuItem.id newItem) newItem));;
  resolveWithCopy newItem.

(** The item built for position [index] of a batch started at [startId]. *)
Definition batchItem (startId : Z) (iso : string) (index : nat) (item : MenuItem.data) : MenuItem.t :=
  MenuItem.mk ("item-" +:+ Js.intToString (startId + Z.of_nat index)) iso iso item.

(** [itemsData.forEach((item, index) => menuItemDB.set(...))] from position [index] on. *)
Fixpoint setBatch (startId : Z) (iso : string) (index : nat) (itemsData : list MenuItem.data)
    (db : JsMap.t MenuItem.t) : JsMap.t MenuItem.t :=
  match itemsData with
  | [] => db
  | item :: r =>
      let newItem := batchItem startId iso index item in
      setBatch startId iso (S index) r (JsMap.set (MenuItem.id newItem) newItem db)
  end.

Definition addMenuItemsBatch (itemsData : list MenuItem.data) : M nat :=
  modify (addCall (AddMenuItemsBatch itemsData));;
  startId ← dateNow;
  iso ← newDateISO;
  modify (setMenuItemDB (setBatch startId iso 0 itemsData));;
  simulateDelay 500;;
  mret (length itemsData).

Definition updateMenuItem (updatedItem : MenuItem.t) : M MenuItem.t :=
  modify (addCall (UpdateMenuItem updatedItem));;
  db ← gets menuItemDB;
  if negb (JsMap.has (MenuItem.id updatedItem) db) then
    throw "Menu item not found"
  else
    iso ← newDateISO;
    let itemToUpdate :=
      MenuItem.mk (MenuItem.id updatedItem) (MenuItem.createdAt updatedItem) iso
                  (MenuItem.fields updatedItem) in
    modify (setMenuItemDB (JsMap.set (MenuItem.id updatedItem) itemToUpdate));;
    resolveWithCopy itemToUpdate.

Definition deleteMenuItem (itemId : string) : M unit :=
  modify (addCall (DeleteMenuItem itemId));;
  db ← gets menuItemDB;
  let deleted := JsMap.has itemId db in
  modify (setMenuItemDB (JsMap.delete itemId));;
  if negb deleted then throw "Menu item not found"
  else simulateDelay 500.

End api.

(** ** [exportImportService.ts] *)

Module exportImportService.

Record ImportResult : Type := mkImportResult {
  success : bool;
  message : string;
  importedItems : list MenuItem.t;
  errors : option (list string)
}.

(** A parsed JSON value, as [JSON.parse] returns it. *)
#[warnings="-register-all"]
Inductive json : Type :=
  | JNull
  | JBool (b : bool)
  | JNum (n : number)
  | JStr (s : string)
  | JArr (elements : list json)
  | JObj (properties : list (string * json)).


Definition boolToString (b : bool) : string := if b then "true" else "false".

(** [x || ''] inside a joined array, for an optional string. *)
Definition strOrEmpty (x : option string) : string := default EmptyString x.

(** [x || ''] inside a joined array, for an optional number. *)
Definition numOrEmpty (x : option number) : string :=
  match x with
  | Some n => if Num.truthy n then Num.toString n else EmptyString
  | None => EmptyString
  end.

Definition doubleQuote : ascii := ascii_of_nat 34.

(** A template literal that wraps the value in double quotes. *)
Definition quoted (s : string) : string :=
  String doubleQuote (s +:+ String doubleQuote EmptyString).

(** [categories.find(cat => cat.id === id)?.name || ''] *)
Definition categoryNameOf (categories : list MenuCategory.t) (id : string) : string :=
  match List.find (fun cat => String.eqb (MenuCategory.id cat) id) categories with
  | Some cat => MenuCategory.name (MenuCategory.fields cat)
  | None => EmptyString
  end.

Definition headers : list string :=
  ["ID"; "Name"; "Description"; "Price"; "Currency"; "Category ID"; "Category Name";
   "Special Type"; "Allergens"; "Availability Flag"; "Sold Out"; "Prep Time (min)";
   "Calories"; "Max Order Qty"; "BOGO"; "Complimentary"; "Image Orientation";
   "Created At"; "Updated At"].

Definition csvRow (categories : list MenuCategory.t) (item : MenuItem.t) : list string :=
  let f := MenuItem.fields item in
  [ MenuItem.id item;
    quoted (MenuItem.name f);
    quoted (MenuItem.description f);
    Num.toString (MenuItem.price f);
    MenuItem.currency f;
    MenuItem.categoryId f;
    quoted (categoryNameOf categories (MenuItem.categoryId f));
    strOrEmpty (MenuItem.specialType f);
    Js.join ";" (MenuItem.allergens f);
    boolToString (MenuItem.availabilityFlag f);
    boolToString (MenuItem.soldOut f);
    numOrEmpty (MenuItem.prepTime f);
    numOrEmpty (MenuItem.calories f);
    numOrEmpty (MenuItem.maxOrderQty f);
    boolToString (MenuItem.bogo f);
    quoted (strOrEmpty (MenuItem.complimentary f));
    strOrEmpty (MenuItem.imageOrientation f);
    MenuItem.createdAt item;
    MenuItem.updatedAt item ].

Definition lineFeed : string := String (ascii_of_nat 10) EmptyString.

Definition csvContent (menuItems : list MenuItem.t) (categories : list MenuCategory.t) : string :=
  Js.join lineFeed
    (List.map (Js.join ",") (headers :: List.map (csvRow categories) menuItems)).

(** The download link that is created, clicked and removed again. *)
Definition download (extension : string) (c : Content) : M unit :=
  iso ← newDateISO;
  modify (addDownload
            (mkDownload ("menu-export-" +:+ Date.datePart iso +:+ "." +:+ extension) c)).

Definition exportToCSV (menuItems : list MenuItem.t) (categories : list MenuCategory.t)
    (options : ExportOptions) : M unit :=
  download "csv" (CsvText (csvContent menuItems categories)).

Definition exportToJSON (menuItems : list MenuItem.t) (categories : list MenuCategory.t)
    (options : ExportOptions) : M unit :=
  iso ← newDateISO;
  let exportData :=
    mkJsonExport iso "1.0"
      (if default false (includeMetadata options)
       then Some (length menuItems, length categories, options) else None)
      categories menuItems in
  download "json" (JsonDoc exportData).

Definition categorySheetRow (cat : MenuCategory.t) : sheetRow :=
  let f := MenuCategory.fields cat in
  [ ("ID", Some (CStr (MenuCategory.id cat)));
    ("Name", Some (CStr (MenuCategory.name f)));
    ("Description", Some (CStr (MenuCategory.description f)));
    ("Sort Order", Some (CNum (MenuCategory.sortOrder f)));
    ("Active", Some (CBool (MenuCategory.activeFlag f)));
    ("Tenant ID", Some (CStr (MenuCategory.tenantId f))) ].

(** [x || ''] as a cell, for an optional number. *)
Definition numOrEmptyCell (x : option number) : cell :=
  match x with
  | Some n => if Num.truthy n then CNum n else CStr EmptyString
  | None => CStr EmptyString
  end.

Definition itemSheetRow (categories : list MenuCategory.t) (item : MenuItem.t) : sheetRow :=
  let f := MenuItem.fields item in
  [ ("ID", Some (CStr (MenuItem.id item)));
    ("Name", Some (CStr (MenuItem.name f)));
    ("Description", Some (CStr (MenuItem.description f)));
    ("Price", Some (CNum (MenuItem.price f)));
    ("Currency", Some (CStr (MenuItem.currency f)));
    ("Category ID", Some (CStr (MenuItem.categoryId f)));
    ("Category Name", Some (CStr (categoryNameOf categories (MenuItem.categoryId f))));
    ("Special Type", Some (CStr (strOrEmpty (MenuItem.specialType f))));
    ("Allergens", Some (CStr (Js.join "; " (MenuItem.allergens f))));
    ("Availability Flag", Some (CBool (MenuItem.availabilityFlag f)));
    ("Sold Out", Some (CBool (MenuItem.soldOut f)));
    ("Prep Time (min)", Some (numOrEmptyCell (MenuItem.prepTime f)));
    ("Calories", Some (numOrEmptyCell (MenuItem.calories f)));
    ("Max Order Qty", Some (numOrEmptyCell (MenuItem.maxOrderQty f)));
    ("BOGO", Some (CBool (MenuItem.bogo f)));
    ("Complimentary", Some (CStr (strOrEmpty (MenuItem.complimentary f))));
    ("Image Orientation", Some (CStr (strOrEmpty (MenuItem.imageOrientation f))));
    ("Created At", Some (CStr (MenuItem.createdAt item)));
    ("Updated At", Some (CStr (MenuItem.updatedAt item))) ].

(** [menuItems.reduce((sum, item) => sum + item.price, 0)] *)
Definition totalPrice (menuItems : list MenuItem.t) : number :=
  List.fold_left (fun sum item => Num.add sum (MenuItem.price (MenuItem.fields item)))
                 menuItems Num.zero.

Definition metric (name : string) (value : cell) : sheetRow :=
  [("Metric", Some (CStr name)); ("Value", Some value)].

Definition countCell (n : nat) : cell := CNum (Num.ofZ (Z.of_nat n)).

Definition summaryData (menuItems : list MenuItem.t) (categories : list MenuCategory.t)
    (iso : string) : list sheetRow :=
  [ metric "Total Categories" (countCell (length categories));
    metric "Total Menu Items" (countCell (length menuItems));
    metric "Available Items"
      (countCell (length (List.filter (fun item => negb (MenuItem.soldOut (MenuItem.fields item)))
                                      menuItems)));
    metric "Total Menu Value" (CNum (totalPrice menuItems));
    metric "Average Price"
      (CNum (if Nat.ltb 0 (length menuItems)
             then Num.div (totalPrice menuItems) (Num.ofZ (Z.of_nat (length menuItems)))
             else Num.zero));
    metric "Export Date" (CStr iso) ].

Definition exportToXLSX (menuItems : list MenuItem.t) (categories : list MenuCategory.t)
    (options : ExportOptions) : M unit :=
  available ← gets xlsxAvailable;
  if negb available then
    throw "XLSX library not available. Please install xlsx package for Excel export."
  else
    iso ← newDateISO;
    let workbook :=
      [ mkSheet "Categories" (List.map categorySheetRow categories) None;
        mkSheet "Menu Items" (List.map (itemSheetRow categories) menuItems) None;
        mkSheet "Summary" (summaryData menuItems categories iso) None ] in
    download "xlsx" (Workbook workbook).

Definition exportData (menuItems : list MenuItem.t) (categories : list MenuCategory.t)
    (options : ExportOptions) : M unit :=
  tryCatch
    (if String.eqb (format options) "csv" then exportToCSV menuItems categories options
     else if String.eqb (format options) "json" then exportToJSON menuItems categories options
     else if String.eqb (format options) "xlsx" then exportToXLSX menuItems categories options
     else throw ("Unsupported export format: " +:+ format options))
    (fun error => consoleError ("Export failed: " +:+ error);; throw error).

(** *** Import *)

(** The loop of [parseCSVLine] from the current character on: [result] holds
    the fields pushed so far, [current] the field being read. *)
Fixpoint parseCSVLoop (line : string) (result : list string) (current : string)
    (inQuotes : bool) : list string :=
  match line with
  | EmptyString => result ++ [Js.trim current]
  | String char rest =>
      if Ascii.eqb char doubleQuote then
        parseCSVLoop rest result current (negb inQuotes)
      else if (Ascii.eqb char "," && negb inQuotes)%bool then
        parseCSVLoop rest (result ++ [Js.trim current]) EmptyString inQuotes
      else
        parseCSVLoop rest result (current +:+ String char EmptyString) inQuotes
  end.

Definition parseCSVLine (line : string) : list string :=
  parseCSVLoop line [] EmptyString false.

(** [Math.random().toString(36).substr(2, 9)] *)
Definition generateId : M string :=
  id ← gets (fun w => random w (drawn w));
  modify draw;;
  mret id.

(** [headers.findIndex(h => h.toLowerCase().includes(header.toLowerCase()))].
    The names looked for are those [createMenuItemFromCSV] passes: letters of
    the ASCII range, none of them a k and none ending in an i, the two
    letters that also are the lowercase of a character outside that range.
    Whether a header holds such a name is therefore decided by the mapping
    of the letters A to Z. *)
Fixpoint findIndex (header : string) (headers : list string) : option nat :=
  match headers with
  | [] => None
  | h :: r =>
      if Js.includes (Js.toLowerCase header) (Js.toLowerCase h) then Some O
      else S <$> findIndex header r
  end.

(** [getValue]: [None] is [undefined], the value of [values[index]] past the
    end of the row. *)
Definition getValue (values headers : list string) (header : string) : option string :=
  match findIndex header headers with
  | Some index => values !! index
  | None => Some EmptyString
  end.

Definition truthyStr (v : option string) : bool :=
  match v with Some s => Js.nonEmpty s | None => false end.

(** [String(v)] for a string or [undefined], as the parsers apply it. *)
Definition toStr (v : option string) : string := default "undefined" v.

(** [v || undefined] *)
Definition orUndefined (v : option string) : option string :=
  if truthyStr v then v else None.

Definition numOrUndefined (n : number) : option number :=
  if Num.truthy n then Some n else None.

(** [v.replace(...)] deleting every double quote; on [undefined] the property
    access throws. *)
Definition stripQuotes (v : option string) : M string :=
  match v with
  | Some s => mret (Js.removeChar doubleQuote s)
  | None => throw "Cannot read properties of undefined (reading 'replace')"
  end.

Definition createMenuItemFromCSV (values headers : list string) : M (option MenuItem.t) :=
  let getValue := getValue values headers in
  id ← (if truthyStr (getValue "ID") then mret (toStr (getValue "ID")) else generateId);
  name ← stripQuotes (getValue "Name");
  description ← stripQuotes (getValue "Description");
  let price := Num.orElse (Num.parseFloat (toStr (getValue "Price"))) Num.zero in
  let currency := if truthyStr (getValue "Currency") then toStr (getValue "Currency") else "USD" in
  categoryId ← (if truthyStr (getValue "Category ID") then mret (toStr (getValue "Category ID"))
                else generateId);
  if (negb (Js.nonEmpty name) || negb (Js.nonEmpty description))%bool then mret None
  else
    iso ← newDateISO;
    mret (Some (MenuItem.mk
      id
      (if truthyStr (getValue "Created At") then toStr (getValue "Created At") else iso)
      iso
      {| MenuItem.name := name;
         MenuItem.description := description;
         MenuItem.price := price;
         MenuItem.currency := currency;
         MenuItem.imageUrl := EmptyString;
         MenuItem.videoUrl := None;
         MenuItem.allergens :=
           (if truthyStr (getValue "Allergens")
            then List.map Js.trim (Js.split ";" (toStr (getValue "Allergens")))
            else []);
         MenuItem.categoryId := categoryId;
         MenuItem.availabilityFlag := bool_decide (getValue "Availability Flag" = Some "true");
         MenuItem.tenantId := "tenant-123";
         MenuItem.displayName := None;
         MenuItem.itemCode := None;
         MenuItem.prepTime := numOrUndefined (Num.parseIntAuto (toStr (getValue "Prep Time")));
         MenuItem.soldOut := bool_decide (getValue "Sold Out" = Some "true");
         MenuItem.portion := None;
         MenuItem.specialType := orUndefined (getValue "Special Type");
         MenuItem.calories := numOrUndefined (Num.parseIntAuto (toStr (getValue "Calories")));
         MenuItem.maxOrderQty := numOrUndefined (Num.parseIntAuto (toStr (getValue "Max Order Qty")));
         MenuItem.bogo := bool_decide (getValue "BOGO" = Some "true");
         MenuItem.complimentary := orUndefined (getValue "Complimentary");
         MenuItem.imageOrientation := orUndefined (getValue "Image Orientation");
         MenuItem.availableTime := None;
         MenuItem.availableDate := None |})).

(** The header row of [importFromCSV]: [lines[0].split(',')], each part
    trimmed and with its double quotes deleted. *)
Definition parseHeaderLine (line : string) : list string :=
  List.map (fun h => Js.removeChar doubleQuote (Js.trim h)) (Js.split "," line).

(** The loop variables of [importFromCSV]. *)
Record CsvLoop : Type := mkCsvLoop {
  csvItems : list MenuItem.t;
  csvErrors : list string
}.

(** One turn of the loop, for [lines[i]]. *)
Definition importLine (headers : list string) (st : CsvLoop) (i : nat) (line : string) : M CsvLoop :=
  if negb (Js.nonEmpty (Js.trim line)) then mret st
  else
    tryCatch
      (let values := parseCSVLine line in
       item ← createMenuItemFromCSV values headers;
       match item with
       | Some item => mret (mkCsvLoop (csvItems st ++ [item]) (csvErrors st))
       | None => mret st
       end)
      (fun error =>
         mret (mkCsvLoop (csvItems st)
                         (csvErrors st ++
                            ["Line " +:+ Js.intToString (Z.of_nat i + 1) +:+ ": " +:+ error]))).

Fixpoint importLines (headers : list string) (i : nat) (lines : list string) (st : CsvLoop) : M CsvLoop :=
  match lines with
  | [] => mret st
  | line :: rest => st' ← importLine headers st i line; importLines headers (S i) rest st'
  end.

(** [importFromCSV] on the text [FileReader.readAsText] delivers.  Its outer
    [catch] guards against a failing [split] on a non-string result; on a
    string nothing outside the loop throws. *)
Definition importFromCSV (csv : string) : M ImportResult :=
  let lines := Js.split (ascii_of_nat 10) csv in
  let headers := parseHeaderLine (hd EmptyString lines) in
  st ← importLines headers 1 (tl lines) (mkCsvLoop [] []);
  let n := length (csvItems st) in
  let k := length (csvErrors st) in
  mret (mkImportResult
          (Nat.ltb 0 n)
          ("Successfully imported " +:+ Js.intToString (Z.of_nat n) +:+ " items" +:+
             (if Nat.ltb 0 k then " with " +:+ Js.intToString (Z.of_nat k) +:+ " errors"
              else EmptyString))
          (csvItems st)
          (if Nat.ltb 0 k then Some (csvErrors st) else None)).

Definition property (name : string) (j : json) : option json :=
  match j with
  | JObj properties => snd <$> List.find (fun p => String.eqb (fst p) name) properties
  | _ => None
  end.

Definition isString (v : option json) : bool :=
  match v with Some (JStr _) => true | _ => false end.

Definition isNumber (v : option json) : bool :=
  match v with Some (JNum _) => true | _ => false end.

(** [typeof item.p] on a value without properties of its own is
    ['undefined'], so only an object can pass. *)
Definition validateMenuItem (item : json) : bool :=
  (isString (property "name" item) &&
   isString (property "description" item) &&
   isNumber (property "price" item) &&
   isString (property "categoryId" item))%bool.

Definition validateCategory (cat : json) : bool :=
  (isString (property "name" cat) && isString (property "description" cat))%bool.

(** *** The JSON and XLSX readers *)

(** What these two readers return: the objects that passed the validators,
    as they were read and not converted; an absent property is [None]. *)
Module Raw.
Record ImportResult : Type := mk {
  success : bool;
  message : string;
  importedItems : option (list json);
  importedCategories : option (list json);
  errors : option (list string)
}.
End Raw.

(** [data.name] on a parsed value; on [null] the access throws. *)
Definition readProperty (name : string) (data : json) : M (option json) :=
  match data with
  | JNull => throw ("Cannot read properties of null (reading '" +:+ name +:+ "')")
  | _ => mret (property name data)
  end.

(** [v && Array.isArray(v) ? v.filter(valid) : []] *)
Definition validOf (valid : json -> bool) (v : option json) : list json :=
  match v with
  | Some (JArr elements) => List.filter valid elements
  | _ => []
  end.

Definition importedMessage (items categories : nat) : string :=
  "Successfully imported " +:+ Js.intToString (Z.of_nat items) +:+ " items and " +:+
  Js.intToString (Z.of_nat categories) +:+ " categories".

Definition imported (importedItems importedCategories : list json) : Raw.ImportResult :=
  Raw.mk (Nat.ltb 0 (length importedItems) || Nat.ltb 0 (length importedCategories))%bool
         (importedMessage (length importedItems) (length importedCategories))
         (Some importedItems) (Some importedCategories) None.

(** [importFromJSON]; [parsed] stands for [JSON.parse] on the text of the
    file: the value, or the error it raises. *)
Definition importFromJSON (parsed : result json) : M Raw.ImportResult :=
  tryCatch
    (data ← ofResult parsed;
     menuItems ← readProperty "menuItems" data;
     let importedItems := validOf validateMenuItem menuItems in
     categories ← readProperty "categories" data;
     let importedCategories := validOf validateCategory categories in
     mret (imported importedItems importedCategories))
    (fun e => mret (Raw.mk false ("Failed to parse JSON file: " +:+ e) None None (Some [e]))).

(** [workbook.Sheets[name]] with [sheet_to_json] on it: the row objects of
    the sheet of that name, if there is one. *)
Definition sheetRowsOf (name : string) (sheets : list (string * list json)) : option (list json) :=
  snd <$> List.find (fun s => String.eqb (fst s) name) sheets.

(** [importFromXLSX]; [workbook] stands for [XLSX.read] on the bytes of the
    file with [XLSX.utils.sheet_to_json] on each sheet: the sheets by name
    with their row objects, or the error raised. *)
Definition importFromXLSX (workbook : result (list (string * list json))) : M Raw.ImportResult :=
  available ← gets xlsxAvailable;
  if negb available then
    mret (Raw.mk false
            "XLSX library not available. Please install xlsx package for Excel import."
            None None (Some ["XLSX library not available"]))
  else
    tryCatch
      (sheets ← ofResult workbook;
       let importedCategories :=
         match sheetRowsOf "Categories" sheets with
         | Some categoriesData => List.filter validateCategory categoriesData
         | None => []
         end in
       let importedItems :=
         match sheetRowsOf "Menu Items" sheets with
         | Some menuItemsData => List.filter validateMenuItem menuItemsData
         | None => []
         end in
       mret (imported importedItems importedCategories))
      (fun e => mret (Raw.mk false ("Failed to parse XLSX file: " +:+ e) None None (Some [e]))).

(** *** What [JSON.parse] reads back from what [JSON.stringify] wrote *)

(** A number that is not finite is written as [null]. *)
Definition jsonOfNumber (n : number) : json :=
  match n with
  | Num.Finite _ => JNum n
  | _ => JNull
  end.

(** A property whose value is [undefined] is not written. *)
Definition optional {A : Type} (name : string) (encode : A -> json) (v : option A)
    : list (string * json) :=
  match v with
  | Some a => [(name, encode a)]
  | None => []
  end.

Definition jsonOfCategory (c : MenuCategory.t) : json :=
  let f := MenuCategory.fields c in
  JObj [ ("id", JStr (MenuCategory.id c));
         ("name", JStr (MenuCategory.name f));
         ("description", JStr (MenuCategory.description f));
         ("sortOrder", jsonOfNumber (MenuCategory.sortOrder f));
         ("activeFlag", JBool (MenuCategory.activeFlag f));
         ("tenantId", JStr (MenuCategory.tenantId f)) ].

Definition jsonOfItem (item : MenuItem.t) : json :=
  let f := MenuItem.fields item in
  JObj ([ ("id", JStr (MenuItem.id item));
          ("name", JStr (MenuItem.name f));
          ("description", JStr (MenuItem.description f));
          ("price", jsonOfNumber (MenuItem.price f));
          ("currency", JStr (MenuItem.currency f));
          ("imageUrl", JStr (MenuItem.imageUrl f)) ] ++
        optional "videoUrl" JStr (MenuItem.videoUrl f) ++
        [ ("allergens", JArr (List.map JStr (MenuItem.allergens f)));
          ("categoryId", JStr (MenuItem.categoryId f));
          ("availabilityFlag", JBool (MenuItem.availabilityFlag f));
          ("tenantId", JStr (MenuItem.tenantId f));
          ("createdAt", JStr (MenuItem.createdAt item));
          ("updatedAt", JStr (MenuItem.updatedAt item)) ] ++
        optional "displayName" JStr (MenuItem.displayName f) ++
        optional "itemCode" JStr (MenuItem.itemCode f) ++
        optional "prepTime" jsonOfNumber (MenuItem.prepTime f) ++
        [ ("soldOut", JBool (MenuItem.soldOut f)) ] ++
        optional "portion" JStr (MenuItem.portion f) ++
        optional "specialType" JStr (MenuItem.specialType f) ++
        optional "calories" jsonOfNumber (MenuItem.calories f) ++
        optional "maxOrderQty" jsonOfNumber (MenuItem.maxOrderQty f) ++
        [ ("bogo", JBool (MenuItem.bogo f)) ] ++
        optional "complimentary" JStr (MenuItem.complimentary f) ++
        optional "imageOrientation" JStr (MenuItem.imageOrientation f) ++
        optional "availableTime" JStr (MenuItem.availableTime f) ++
        optional "availableDate" JStr (MenuItem.availableDate f)).

(** A [Date] is written as its ISO string. *)
Definition jsonOfOptions (options : ExportOptions) : json :=
  JObj ([ ("format", JStr (format options)) ] ++
        optional "includeImages" JBool (includeImages options) ++
        optional "includeMetadata" JBool (includeMetadata options) ++
        optional "dateRange"
          (fun range => JObj [ ("start", JStr (Date.toISOString (fst range)));
                               ("end", JStr (Date.toISOString (snd range))) ])
          (dateRange options)).

Definition jsonOfExport (doc : JsonExport) : json :=
  JObj ([ ("exportDate", JStr (exportDate doc));
          ("version", JStr (version doc)) ] ++
        optional "metadata"
          (fun m => JObj [ ("totalItems", jsonOfNumber (Num.ofZ (Z.of_nat (fst (fst m)))));
                           ("totalCategories", jsonOfNumber (Num.ofZ (Z.of_nat (snd (fst m)))));
                           ("exportOptions", jsonOfOptions (snd m)) ])
          (metadata doc) ++
        [ ("categories", JArr (List.map jsonOfCategory (jsonCategories doc)));
          ("menuItems", JArr (List.map jsonOfItem (jsonMenuItems doc))) ]).

End exportImportService.

(** ** [App.tsx]: the handlers *)

(** A row object of [XLSX.utils.sheet_to_json]: column name to cell; a
    missing key reads as [undefined]. *)
Abbreviation Row := (gmap string cell).

Module App.

Definition quoted := exportImportService.quoted.

(** *** Values of type [any] read from a row: [None] is [undefined] *)

Definition truthy (v : option cell) : bool :=
  match v with
  | None => false
  | Some (CStr s) => Js.nonEmpty s
  | Some (CNum n) => Num.truthy n
  | Some (CBool b) => b
  end.

(** [String(v)], also what a template literal and [parseFloat] apply *)
Definition toStr (v : option cell) : string :=
  match v with
  | None => "undefined"
  | Some (CStr s) => s
  | Some (CNum n) => Num.toString n
  | Some (CBool b) => exportImportService.boolToString b
  end.

(** [a || b] *)
Definition or (a b : option cell) : option cell := if truthy a then a else b.

Definition str (s : string) : option cell := Some (CStr s).

(** [Object.values(E).includes(v) ? v : fallback] for a string enum [E] *)
Definition enumOr (values : list string) (fallback : string) (v : option cell) : string :=
  match v with
  | Some (CStr s) => if bool_decide (s ∈ values) then s else fallback
  | _ => fallback
  end.

(** [String(v).toLowerCase() === 'true'].  No character other than T, R, U
    and E has t, r, u or e as its lowercase, so for this comparison the
    mapping of the letters A to Z decides as the mapping of Unicode does. *)
Definition isTrue (v : option cell) : bool :=
  bool_decide (Js.toLowerCase (toStr v) = "true").

(** *** Component state *)

Inductive ToastType : Type := success | error.

Record State : Type := mkState {
  categories : list MenuCategory.t;
  menuItems : list MenuItem.t;
  selectedCategory : option MenuCategory.t;
  loading : bool;
  isUploading : bool;
  isExporting : bool;
  toast : option (string * ToastType);
  filteredMenuItems : list MenuItem.t;
  exportOptions : ExportOptions
}.

Definition setCategories (v : list MenuCategory.t) (st : State) : State :=
  mkState v (menuItems st) (selectedCategory st) (loading st) (isUploading st)
          (isExporting st) (toast st) (filteredMenuItems st) (exportOptions st).
Definition setMenuItems (v : list MenuItem.t) (st : State) : State :=
  mkState (categories st) v (selectedCategory st) (loading st) (isUploading st)
          (isExporting st) (toast st) (filteredMenuItems st) (exportOptions st).
Definition setSelectedCategory (v : option MenuCategory.t) (st : State) : State :=
  mkState (categories st) (menuItems st) v (loading st) (isUploading st)
          (isExporting st) (toast st) (filteredMenuItems st) (exportOptions st).
Definition setLoading (v : bool) (st : State) : State :=
  mkState (categories st) (menuItems st) (selectedCategory st) v (isUploading st)
          (isExporting st) (toast st) (filteredMenuItems st) (exportOptions st).
Definition setIsUploading (v : bool) (st : State) : State :=
  mkState (categories st) (menuItems st) (selectedCategory st) (loading st) v
          (isExporting st) (toast st) (filteredMenuItems st) (exportOptions st).
Definition setIsExporting (v : bool) (st : State) : State :=
  mkState (categories st) (menuItems st) (selectedCategory st) (loading st) (isUploading st)
          v (toast st) (filteredMenuItems st) (exportOptions st).

(** [showToast]; the timer that hides the toast five seconds later is left out. *)
Definition showToast (message : string) (type : ToastType) (st : State) : State :=
  mkState (categories st) (menuItems st) (selectedCategory st) (loading st) (isUploading st)
          (isExporting st) (Some (message, type)) (filteredMenuItems st) (exportOptions st).

Definition handleBackToCategories (st : State) : State :=
  setMenuItems [] (setSelectedCategory None st).

Definition fetchCategories (st : State) : M State :=
  let st := setLoading true st in
  st ← tryCatch
         (fetchedCategories ← api.getCategories "tenant-123";
          let st := setCategories fetchedCategories st in
          mret (match selectedCategory st with
                | Some sel =>
                    if existsb (fun c => String.eqb (MenuCategory.id c) (MenuCategory.id sel))
                               fetchedCategories
                    then st else handleBackToCategories st
                | None => st
                end))
         (fun _ => mret (showToast "Failed to fetch categories." error st));
  mret (setLoading false st).

Definition handleSelectCategory (category : MenuCategory.t) (st : State) : M State :=
  let st := setLoading true (setSelectedCategory (Some category) st) in
  st ← tryCatch
         (items ← api.getMenuItems "tenant-123" (MenuCategory.id category);
          mret (setMenuItems items st))
         (fun e =>
            consoleError ("Error fetching menu items: " +:+ e);;
            mret (showToast ("Failed to fetch menu items for " +:+
                             MenuCategory.name (MenuCategory.fields category) +:+ ".") error st));
  mret (setLoading false st).

(** *** [handleExcelUpload] *)

Section Upload.

(** [String.prototype.toLowerCase] as it is applied to the names of
    categories, which users type: the case mapping of Unicode.  The
    embedding does not reproduce that mapping beyond the letters A to Z
    ([Js.toLowerCase]), so the upload is defined for any mapping: what is
    proved of it holds whatever the mapping does to a name, and so for the
    real one. *)
Variable toLowerCase : string -> string.

(** The variables of the row loop. *)
Record Loop : Type := mkLoop {
  newItems : list MenuItem.data;
  successCount : nat;
  errorCount : nat;
  errors : list string;
  categoryNameToIdMap : JsMap.t string;
  newCategoriesCreated : nat
}.

(** [errorCount++; errors.push(message); continue] *)
Definition skip (message : string) (l : Loop) : Loop :=
  mkLoop (newItems l) (successCount l) (S (errorCount l)) (errors l ++ [message])
         (categoryNameToIdMap l) (newCategoriesCreated l).

(** [newItems.push(item); successCount++] *)
Definition accept (item : MenuItem.data) (l : Loop) : Loop :=
  mkLoop (newItems l ++ [item]) (S (successCount l)) (errorCount l) (errors l)
         (categoryNameToIdMap l) (newCategoriesCreated l).

(** [categoryNameToIdMap.set(key, id); newCategoriesCreated++] *)
Definition remember (key id : string) (l : Loop) : Loop :=
  mkLoop (newItems l) (successCount l) (errorCount l) (errors l)
         (JsMap.set key id (categoryNameToIdMap l)) (S (newCategoriesCreated l)).

(** The opening of three of the four messages, with the item's name or N/A. *)
Definition rowLabel (row : Row) : string :=
  "Row with item " +:+ quoted (toStr (or (row !! "Name") (str "N/A"))) +:+ " skipped: ".

Definition categoryNameOf (row : Row) : option cell :=
  or (row !! "Category Name") (row !! "category_name").

(** The lookup key of a row's category. *)
Definition categoryKey (row : Row) : string :=
  toLowerCase (toStr (categoryNameOf row)).

Definition newCategoryData (categoryName : option cell) (initialCategoryCount created : nat)
    : MenuCategory.data :=
  {| MenuCategory.name := toStr categoryName;
     MenuCategory.description := "Automatically created from Excel import";
     MenuCategory.sortOrder := Num.ofZ (Z.of_nat (initialCategoryCount + created));
     MenuCategory.activeFlag := true;
     MenuCategory.tenantId := "tenant-123" |}.

(** [parseInt(String(v), 10) || d] *)
Definition intOr (v : option cell) (d : Z) : option number :=
  Some (Num.orElse (Num.parseInt (toStr v)) (Num.ofZ d)).

(** [String(v || '')] *)
Definition text (v : option cell) : string := toStr (or v (str EmptyString)).

(** The object literal [newItem] with [tenantId] added. *)
Definition buildItem (row : Row) (categoryId : string) (price : number) : MenuItem.data :=
  {| MenuItem.name := text (row !! "Name");
     MenuItem.description := text (row !! "Description");
     MenuItem.price := price;
     MenuItem.currency := enumOr Currency.values Currency.USD (row !! "Currency");
     MenuItem.imageUrl := toStr (or (row !! "Image URL") (str "https://picsum.photos/400/300"));
     MenuItem.videoUrl := Some (text (row !! "Video URL"));
     MenuItem.allergens := [];
     MenuItem.categoryId := categoryId;
     MenuItem.availabilityFlag := isTrue (row !! "Available");
     MenuItem.tenantId := "tenant-123";
     MenuItem.displayName := Some (text (row !! "Display Name"));
     MenuItem.itemCode := Some (text (row !! "Item Code"));
     MenuItem.prepTime := intOr (row !! "Prep Time (min)") 0;
     MenuItem.soldOut := isTrue (row !! "Sold Out");
     MenuItem.portion := Some (text (row !! "Portion"));
     MenuItem.specialType := Some (enumOr SpecialType.values SpecialType.NONE (row !! "Special Type"));
     MenuItem.calories := intOr (row !! "Calories") 0;
     MenuItem.maxOrderQty := intOr (row !! "Max Order Qty") 10;
     MenuItem.bogo := isTrue (row !! "BOGO");
     MenuItem.complimentary := Some (text (row !! "Complimentary"));
     MenuItem.imageOrientation :=
       Some (enumOr ImageOrientation.values ImageOrientation.SQUARE (row !! "Image Orientation"));
     MenuItem.availableTime := Some (text (row !! "Available Time"));
     MenuItem.availableDate := Some (text (row !! "Available Date")) |}.

(** The part of the loop body after the category is known: the price test,
    the item, the name test. *)
Definition finishRow (row : Row) (categoryId : string) (l : Loop) : Loop :=
  let price := Num.parseFloat (toStr (row !! "Price")) in
  if (Num.isNaN price || Num.leZero price)%bool then
    skip (rowLabel row +:+ "Invalid or missing Price.") l
  else
    let newItem := buildItem row categoryId price in
    if negb (Js.nonEmpty (MenuItem.name newItem)) then
      skip "A row was skipped: Missing Item Name." l
    else accept newItem l.

(** [!categoryId] for the result of [Map.get] *)
Definition usable (categoryId : option string) : option string :=
  match categoryId with
  | Some id => if Js.nonEmpty id then Some id else None
  | None => None
  end.

(** One turn of [for (const row of json)]. *)
Definition processRow (initialCategoryCount : nat) (l : Loop) (row : Row) : M Loop :=
  let categoryName := categoryNameOf row in
  if negb (truthy categoryName) then
    mret (skip (rowLabel row +:+ "Missing Category Name.") l)
  else
    match usable (JsMap.get (categoryKey row) (categoryNameToIdMap l)) with
    | Some categoryId => mret (finishRow row categoryId l)
    | None =>
        tryCatch
          (newCategory ←
             api.addCategory
               (newCategoryData categoryName initialCategoryCount (newCategoriesCreated l));
           let l :=
             remember (toLowerCase (MenuCategory.name (MenuCategory.fields newCategory)))
                      (MenuCategory.id newCategory) l in
           mret (finishRow row (MenuCategory.id newCategory) l))
          (fun catError =>
             consoleError catError;;
             mret (skip (rowLabel row +:+ "Failed to auto-create category " +:+
                           quoted (toStr categoryName) +:+ ".") l))
    end.

Definition initialLoop (categories : list MenuCategory.t) : Loop :=
  mkLoop [] 0 0 []
    (JsMap.ofEntries
       (List.map (fun c => (toLowerCase (MenuCategory.name (MenuCategory.fields c)),
                            MenuCategory.id c)) categories))
    0.

(** The whole row loop, from the declarations of its variables on. *)
Definition importRows (categories : list MenuCategory.t) (json : list Row) : M Loop :=
  forEach (processRow (length categories)) json (initialLoop categories).

(** [if (newItems.length > 0) await api.addMenuItemsBatch(newItems)] *)
Definition submitBatch (l : Loop) : M unit :=
  if Nat.ltb 0 (length (newItems l)) then api.addMenuItemsBatch (newItems l);; mret tt
  else mret tt.

Definition summary (l : Loop) : string :=
  (if Nat.ltb 0 (successCount l)
   then Js.intToString (Z.of_nat (successCount l)) +:+ " items added successfully. "
   else EmptyString) +:+
  (if Nat.ltb 0 (errorCount l)
   then Js.intToString (Z.of_nat (errorCount l)) +:+ " items failed."
   else EmptyString).

(** [handleExcelUpload].  [sheet] stands for reading the file and
    [XLSX.read] / [sheet_to_json] on its first worksheet: the rows, or the
    error these raise. *)
Definition handleExcelUpload (sheet : result (list Row)) (st : State) : M State :=
  let st := setIsUploading true st in
  st ← tryCatch
         (json ← ofResult sheet;
          l ← importRows (categories st) json;
          submitBatch l;;
          let message := summary l in
          let st :=
            showToast (if Js.nonEmpty message then message else "No items found in file.")
                      (if Nat.ltb 0 (errorCount l) then error else success) st in
          (if Nat.ltb 0 (errorCount l)
           then consoleError ("Excel upload errors:" +:+ exportImportService.lineFeed +:+ " " +:+
                              Js.join exportImportService.lineFeed (errors l))
           else mret tt);;
          st' ← fetchCategories st;
          match selectedCategory st with
          | Some sel => handleSelectCategory sel st'
          | None => mret st'
          end)
         (fun err =>
            consoleError err;;
            mret (showToast "Failed to process the Excel file." error st));
  mret (setIsUploading false st).

End Upload.

(** *** [handleExcelExport] *)

(** [categoryMap.get(id) || 'N/A'] *)
Definition categoryLabel (categoryMap : JsMap.t string) (id : string) : string :=
  match usable (JsMap.get id categoryMap) with
  | Some name => name
  | None => "N/A"
  end.

Definition exportRow (categoryMap : JsMap.t string) (item : MenuItem.t) : sheetRow :=
  let f := MenuItem.fields item in
  [ ("ID", str (MenuItem.id item));
    ("Name", str (MenuItem.name f));
    ("Display Name", CStr <$> MenuItem.displayName f);
    ("Description", str (MenuItem.description f));
    ("Item Code", CStr <$> MenuItem.itemCode f);
    ("Category Name", str (categoryLabel categoryMap (MenuItem.categoryId f)));
    ("Price", Some (CNum (MenuItem.price f)));
    ("Currency", str (MenuItem.currency f));
    ("Available", Some (CBool (MenuItem.availabilityFlag f)));
    ("Sold Out", Some (CBool (MenuItem.soldOut f)));
    ("Prep Time (min)", CNum <$> MenuItem.prepTime f);
    ("Portion", CStr <$> MenuItem.portion f);
    ("Calories", CNum <$> MenuItem.calories f);
    ("Special Type", CStr <$> MenuItem.specialType f);
    ("Max Order Qty", CNum <$> MenuItem.maxOrderQty f);
    ("BOGO", Some (CBool (MenuItem.bogo f)));
    ("Complimentary", CStr <$> MenuItem.complimentary f);
    ("Allergens", str (Js.join ", " (MenuItem.allergens f)));
    ("Image URL", str (MenuItem.imageUrl f));
    ("Video URL", CStr <$> MenuItem.videoUrl f);
    ("Image Orientation", CStr <$> MenuItem.imageOrientation f);
    ("Available Time", CStr <$> MenuItem.availableTime f);
    ("Available Date", CStr <$> MenuItem.availableDate f) ].

(** [row[key]] on a written row *)
Definition field (key : string) (row : sheetRow) : option cell :=
  match List.find (fun p => String.eqb (fst p) key) row with
  | Some (_, v) => v
  | None => None
  end.

(** [Math.max(key.length, ...rows.map(row => String(row[key] || '').length)) + 2] *)
Definition columnWidth (dataToExport : list sheetRow) (key : string) : Z :=
  List.fold_left Z.max
    (List.map (fun row => Z.of_nat (String.length (text (field key row)))) dataToExport)
    (Z.of_nat (String.length key)) + 2.

Definition colWidths (dataToExport : list sheetRow) : list Z :=
  match dataToExport with
  | first :: _ => List.map (columnWidth dataToExport) (List.map fst first)
  | [] => []
  end.

Definition handleExcelExport (st : State) : M State :=
  let st := setIsExporting true st in
  st ← tryCatch
         (allItems ← api.getAllMenuItems "tenant-123";
          if Nat.eqb (length allItems) 0 then
            mret (showToast "No items to export." error st)
          else
            let categoryMap :=
              JsMap.ofEntries
                (List.map (fun c => (MenuCategory.id c, MenuCategory.name (MenuCategory.fields c)))
                          (categories st)) in
            let dataToExport := List.map (exportRow categoryMap) allItems in
            available ← gets xlsxAvailable;
            if negb available then throw "XLSX is not defined"
            else
              modify (addDownload
                        (mkDownload "Smartler_F&B_Menu_Export.xlsx"
                           (Workbook [mkSheet "Menu Items" dataToExport
                                              (Some (colWidths dataToExport))])));;
              mret (showToast "Exported successfully!" success st))
         (fun e =>
            consoleError ("Export failed: " +:+ e);;
            mret (showToast "Failed to export data." error st));
  mret (setIsExporting false st).

(** *** [handleExport] *)

Definition handleExport (st : State) : M State :=
  let st := setIsExporting true st in
  st ← tryCatch
         (exportImportService.exportData
            (if Nat.ltb 0 (length (filteredMenuItems st)) then filteredMenuItems st
             else menuItems st)
            (categories st) (exportOptions st);;
          mret (showToast "Export completed successfully!" success st))
         (fun _ => mret (showToast "Export failed" error st));
  mret (setIsExporting false st).

(** *** The handlers of single categories and items *)

Definition fetchMenuItems (st : State) : M State :=
  match selectedCategory st with
  | None => mret st
  | Some sel =>
      tryCatch
        (items ← api.getMenuItems "tenant-123" (MenuCategory.id sel);
         mret (setMenuItems items st))
        (fun e =>
           consoleError ("Error fetching menu items: " +:+ e);;
           mret (showToast "Failed to fetch menu items." error st))
  end.

(** The dialogs for editing. *)
Record Dialogs : Type := mkDialogs {
  isCategoryModalOpen : bool;
  editingCategory : option MenuCategory.t;
  isMenuItemModalOpen : bool;
  editingMenuItem : option MenuItem.t;
  isBulkModalOpen : bool;
  selectedItemsForBulk : list MenuItem.t
}.

Definition setCategoryModalOpen (v : bool) (d : Dialogs) : Dialogs :=
  mkDialogs v (editingCategory d) (isMenuItemModalOpen d) (editingMenuItem d)
            (isBulkModalOpen d) (selectedItemsForBulk d).
Definition setEditingCategory (v : option MenuCategory.t) (d : Dialogs) : Dialogs :=
  mkDialogs (isCategoryModalOpen d) v (isMenuItemModalOpen d) (editingMenuItem d)
            (isBulkModalOpen d) (selectedItemsForBulk d).
Definition setMenuItemModalOpen (v : bool) (d : Dialogs) : Dialogs :=
  mkDialogs (isCategoryModalOpen d) (editingCategory d) v (editingMenuItem d)
            (isBulkModalOpen d) (selectedItemsForBulk d).
Definition setEditingMenuItem (v : option MenuItem.t) (d : Dialogs) : Dialogs :=
  mkDialogs (isCategoryModalOpen d) (editingCategory d) (isMenuItemModalOpen d) v
            (isBulkModalOpen d) (selectedItemsForBulk d).
Definition setBulkModalOpen (v : bool) (d : Dialogs) : Dialogs :=
  mkDialogs (isCategoryModalOpen d) (editingCategory d) (isMenuItemModalOpen d)
            (editingMenuItem d) v (selectedItemsForBulk d).
Definition setSelectedItemsForBulk (v : list MenuItem.t) (d : Dialogs) : Dialogs :=
  mkDialogs (isCategoryModalOpen d) (editingCategory d) (isMenuItemModalOpen d)
            (editingMenuItem d) (isBulkModalOpen d) v.

(** The confirmation dialog; [deleteAction] is the closure that runs when
    the user confirms, on the state the component has by then. *)
Record Confirm : Type := mkConfirm {
  isConfirmModalOpen : bool;
  deleteAction : option (State -> M State);
  confirmMessage : string
}.

Definition handleSaveCategory (categoryData : MenuCategory.data) (st : State) (d : Dialogs)
    : M (State * Dialogs) :=
  tryCatch
    (st ← match editingCategory d with
          | Some editing =>
              api.updateCategory
                (MenuCategory.mk (MenuCategory.id editing)
                                 (MenuCategory.withTenantId "tenant-123" categoryData));;
              mret (showToast "Category updated successfully!" success st)
          | None =>
              api.addCategory (MenuCategory.withTenantId "tenant-123" categoryData);;
              mret (showToast "Category added successfully!" success st)
          end;
     st ← fetchCategories st;
     mret (st, setEditingCategory None (setCategoryModalOpen false d)))
    (fun _ => mret (showToast "Failed to save category." error st, d)).

(** The closure [handleDeleteCategory] stores: [captured] is the state of
    the render that built it. *)
Definition deleteCategoryAction (captured : State) (categoryId : string) (st : State) : M State :=
  let originalCategories := categories captured in
  let st :=
    setCategories
      (List.filter (fun c => negb (String.eqb (MenuCategory.id c) categoryId)) (categories st))
      st in
  let st :=
    match selectedCategory captured with
    | Some sel => if String.eqb (MenuCategory.id sel) categoryId
                  then handleBackToCategories st else st
    | None => st
    end in
  tryCatch
    (api.deleteCategory categoryId;;
     mret (showToast "Category deleted successfully!" success st))
    (fun e =>
       let st := showToast "Failed to delete category. Restoring..." error st in
       consoleError e;;
       mret (setCategories originalCategories st)).

Definition handleDeleteCategory (categoryId : string) (st : State) (c : Confirm) : Confirm :=
  match List.find (fun c => String.eqb (MenuCategory.id c) categoryId) (categories st) with
  | None => c
  | Some categoryToDelete =>
      mkConfirm true (Some (deleteCategoryAction st categoryId))
        ("Are you sure you want to delete the category " +:+
         quoted (MenuCategory.name (MenuCategory.fields categoryToDelete)) +:+
         "? All items within it will also be deleted.")
  end.

Definition handleSaveMenuItem (itemData : MenuItem.data) (st : State) (d : Dialogs)
    : M (State * Dialogs) :=
  match selectedCategory st with
  | None => mret (st, d)
  | Some sel =>
      tryCatch
        (st ← match editingMenuItem d with
              | Some editing =>
                  iso ← newDateISO;
                  api.updateMenuItem
                    (MenuItem.mk (MenuItem.id editing) (MenuItem.createdAt editing) iso
                                 (MenuItem.withTenantId "tenant-123" itemData));;
                  mret (showToast "Menu item updated successfully!" success st)
              | None =>
                  api.addMenuItem (MenuItem.withTenantId "tenant-123" itemData);;
                  mret (showToast "Menu item added successfully!" success st)
              end;
         items ← api.getMenuItems "tenant-123" (MenuCategory.id sel);
         mret (setMenuItems items st, setEditingMenuItem None (setMenuItemModalOpen false d)))
        (fun _ => mret (showToast "Failed to save menu item." error st, d))
  end.

Definition deleteMenuItemAction (captured : State) (itemId : string) (st : State) : M State :=
  let originalItems := menuItems captured in
  let st :=
    setMenuItems
      (List.filter (fun item => negb (String.eqb (MenuItem.id item) itemId)) (menuItems st)) st in
  tryCatch
    (api.deleteMenuItem itemId;;
     mret (showToast "Menu item deleted successfully!" success st))
    (fun e =>
       let st := showToast "Failed to delete menu item. Restoring..." error st in
       consoleError e;;
       mret (setMenuItems originalItems st)).

Definition handleDeleteMenuItem (itemId : string) (st : State) (c : Confirm) : Confirm :=
  match selectedCategory st with
  | None => c
  | Some _ =>
      match List.find (fun item => String.eqb (MenuItem.id item) itemId) (menuItems st) with
      | None => c
      | Some itemToDelete =>
          mkConfirm true (Some (deleteMenuItemAction st itemId))
            ("Are you sure you want to delete the menu item " +:+
             quoted (MenuItem.name (MenuItem.fields itemToDelete)) +:+ "?")
      end
  end.

Definition handleToggleMenuItemAvailability (itemToToggle : MenuItem.t) (st : State) : M State :=
  let flag := negb (MenuItem.availabilityFlag (MenuItem.fields itemToToggle)) in
  let updatedItem :=
    MenuItem.mk (MenuItem.id itemToToggle) (MenuItem.createdAt itemToToggle)
                (MenuItem.updatedAt itemToToggle)
                (MenuItem.withAvailabilityFlag flag (MenuItem.fields itemToToggle)) in
  let originalItems := menuItems st in
  let st :=
    setMenuItems
      (List.map (fun item => if String.eqb (MenuItem.id item) (MenuItem.id itemToToggle)
                             then updatedItem else item)
                (menuItems st))
      st in
  tryCatch
    (api.updateMenuItem updatedItem;;
     mret (showToast ("'" +:+ MenuItem.name (MenuItem.fields updatedItem) +:+ "' is now " +:+
                      (if flag then "available" else "unavailable") +:+ ".")
                     success st))
    (fun e =>
       let st := showToast ("Failed to update '" +:+ MenuItem.name (MenuItem.fields itemToToggle) +:+
                            "'. Reverting...") error st in
       consoleError e;;
       mret (setMenuItems originalItems st)).

Definition handleReorderCategories (reorderedCategories : list MenuCategory.t) (st : State)
    : M State :=
  let originalCategories := categories st in
  let st := setCategories reorderedCategories st in
  let updatesToSend :=
    List.filter
      (fun newCat =>
         match List.find (fun c => String.eqb (MenuCategory.id c) (MenuCategory.id newCat))
                         originalCategories with
         | Some oldCat =>
             negb (Num.eqb (MenuCategory.sortOrder (MenuCategory.fields oldCat))
                           (MenuCategory.sortOrder (MenuCategory.fields newCat)))
         | None => false
         end)
      reorderedCategories in
  if Nat.eqb (length updatesToSend) 0 then mret st
  else
    tryCatch
      (promiseAll api.updateCategory updatesToSend;;
       mret (showToast "Category order saved!" success st))
      (fun _ =>
         let st := showToast "Failed to save new category order. Reverting..." error st in
         mret (setCategories originalCategories st)).

(** *** The handlers of many items *)

Definition handleBulkDelete (itemIds : list string) (st : State) : M State :=
  tryCatch
    (forEach (fun _ id => api.deleteMenuItem id) itemIds tt;;
     fetchMenuItems
       (showToast ("Successfully deleted " +:+ Js.intToString (Z.of_nat (length itemIds)) +:+
                   " item(s)") success st))
    (fun _ => mret (showToast "Failed to delete some items" error st)).

Definition handleBulkEdit (itemIds : list string) (st : State) (d : Dialogs) : Dialogs :=
  let items :=
    List.filter (fun item => bool_decide (MenuItem.id item ∈ itemIds)) (menuItems st) in
  setBulkModalOpen true (setSelectedItemsForBulk items d).

Definition handleBulkSave (updatedItems : list MenuItem.t) (st : State) (d : Dialogs)
    : M (State * Dialogs) :=
  tryCatch
    (forEach (fun _ item => api.updateMenuItem item;; mret tt) updatedItems tt;;
     st ← fetchMenuItems
            (showToast ("Successfully updated " +:+
                        Js.intToString (Z.of_nat (length updatedItems)) +:+ " item(s)")
                       success st);
     mret (st, setSelectedItemsForBulk [] (setBulkModalOpen false d)))
    (fun _ => mret (showToast "Failed to update some items" error st, d)).

End App.

(** ** [CategoryList.tsx]: dropping a dragged row *)

Module CategoryList.

Fixpoint findIndex (id : string) (categories : list MenuCategory.t) : option nat :=
  match categories with
  | [] => None
  | c :: r => if String.eqb (MenuCategory.id c) id then Some O else S <$> findIndex id r
  end.

(** [xs.splice(i, 1)] and [xs.splice(i, 0, x)] for [i] within the list. *)
Definition removeAt {A : Type} (i : nat) (xs : list A) : list A := take i xs ++ drop (S i) xs.
Definition insertAt {A : Type} (i : nat) (x : A) (xs : list A) : list A :=
  take i xs ++ x :: drop i xs.

(** [handleDrop]: the list handed to [onReorderCategories], or [None] when
    the handler returns without the call.  [draggedItemId] is the ref set by
    [handleDragStart]; the highlight of the row under the pointer is left out. *)
Definition handleDrop (draggedItemId : option string) (dropTargetId : string)
    (categories : list MenuCategory.t) : option (list MenuCategory.t) :=
  match draggedItemId with
  | None => None
  | Some dragged =>
      if (negb (Js.nonEmpty dragged) || String.eqb dragged dropTargetId)%bool then None
      else
        match findIndex dragged categories, findIndex dropTargetId categories with
        | Some draggedIndex, Some dropTargetIndex =>
            match categories !! draggedIndex with
            | Some draggedItem =>
                let reordered :=
                  insertAt dropTargetIndex draggedItem (removeAt draggedIndex categories) in
                Some (imap (fun index category =>
                              MenuCategory.withSortOrder (Num.ofZ (Z.of_nat index)) category)
                           reordered)
            | None => None
            end
        | _, _ => None
        end
  end.

End CategoryList.

(** ** Notions used in the statements *)

(** A [Map] never holds a key twice. *)
Definition wf {V : Type} (m : JsMap.t V) : Prop := NoDup (JsMap.keys m).

Definition wfWorld (w : World) : Prop := wf (categoryDB w) ∧ wf (menuItemDB w).

(** Both stores are the same in two worlds. *)
Definition sameStores (w w' : World) : Prop :=
  categoryDB w' = categoryDB w ∧ menuItemDB w' = menuItemDB w.

(** *** Sample runs *)

(** The world right after the module is loaded at 2023-11-14T22:13:20Z, with
    the XLSX library present. *)
Definition world0 : World :=
  mkWorld api.initialCategoryDB (api.initialMenuItemDB (Date.toISOString 1700000000000))
          1700000000000 (fun n => "r" +:+ pretty n) 0 true [] [] [].

(** The same moment with both stores empty, as in the copy of the mock that
    starts without data. *)
Definition emptyWorld : World :=
  mkWorld [] [] 1700000000000 (fun n => "r" +:+ pretty n) 0 true [] [] [].

(** *** Reading the call log *)

(** The item lists of the batch creation calls in a log. *)
Definition batchCalls (cs : list ApiCall) : list (list MenuItem.data) :=
  List.flat_map (fun c => match c with AddMenuItemsBatch items => [items] | _ => [] end) cs.

(** The category creation calls in a log whose name lowercases to [key],
    under the case mapping [lower]. *)
Definition creations (lower : string → string) (key : string) (cs : list ApiCall)
    : list MenuCategory.data :=
  List.flat_map
    (fun c =>
       match c with
       | AddCategory data =>
           if String.eqb (lower (MenuCategory.name data)) key then [data] else []
       | _ => []
       end) cs.

(** The part of the log [cs] that was added after the calls of [w]. *)
Definition since (w : World) (cs : list ApiCall) : list ApiCall :=
  drop (length (calls w)) cs.

(** The calls of the refresh that ends [handleExcelUpload]. *)
Definition refreshCalls (st : App.State) : list ApiCall :=
  GetCategories "tenant-123" ::
  match App.selectedCategory st with
  | Some sel => [GetMenuItems "tenant-123" (MenuCategory.id sel)]
  | None => []
  end.

(** The world after [addMenuItemsBatch itemsData] is called in [w]. *)
Definition afterBatch (itemsData : list MenuItem.data) (w : World) : World :=
  advance 500
    (setMenuItemDB (api.setBatch (now w) (Date.toISOString (now w)) 0 itemsData)
                   (addCall (AddMenuItemsBatch itemsData) w)).

(** *** Sample rows *)

Definition price (s : string) : cell := CNum (Num.parseFloat s).

(** A row with a category and a price but no name. *)
Definition rowNoName : Row :=
  {[ "Category Name" := CStr "Drinks"; "Price" := price "5" ]}.

(** A named row whose price is the text [0]. *)
Definition rowZeroPrice : Row :=
  {[ "Name" := CStr "Water"; "Category Name" := CStr "Drinks"; "Price" := CStr "0" ]}.

Definition state0 : App.State :=
  App.mkState [] [] None false false false None []
              (mkOptions "csv" (Some false) (Some true) None).


(** *** What becomes of a row *)

(** The four ways a row of the sheet ends, in the order the loop tests them. *)
Inductive fate : Type := NoCategory | BadPrice | NoName | Added.

(** The price text of a row does not give a number above zero. *)
Definition priceRejected (row : Row) : bool :=
  let price := Num.parseFloat (App.toStr (row !! "Price")) in
  (Num.isNaN price || Num.leZero price)%bool.

Definition fateOf (row : Row) : fate :=
  if negb (App.truthy (App.categoryNameOf row)) then NoCategory
  else if priceRejected row then BadPrice
  else if negb (Js.nonEmpty (App.text (row !! "Name"))) then NoName
  else Added.






(** A sheet of four rows, one for each way a row ends. *)
Definition rowNoCategory : Row :=
  {[ "Name" := CStr "Soup"; "Price" := CStr "4" ]}.

(** *** Rows and the categories they name *)

(** The row names a category, and the key it is looked up under is [key]. *)
Definition references (lower : string → string) (key : string) (row : Row) : Prop :=
  App.truthy (App.categoryNameOf row) = true ∧ App.categoryKey lower row = key.

(** Row [i] of [rows] added [item] to [newItems]: the turn for that row,
    taken in the state the rows before it lead to, pushed it. *)
Definition producedAt (lower : string → string) (cats : list MenuCategory.t) (rows : list Row)
    (w : World) (i : nat) (item : MenuItem.data) : Prop :=
  ∃ row lp wp l' w',
    rows !! i = Some row ∧
    forEach (App.processRow lower (length cats)) (take i rows) (App.initialLoop lower cats) w =
      (Ok lp, wp) ∧
    App.processRow lower (length cats) lp row wp = (Ok l', w') ∧
    App.newItems l' = App.newItems lp ++ [item].

(** Two rows that spell the new category Drinks differently, and a third
    row of an existing category. *)
Definition rowCola : Row :=
  {[ "Name" := CStr "Cola"; "Category Name" := CStr "Drinks"; "Price" := price "2.5" ]}.
Definition rowTea : Row :=
  {[ "Name" := CStr "Tea"; "category_name" := CStr "DRINKS"; "Price" := CStr "3" ]}.
Definition rowCake : Row :=
  {[ "Name" := CStr "Cake"; "Category Name" := CStr "desserts"; "Price" := price "6" ]}.

(** A case mapping that goes beyond the ASCII range: it also lowers the
    accented capitals of Latin-1 as UTF-8 writes them, the byte 195 followed
    by a byte from 128 to 158 other than 151.  [lead] says that the byte
    before was 195. *)
Fixpoint lowerFrom (lead : bool) (s : string) : string :=
  match s with
  | EmptyString => EmptyString
  | String c r =>
      let n := nat_of_ascii c in
      if (lead && Nat.leb 128 n && Nat.leb n 158 && negb (Nat.eqb n 151))%bool
      then String (ascii_of_nat (n + 32)) (lowerFrom false r)
      else String (Js.lowerChar c) (lowerFrom (Nat.eqb n 195) r)
  end.

Definition latinLower : string → string := lowerFrom false.

(** Two rows that spell a new category with an accented letter in capitals
    and in small letters. *)
Definition rowMocha : Row :=
  {[ "Name" := CStr "Mocha"; "Category Name" := CStr "CAFÉ"; "Price" := CStr "4" ]}.
Definition rowLatte : Row :=
  {[ "Name" := CStr "Latte"; "Category Name" := CStr "café"; "Price" := CStr "5" ]}.

(** *** Sample CSV input *)

Definition hasChar (c : ascii) (s : string) : bool :=
  negb (String.eqb (Js.removeChar c s) s).



(** A header line whose first column name is quoted and holds a comma. *)
Definition headerWithComma : string :=
  exportImportService.quoted "Name, full" +:+ ",Description,Price".

Definition csvHeaderWithComma : string :=
  headerWithComma +:+ exportImportService.lineFeed +:+
  exportImportService.quoted "Taco, large" +:+ ",Crisp,5.50".

(** Rows with the prices 0, -5, a text, and nothing. *)
Definition csvBadPrices : string :=
  "Name,Description,Price" +:+ exportImportService.lineFeed +:+
  "Water,Still,0" +:+ exportImportService.lineFeed +:+
  "Refund,Voucher,-5" +:+ exportImportService.lineFeed +:+
  "Soup,Warm,n/a" +:+ exportImportService.lineFeed +:+
  "Tea,Hot,".

Definition jsonItem (price : Z) : exportImportService.json :=
  exportImportService.JObj
    [ ("name", exportImportService.JStr "Water");
      ("description", exportImportService.JStr "Still");
      ("price", exportImportService.JNum (Num.ofZ price));
      ("categoryId", exportImportService.JStr "cat-4") ].

Definition flagHeaders : list string :=
  ["Name"; "Description"; "Price"; "Availability Flag"; "Sold Out"; "BOGO"].

(** The three flags of the item a CSV row gives, if it gives one. *)
Definition csvFlags (values : list string) : option (bool * bool * bool) :=
  match fst (exportImportService.createMenuItemFromCSV values flagHeaders emptyWorld) with
  | Ok (Some item) =>
      Some (MenuItem.availabilityFlag (MenuItem.fields item),
            MenuItem.soldOut (MenuItem.fields item),
            MenuItem.bogo (MenuItem.fields item))
  | _ => None
  end.

(** The prices of the items a CSV text gives, printed. *)
Definition csvPrices (csv : string) : list string :=
  match fst (exportImportService.importFromCSV csv emptyWorld) with
  | Ok r => List.map (fun i => Num.toString (MenuItem.price (MenuItem.fields i)))
                     (exportImportService.importedItems r)
  | Throw _ => []
  end.

(** *** Notions for the further properties *)

(** The sort order of a category is a finite number. *)
Definition finiteOrder (c : MenuCategory.t) : Prop :=
  ∃ q, MenuCategory.sortOrder (MenuCategory.fields c) = Num.Finite q.

(** [a] does not come after [b] in sort order. *)
Definition orderLe (a b : MenuCategory.t) : Prop :=
  Num.ltb (MenuCategory.sortOrder (MenuCategory.fields b))
          (MenuCategory.sortOrder (MenuCategory.fields a)) = false.

Definition ofTenant (tenantId : string) (c : MenuCategory.t) : bool :=
  String.eqb (MenuCategory.tenantId (MenuCategory.fields c)) tenantId.

(** What every item that passed the row tests of the upload satisfies. *)
Definition validated (item : MenuItem.data) : Prop :=
  Js.nonEmpty (MenuItem.name item) = true ∧
  Num.isNaN (MenuItem.price item) = false ∧
  Num.leZero (MenuItem.price item) = false ∧
  Js.nonEmpty (MenuItem.categoryId item) = true ∧
  MenuItem.tenantId item = "tenant-123" ∧
  MenuItem.currency item ∈ Currency.values ∧
  (∃ t, MenuItem.specialType item = Some t ∧ t ∈ SpecialType.values) ∧
  (∃ o, MenuItem.imageOrientation item = Some o ∧ o ∈ ImageOrientation.values) ∧
  MenuItem.allergens item = [].

(** The id [id] stands for a category when the upload that started in [w]
    with the categories [cats] on screen has come to [w']: it is the id of
    one of [cats], or the id a call of the run created a category under,
    which the store holds. *)
Definition resolved (cats : list MenuCategory.t) (w w' : World) (id : string) : Prop :=
  id ∈ List.map MenuCategory.id cats ∨
  ∃ data, AddCategory data ∈ since w (calls w') ∧
          JsMap.get id (categoryDB w') = Some (MenuCategory.mk id data).


(** The data of the category creation calls in a log, in order. *)
Definition created (cs : list ApiCall) : list MenuCategory.data :=
  List.flat_map (fun c => match c with AddCategory data => [data] | _ => [] end) cs.

(** The key a category is filed under in the map of the upload, under the
    case mapping [lower]. *)
Definition keyOf (lower : string → string) (c : MenuCategory.t) : string :=
  lower (MenuCategory.name (MenuCategory.fields c)).

(** The format a download was written in. *)
Definition kindOf (c : Content) : string :=
  match c with
  | CsvText _ => "csv"
  | JsonDoc _ => "json"
  | Workbook _ => "xlsx"
  end.

(** The name [exportData] gives a file written in world [w]. *)
Definition exportName (w : World) (extension : string) : string :=
  "menu-export-" +:+ Date.datePart (Date.toISOString (now w)) +:+ "." +:+ extension.


(** The columns of the sheet [handleExcelExport] writes. *)
Definition exportColumns : list string :=
  [ "ID"; "Name"; "Display Name"; "Description"; "Item Code"; "Category Name"; "Price";
    "Currency"; "Available"; "Sold Out"; "Prep Time (min)"; "Portion"; "Calories";
    "Special Type"; "Max Order Qty"; "BOGO"; "Complimentary"; "Allergens"; "Image URL";
    "Video URL"; "Image Orientation"; "Available Time"; "Available Date" ].

(** *** What becomes of a line of a CSV file *)

Inductive outcome : Type := Blank | Failed | Dropped | Imported.

(** A line is blank when nothing but white space is on it.  Otherwise it
    fails when it is too short to reach the Name or the Description column,
    is dropped when one of the two is empty, and is imported else. *)
Definition outcomeOf (headers : list string) (line : string) : outcome :=
  if negb (Js.nonEmpty (Js.trim line)) then Blank
  else
    let values := exportImportService.parseCSVLine line in
    match exportImportService.getValue values headers "Name",
          exportImportService.getValue values headers "Description" with
    | Some name, Some description =>
        if (Js.nonEmpty (Js.removeChar exportImportService.doubleQuote name) &&
            Js.nonEmpty (Js.removeChar exportImportService.doubleQuote description))%bool
        then Imported else Dropped
    | _, _ => Failed
    end.



(** The header and the data lines of a CSV text. *)
Definition headerOf (csv : string) : list string :=
  exportImportService.parseHeaderLine (hd EmptyString (Js.split (ascii_of_nat 10) csv)).

Definition dataLines (csv : string) : list string :=
  tl (Js.split (ascii_of_nat 10) csv).

(** The message of the error a short line raises. *)
Definition shortLine : string :=
  "Cannot read properties of undefined (reading 'replace')".





(** A file of six lines: the header, a good line, a line that stops before
    the Description column, a blank line, a line with an empty description,
    and a second good line. *)
Definition csvMixed : string :=
  "Name,Description,Price" +:+ exportImportService.lineFeed +:+
  "Taco,Crisp,5.50" +:+ exportImportService.lineFeed +:+
  "Soup" +:+ exportImportService.lineFeed +:+
  "   " +:+ exportImportService.lineFeed +:+
  "Tea,,2" +:+ exportImportService.lineFeed +:+
  "Cake,Sweet,6" +:+ exportImportService.lineFeed +:+
  "Pie".

(** *** Notions for the handlers *)

(** The item with its availability flag turned over. *)
Definition flipped (item : MenuItem.t) : MenuItem.t :=
  MenuItem.mk (MenuItem.id item) (MenuItem.createdAt item) (MenuItem.updatedAt item)
    (MenuItem.withAvailabilityFlag (negb (MenuItem.availabilityFlag (MenuItem.fields item)))
                                   (MenuItem.fields item)).

(** The item as [updateMenuItem] stores it at the moment [t]. *)
Definition stamped (t : Z) (item : MenuItem.t) : MenuItem.t :=
  MenuItem.mk (MenuItem.id item) (MenuItem.createdAt item) (Date.toISOString t)
              (MenuItem.fields item).

(** The items of a category of the tenant of the application, as
    [getMenuItems] reads them. *)
Definition itemsOf (categoryId : string) (w : World) : list MenuItem.t :=
  List.filter
    (fun item =>
       (String.eqb (MenuItem.tenantId (MenuItem.fields item)) "tenant-123" &&
        String.eqb (MenuItem.categoryId (MenuItem.fields item)) categoryId)%bool)
    (JsMap.values (menuItemDB w)).

(** The category shown open on screen has this id. *)
Definition selectedIs (categoryId : string) (st : App.State) : bool :=
  match App.selectedCategory st with
  | Some sel => String.eqb (MenuCategory.id sel) categoryId
  | None => false
  end.

Definition otherCategory (categoryId : string) (c : MenuCategory.t) : bool :=
  negb (String.eqb (MenuCategory.id c) categoryId).

Definition otherItem (itemId : string) (item : MenuItem.t) : bool :=
  negb (String.eqb (MenuItem.id item) itemId).

(** The store holds an item under this id. *)
Definition stored (w : World) (itemId : string) : Prop :=
  JsMap.has itemId (menuItemDB w) = true.

(** The calls a handler makes to refresh the open category. *)
Definition refreshOf (st : App.State) : list ApiCall :=
  match App.selectedCategory st with
  | Some sel => [GetMenuItems "tenant-123" (MenuCategory.id sel)]
  | None => []
  end.

(** The category is on the list [original] with another sort order: the
    categories [handleReorderCategories] sends to the collaborator. *)
Definition moved (original : list MenuCategory.t) (newCat : MenuCategory.t) : bool :=
  match List.find (fun c => String.eqb (MenuCategory.id c) (MenuCategory.id newCat)) original with
  | Some oldCat =>
      negb (Num.eqb (MenuCategory.sortOrder (MenuCategory.fields oldCat))
                    (MenuCategory.sortOrder (MenuCategory.fields newCat)))
  | None => false
  end.

(** The category store holds a category under the id of this one. *)
Definition known (w : World) (c : MenuCategory.t) : bool :=
  JsMap.has (MenuCategory.id c) (categoryDB w).

(** The screen of the initial data with one more category, which the store
    does not hold. *)
Definition staleState : App.State :=
  App.setCategories
    (api.initialCategoriesData ++ [api.category "cat-9" "Specials" "Gone from the store" 5])
    state0.

(** Bruschetta's category moved behind the main course, the stale category
    moved as well. *)
Definition reorderedStale : list MenuCategory.t :=
  [ api.category "cat-2" "Main Course" "Our signature main dishes" 1;
    api.category "cat-1" "Appetizers" "Start your meal with our delicious appetizers" 2;
    api.category "cat-9" "Specials" "Gone from the store" 3 ].

(** The list [getCategories] gives the application: what a refresh puts on
    screen. *)
Definition listed (w : World) : list MenuCategory.t :=
  api.sortBySortOrder (List.filter (ofTenant "tenant-123") (JsMap.values (categoryDB w))).

(** The category a form is saved as. *)
Definition savedAs (id : string) (categoryData : MenuCategory.data) : MenuCategory.t :=
  MenuCategory.mk id (MenuCategory.withTenantId "tenant-123" categoryData).

(** A form for a new category that belongs between the salads and the main
    course of the initial data. *)
Definition soupsForm : MenuCategory.data :=
  {| MenuCategory.name := "Soups";
     MenuCategory.description := "Warm bowls";
     MenuCategory.sortOrder := Num.parseFloat "1.5";
     MenuCategory.activeFlag := true;
     MenuCategory.tenantId := "tenant-999" |}.

(** The id [addMenuItemsBatch], started at the moment [t], gives the item at
    place [i] of the batch. *)
Definition batchId (t : Z) (i : nat) : string :=
  "item-" +:+ Js.intToString (t + Z.of_nat i).

(** The item a form is saved as at the moment [t]. *)
Definition savedItem (id createdAt : string) (t : Z) (itemData : MenuItem.data) : MenuItem.t :=
  MenuItem.mk id createdAt (Date.toISOString t) (MenuItem.withTenantId "tenant-123" itemData).

(** Every category of the store is filed under its own id, as the
    collaborator files them. *)
Definition filedById (m : JsMap.t MenuCategory.t) : Prop :=
  ∀ k c, (k, c) ∈ m → MenuCategory.id c = k.

(** The screen shows the categories the store holds for the tenant of the
    application, in some order. *)
Definition inSync (st : App.State) (w : World) : Prop :=
  wf (categoryDB w) ∧ filedById (categoryDB w) ∧
  App.categories st ≡ₚ List.filter (ofTenant "tenant-123") (JsMap.values (categoryDB w)).

(** The place of an id on a list of ids; the length of the list when it is
    not on it. *)
Fixpoint indexOf (id : string) (ids : list string) : nat :=
  match ids with
  | [] => 0
  | h :: r => if String.eqb h id then 0 else S (indexOf id r)
  end.

(** The initial categories after the desserts were dragged to the top. *)
Definition dessertsFirst : list MenuCategory.t :=
  [ api.category "cat-3" "Desserts" "Sweet endings to your meal" 0;
    api.category "cat-1" "Appetizers" "Start your meal with our delicious appetizers" 1;
    api.category "cat-2" "Main Course" "Our signature main dishes" 2;
    api.category "cat-4" "Beverages" "Refreshing drinks and cocktails" 3 ].

(** *** Reading a written workbook *)

(** The names of the columns written on a sheet. *)
Definition columnsOf (ws : Worksheet) : list string :=
  List.flat_map (List.map fst) (sheetRows ws).

(** The sheets read are sheets of the workbook written, and a row object
    read from a sheet has no property that is not a column written on it. *)
Definition readFrom (written : list Worksheet)
    (read : list (string * list exportImportService.json)) : Prop :=
  ∀ name rows,
    exportImportService.sheetRowsOf name read = Some rows →
    ∃ ws, List.find (fun ws => String.eqb (sheetName ws) name) written = Some ws ∧
          Forall (fun obj => ∃ props, obj = exportImportService.JObj props ∧
                                      ∀ key, key ∈ List.map fst props → key ∈ columnsOf ws)
                 rows.

(** A workbook as read back: one category and one item. *)
Definition readSample : list (string * list exportImportService.json) :=
  [ ("Categories",
     [ exportImportService.JObj
         [ ("ID", exportImportService.JStr "cat-1");
           ("Name", exportImportService.JStr "Appetizers");
           ("Description", exportImportService.JStr "Start your meal with our delicious appetizers");
           ("Sort Order", exportImportService.JNum (Num.ofZ 1));
           ("Active", exportImportService.JBool true);
           ("Tenant ID", exportImportService.JStr "tenant-123") ] ]);
    ("Menu Items",
     [ exportImportService.JObj
         [ ("ID", exportImportService.JStr "item-1");
           ("Name", exportImportService.JStr "Bruschetta");
           ("Description", exportImportService.JStr "Toasted bread");
           ("Price", exportImportService.JNum (Num.parseFloat "8.99"));
           ("Category ID", exportImportService.JStr "cat-1") ] ]) ].

(** The sheets of the workbook that was written last. *)
Definition sheetsWritten (w : World) : list Worksheet :=
  match last (downloads w) with
  | Some (mkDownload _ (Workbook sheets)) => sheets
  | _ => []
  end.

(** The price of the item is a finite number. *)
Definition finitePrice (item : MenuItem.t) : bool :=
  match MenuItem.price (MenuItem.fields item) with
  | Num.Finite _ => true
  | _ => false
  end.

(** * Properties *)

(** ** The built-ins on sample values *)

Example parseFloat_values :
  List.map (fun s => Num.toString (Num.parseFloat s))
    ["5.50"; "0"; "-5"; "abc"; " 12px"; ".5"; "5."; "1e3"; "-.5e1"; "Infinity"; "1e400"; "0x10"] =
    ["5.5"; "0"; "-5"; "NaN"; "12"; "0.5"; "5"; "1000"; "-5"; "Infinity"; "Infinity"; "0"].
Proof. by vm_compute. Qed.

Example number_printing :
  Num.toString (Num.add (Num.parseFloat "0.1") (Num.parseFloat "0.2")) = "0.30000000000000004" ∧
  Num.toString (Num.div (Num.ofZ 1) (Num.ofZ 3)) = "0.3333333333333333" ∧
  Num.toString (Num.parseFloat "123456789012345680000") = "123456789012345680000" ∧
  Num.toString (Num.parseFloat "1e21") = "1e+21" ∧
  Num.toString (Num.parseFloat "0.0000001") = "1e-7" ∧
  Num.toString (Num.parseFloat "9007199254740993") = "9007199254740992" ∧
  Num.toString (Num.parseFloat "5e-324") = "5e-324".
Proof. by vm_compute. Qed.

Example parseInt_values :
  List.map (fun s => Num.toString (Num.parseInt s)) ["42"; " 7 min"; "-3.9"; "min"; "0x1A"] =
    ["42"; "7"; "-3"; "NaN"; "0"] ∧
  List.map (fun s => Num.toString (Num.parseIntAuto s)) ["42"; "0x1A"; "0x"; "undefined"] =
    ["42"; "26"; "NaN"; "NaN"].
Proof. by vm_compute. Qed.

Example date_values :
  Date.toISOString 0 = "1970-01-01T00:00:00.000Z" ∧
  Date.toISOString 951782400000 = "2000-02-29T00:00:00.000Z" ∧
  Date.toISOString 1700000000000 = "2023-11-14T22:13:20.000Z" ∧
  Date.datePart (Date.toISOString 1700000000000) = "2023-11-14".
Proof. by vm_compute. Qed.

Example string_values :
  Js.toLowerCase "Main Course" = "main course" ∧
  Js.trim "  a b  " = "a b" ∧
  Js.split "," "a,,b" = ["a"; EmptyString; "b"] ∧
  Js.split "," EmptyString = [EmptyString] ∧
  Js.join ";" ["Gluten"; "Dairy"] = "Gluten;Dairy" ∧
  Js.includes "id" "video url" = true.
Proof. by vm_compute. Qed.

(** ** The [Map] model *)

Section JsMapFacts.
Context {V : Type}.
Implicit Types (m : JsMap.t V) (k : string) (v : V).

Lemma get_set_eq m k v : JsMap.get k (JsMap.set k v m) = Some v.
Proof.
  induction m as [|[k' v'] m IH]; simpl.
  - by rewrite String.eqb_refl.
  - destruct (String.eqb k' k) eqn:E; simpl.
    + by rewrite String.eqb_refl.
    + by rewrite E.
Qed.

Lemma get_set_ne m k k' v : k ≠ k' → JsMap.get k' (JsMap.set k v m) = JsMap.get k' m.
Proof.
  intros Hne. induction m as [|[k0 v0] m IH]; simpl.
  - by rewrite (proj2 (String.eqb_neq _ _) Hne).
  - destruct (String.eqb k0 k) eqn:E; simpl.
    + apply String.eqb_eq in E. subst k0.
      by rewrite (proj2 (String.eqb_neq _ _) Hne).
    + by rewrite IH.
Qed.

Lemma get_None_notin m k : JsMap.get k m = None ↔ k ∉ JsMap.keys m.
Proof.
  induction m as [|[k0 v0] m IH]; simpl.
  - split; [intros _; apply not_elem_of_nil | done].
  - rewrite not_elem_of_cons. destruct (String.eqb k0 k) eqn:E.
    + apply String.eqb_eq in E as ->. split; [done | intros [? _]; done].
    + apply String.eqb_neq in E. rewrite IH.
      split; [intros ?; split; [by intros -> | done] | by intros [_ ?]].
Qed.

Lemma get_Some_in m k v : JsMap.get k m = Some v → (k, v) ∈ m.
Proof.
  induction m as [|[k0 v0] m IH]; simpl; [done |].
  destruct (String.eqb k0 k) eqn:E.
  - apply String.eqb_eq in E as ->. intros [= ->]. apply list_elem_of_here.
  - intros H. apply list_elem_of_further. auto.
Qed.

Lemma in_get_Some m k v : wf m → (k, v) ∈ m → JsMap.get k m = Some v.
Proof.
  unfold wf. induction m as [|[k0 v0] m IH]; simpl.
  - intros _ H. by apply elem_of_nil in H.
  - rewrite NoDup_cons. intros [Hk Hm]. rewrite elem_of_cons. intros [[= -> ->] | Hin].
    + by rewrite String.eqb_refl.
    + destruct (String.eqb k0 k) eqn:E; [| by apply IH].
      apply String.eqb_eq in E as ->. exfalso. apply Hk.
      apply list_elem_of_In, in_map_iff. exists (k, v).
      split; [done | by apply list_elem_of_In].
Qed.

Lemma has_false_delete m k : JsMap.has k m = false → JsMap.delete k m = m.
Proof.
  unfold JsMap.has, JsMap.delete.
  induction m as [|[k0 v0] m IH]; simpl; [done |].
  destruct (String.eqb k0 k) eqn:E; simpl; [done |].
  intros H. by rewrite IH.
Qed.

Lemma get_delete_eq m k : JsMap.get k (JsMap.delete k m) = None.
Proof.
  unfold JsMap.delete. induction m as [|[k0 v0] m IH]; simpl; [done |].
  destruct (String.eqb k0 k) eqn:E; simpl; [done |]. by rewrite E.
Qed.

Lemma get_delete_ne m k k' : k ≠ k' → JsMap.get k' (JsMap.delete k m) = JsMap.get k' m.
Proof.
  intros Hne. unfold JsMap.delete. induction m as [|[k0 v0] m IH]; simpl; [done |].
  destruct (String.eqb k0 k) eqn:E; simpl.
  - apply String.eqb_eq in E. subst k0.
    by rewrite (proj2 (String.eqb_neq _ _) Hne).
  - by rewrite IH.
Qed.

Lemma keys_set m k v :
  JsMap.keys (JsMap.set k v m) =
  if JsMap.has k m then JsMap.keys m else JsMap.keys m ++ [k].
Proof.
  unfold JsMap.has. induction m as [|[k0 v0] m IH]; simpl; [done |].
  destruct (String.eqb k0 k) eqn:E; simpl.
  - by apply String.eqb_eq in E as ->.
  - rewrite IH. by destruct (JsMap.get k m).
Qed.

Lemma wf_set m k v : wf m → wf (JsMap.set k v m).
Proof.
  unfold wf. rewrite keys_set. unfold JsMap.has.
  destruct (JsMap.get k m) eqn:E; [done |].
  intros H. apply NoDup_app. split_and!; [done | | apply NoDup_singleton].
  intros x Hx ->%list_elem_of_singleton. by apply get_None_notin in E.
Qed.

Lemma wf_delete m k : wf m → wf (JsMap.delete k m).
Proof.
  unfold wf, JsMap.delete, JsMap.keys.
  induction m as [|[k0 v0] m IH]; simpl; [done |].
  rewrite NoDup_cons. intros [Hk Hm].
  destruct (String.eqb k0 k); simpl; [by apply IH |].
  apply NoDup_cons. split; [| by apply IH].
  intros Hin. apply Hk.
  apply list_elem_of_In, in_map_iff in Hin as [[k1 v1] [<- Hin]].
  apply filter_In in Hin as [Hin _].
  apply list_elem_of_In, in_map_iff. by exists (k1, v1).
Qed.

(** Deleting a list of keys one after the other keeps the entries whose
    key is not in the list. *)
Lemma fold_delete (ids : list string) m :
  List.fold_left (fun db id => JsMap.delete id db) ids m =
  List.filter (fun kv => negb (existsb (String.eqb (fst kv)) ids)) m.
Proof.
  revert m. induction ids as [|id ids IH]; intros m; simpl.
  - induction m as [|kv m IHm]; simpl; [done | by rewrite <- IHm].
  - rewrite IH. unfold JsMap.delete.
    induction m as [|kv m IHm]; simpl; [done |].
    destruct (String.eqb (fst kv) id); simpl; [done |].
    destruct (existsb (String.eqb (fst kv)) ids); simpl; by rewrite IHm.
Qed.

End JsMapFacts.

(** ** The storage collaborator *)

Ltac run := unfold mbind, M_bind, mret, M_ret, modify, gets, throw, dateNow, newDateISO,
  api.simulateDelay, api.resolveWithCopy, consoleError; simpl.

Lemma deleteCategory_found (categoryId : string) (w : World) :
  JsMap.has categoryId (categoryDB w) = true →
  ∃ w', api.deleteCategory categoryId w = (Ok tt, w') ∧
        categoryDB w' = JsMap.delete categoryId (categoryDB w) ∧
        menuItemDB w' =
          List.fold_left (fun db id => JsMap.delete id db)
            (List.map fst
               (List.filter
                  (fun e => String.eqb (MenuItem.categoryId (MenuItem.fields (snd e))) categoryId)
                  (menuItemDB w)))
            (menuItemDB w).
Proof.
  intros H. unfold api.deleteCategory. run. rewrite H. simpl. eauto.
Qed.

(** Under the [Map] invariant, the cascade keeps exactly the items of other
    categories, in their order. *)
Lemma cascade_filter (categoryId : string) (items : JsMap.t MenuItem.t) :
  wf items →
  List.fold_left (fun db id => JsMap.delete id db)
    (List.map fst
       (List.filter
          (fun e => String.eqb (MenuItem.categoryId (MenuItem.fields (snd e))) categoryId)
          items))
    items =
  List.filter
    (fun e => negb (String.eqb (MenuItem.categoryId (MenuItem.fields (snd e))) categoryId))
    items.
Proof.
  intros Hwf. rewrite fold_delete. apply filter_ext_in. intros [k v] Hin. simpl. f_equal.
  destruct (String.eqb (MenuItem.categoryId (MenuItem.fields v)) categoryId) eqn:E.
  - apply existsb_exists. exists k. split; [| apply String.eqb_refl].
    apply in_map_iff. exists (k, v). split; [done |]. apply filter_In. by split.
  - apply not_true_is_false. intros (k' & Hk' & Hkk')%existsb_exists.
    apply String.eqb_eq in Hkk' as <-.
    apply in_map_iff in Hk' as ([k2 v2] & Heq & Hin2). simpl in Heq. subst k2.
    apply filter_In in Hin2 as [Hin2 Hcat]. simpl in Hcat.
    assert (v2 = v) as ->; [| congruence].
    apply list_elem_of_In, (in_get_Some _ _ _ Hwf) in Hin, Hin2. congruence.
Qed.

Lemma get_filter_value {V : Type} (p : V → bool) (m : JsMap.t V) (k : string) :
  wf m →
  JsMap.get k (List.filter (fun e => p (snd e)) m) =
  match JsMap.get k m with
  | Some v => if p v then Some v else None
  | None => None
  end.
Proof.
  unfold wf. induction m as [|[k0 v0] m IH]; simpl; [done |].
  rewrite NoDup_cons. intros [Hk Hm].
  destruct (String.eqb k0 k) eqn:E.
  - apply String.eqb_eq in E as ->. destruct (p v0); simpl.
    + by rewrite String.eqb_refl.
    + rewrite IH by done.
      destruct (JsMap.get k m) eqn:G; [| done].
      exfalso. apply Hk. apply get_Some_in, list_elem_of_In in G.
      apply list_elem_of_In, in_map_iff. by exists (k, v).
  - destruct (p v0); simpl; [rewrite E |]; by apply IH.
Qed.

(** C9.  Deleting a category that is in the category store succeeds, removes
    that category and every menu item whose [categoryId] is its id, and leaves
    every other category and every item of another category as it was, in
    place. *)
Theorem deleteCategory_cascades (categoryId : string) (w : World) :
  wf (menuItemDB w) →
  JsMap.has categoryId (categoryDB w) = true →
  ∃ w',
    api.deleteCategory categoryId w = (Ok tt, w') ∧
    JsMap.get categoryId (categoryDB w') = None ∧
    (∀ id, id ≠ categoryId → JsMap.get id (categoryDB w') = JsMap.get id (categoryDB w)) ∧
    (∀ id,
       JsMap.get id (menuItemDB w') =
       match JsMap.get id (menuItemDB w) with
       | Some item =>
           if String.eqb (MenuItem.categoryId (MenuItem.fields item)) categoryId
           then None else Some item
       | None => None
       end) ∧
    menuItemDB w' =
      List.filter
        (fun e => negb (String.eqb (MenuItem.categoryId (MenuItem.fields (snd e))) categoryId))
        (menuItemDB w).
Proof.
  intros Hwf Hhas.
  destruct (deleteCategory_found categoryId w Hhas) as (w' & Hrun & Hcat & Hitems).
  rewrite cascade_filter in Hitems by done.
  exists w'. split_and!; [done | | | | done].
  - rewrite Hcat. apply get_delete_eq.
  - intros id Hne. rewrite Hcat. by apply get_delete_ne.
  - intros id. rewrite Hitems.
    rewrite (get_filter_value
               (fun v => negb (String.eqb (MenuItem.categoryId (MenuItem.fields v)) categoryId)))
      by done.
    destruct (JsMap.get id (menuItemDB w)); [| done].
    by destruct (String.eqb _ categoryId).
Qed.

(** C10.  On an id that is not in the store it addresses, each of
    [updateCategory], [deleteCategory], [updateMenuItem] and [deleteMenuItem]
    throws its not-found error and both stores are what they were. *)
Theorem not_found_leaves_stores (w : World) :
  (∀ updatedCategory,
     JsMap.has (MenuCategory.id updatedCategory) (categoryDB w) = false →
     ∃ w', api.updateCategory updatedCategory w = (Throw "Category not found", w') ∧
           sameStores w w') ∧
  (∀ categoryId,
     JsMap.has categoryId (categoryDB w) = false →
     ∃ w', api.deleteCategory categoryId w = (Throw "Category not found", w') ∧
           sameStores w w') ∧
  (∀ updatedItem,
     JsMap.has (MenuItem.id updatedItem) (menuItemDB w) = false →
     ∃ w', api.updateMenuItem updatedItem w = (Throw "Menu item not found", w') ∧
           sameStores w w') ∧
  (∀ itemId,
     JsMap.has itemId (menuItemDB w) = false →
     ∃ w', api.deleteMenuItem itemId w = (Throw "Menu item not found", w') ∧
           sameStores w w').
Proof.
  unfold sameStores. split_and!.
  - intros c H. unfold api.updateCategory. run. rewrite H. simpl. eauto.
  - intros c H. unfold api.deleteCategory. run. rewrite H. simpl. eauto.
  - intros i H. unfold api.updateMenuItem. run. rewrite H. simpl. eauto.
  - intros i H. unfold api.deleteMenuItem. run. rewrite H. simpl.
    eexists. split; [done |]. simpl. split; [done |]. by apply has_false_delete.
Qed.

(** The cascade on the initial data: Appetizers is deleted. *)
Lemma deleteCategory_cascades_witness :
  (wf (menuItemDB world0) ∧ JsMap.has "cat-1" (categoryDB world0) = true) ∧
  ∃ w',
    api.deleteCategory "cat-1" world0 = (Ok tt, w') ∧
    JsMap.get "cat-1" (categoryDB w') = None ∧
    (∀ id, id ≠ "cat-1" → JsMap.get id (categoryDB w') = JsMap.get id (categoryDB world0)) ∧
    (∀ id,
       JsMap.get id (menuItemDB w') =
       match JsMap.get id (menuItemDB world0) with
       | Some item =>
           if String.eqb (MenuItem.categoryId (MenuItem.fields item)) "cat-1"
           then None else Some item
       | None => None
       end) ∧
    menuItemDB w' =
      List.filter
        (fun e => negb (String.eqb (MenuItem.categoryId (MenuItem.fields (snd e))) "cat-1"))
        (menuItemDB world0).
Proof.
  assert (Hwf : wf (menuItemDB world0)).
  { unfold wf. apply (bool_decide_unpack _). vm_compute. exact I. }
  assert (Hhas : JsMap.has "cat-1" (categoryDB world0) = true) by (vm_compute; reflexivity).
  split; [by split |]. by apply deleteCategory_cascades.
Defined.

(** Deleting Appetizers from the initial data leaves the other three
    categories and the three items that are not appetizers. *)
Example deleteCategory_initial_data :
  ∃ w',
    api.deleteCategory "cat-1" world0 = (Ok tt, w') ∧
    JsMap.keys (categoryDB w') = ["cat-2"; "cat-3"; "cat-4"] ∧
    JsMap.keys (menuItemDB w') = ["item-2"; "item-4"; "item-5"].
Proof. eexists. split; [vm_compute; reflexivity | by vm_compute]. Qed.

(** The four operations on ids that the initial data does not hold. *)
Lemma not_found_leaves_stores_witness :
  (JsMap.has "cat-9" (categoryDB world0) = false ∧
   JsMap.has "item-9" (menuItemDB world0) = false) ∧
  (∃ w', api.updateCategory (api.category "cat-9" "Soups" "Warm" 5) world0 =
         (Throw "Category not found", w') ∧ sameStores world0 w') ∧
  (∃ w', api.deleteCategory "cat-9" world0 = (Throw "Category not found", w') ∧
         sameStores world0 w') ∧
  (∃ w', api.updateMenuItem
           (api.item "now" "item-9" "Soup" "Warm" "4" "soup.png" [] "cat-1" "None" 90 5) world0 =
         (Throw "Menu item not found", w') ∧ sameStores world0 w') ∧
  (∃ w', api.deleteMenuItem "item-9" world0 = (Throw "Menu item not found", w') ∧
         sameStores world0 w').
Proof.
  assert (Hc : JsMap.has "cat-9" (categoryDB world0) = false) by (vm_compute; reflexivity).
  assert (Hi : JsMap.has "item-9" (menuItemDB world0) = false) by (vm_compute; reflexivity).
  destruct (not_found_leaves_stores world0) as (H1 & H2 & H3 & H4).
  split; [by split |]. split_and!.
  - by apply H1.
  - by apply H2.
  - by apply H3.
  - by apply H4.
Defined.

(** *** The [Map] invariant is kept *)

Lemma wf_setBatch (itemsData : list MenuItem.data) (startId : Z) (iso : string) (index : nat)
    (db : JsMap.t MenuItem.t) :
  wf db → wf (api.setBatch startId iso index itemsData db).
Proof.
  revert index db. induction itemsData as [|x r IH]; intros index db H; [done |].
  cbn [api.setBatch]. by apply IH, wf_set.
Qed.

Lemma wf_fold_delete {V : Type} (ids : list string) (m : JsMap.t V) :
  wf m → wf (List.fold_left (fun db id => JsMap.delete id db) ids m).
Proof.
  revert m. induction ids as [|id ids IH]; intros m H; [done |].
  simpl. by apply IH, wf_delete.
Qed.

Lemma wf_ofEntries {V : Type} (l : list (string * V)) : wf (JsMap.ofEntries l).
Proof.
  unfold JsMap.ofEntries.
  assert (H : ∀ m : JsMap.t V, wf m →
                wf (List.fold_left (fun m kv => JsMap.set (fst kv) (snd kv) m) l m)).
  { induction l as [|kv l IH]; intros m Hm; [done |]. simpl. by apply IH, wf_set. }
  apply H. constructor.
Qed.

(** Every call of the collaborator, failed or not, leaves both stores
    without a repeated key. *)
Theorem api_keeps_wf (w : World) :
  wfWorld w →
  (∀ t, wfWorld (snd (api.getCategories t w))) ∧
  (∀ d, wfWorld (snd (api.addCategory d w))) ∧
  (∀ c, wfWorld (snd (api.updateCategory c w))) ∧
  (∀ id, wfWorld (snd (api.deleteCategory id w))) ∧
  (∀ t c, wfWorld (snd (api.getMenuItems t c w))) ∧
  (∀ t, wfWorld (snd (api.getAllMenuItems t w))) ∧
  (∀ d, wfWorld (snd (api.addMenuItem d w))) ∧
  (∀ ds, wfWorld (snd (api.addMenuItemsBatch ds w))) ∧
  (∀ i, wfWorld (snd (api.updateMenuItem i w))) ∧
  (∀ id, wfWorld (snd (api.deleteMenuItem id w))).
Proof.
  intros [Hc Hi]. unfold wfWorld. split_and!; intros.
  - done.
  - split; [by apply wf_set | done].
  - unfold api.updateCategory. run. destruct (negb _); simpl; [done |].
    split; [by apply wf_set | done].
  - unfold api.deleteCategory. run. destruct (negb _); simpl; [done |].
    split; [by apply wf_delete | by apply wf_fold_delete].
  - done.
  - done.
  - split; [done | by apply wf_set].
  - split; [done | by apply wf_setBatch].
  - unfold api.updateMenuItem. run. destruct (negb _); simpl; [done |].
    split; [done | by apply wf_set].
  - unfold api.deleteMenuItem. run. destruct (negb _); simpl;
      (split; [done | by apply wf_delete]).
Qed.

Lemma initial_stores_wf (loaded : string) :
  wf api.initialCategoryDB ∧ wf (api.initialMenuItemDB loaded).
Proof. split; apply wf_ofEntries. Qed.

(** ** The row loop of [handleExcelUpload] *)

Section UploadLoop.

(** The case mapping applied to the names of categories: any function. *)
Variable lower : string → string.

Lemma addCategory_run (categoryData : MenuCategory.data) (w : World) :
  api.addCategory categoryData w =
  (Ok (MenuCategory.mk ("cat-" +:+ pretty (now w)) categoryData),
   advance 500
     (setCategoryDB
        (JsMap.set ("cat-" +:+ pretty (now w))
                   (MenuCategory.mk ("cat-" +:+ pretty (now w)) categoryData))
        (addCall (AddCategory categoryData) w))).
Proof. reflexivity. Qed.

(** The three ways through the loop body. *)
Lemma processRow_cases (n : nat) (l : App.Loop) (row : Row) (w : World) :
  App.processRow lower n l row w =
  if negb (App.truthy (App.categoryNameOf row)) then
    (Ok (App.skip (App.rowLabel row +:+ "Missing Category Name.") l), w)
  else
    match App.usable (JsMap.get (App.categoryKey lower row) (App.categoryNameToIdMap l)) with
    | Some categoryId => (Ok (App.finishRow row categoryId l), w)
    | None =>
        let data := App.newCategoryData (App.categoryNameOf row) n (App.newCategoriesCreated l) in
        let id := "cat-" +:+ pretty (now w) in
        (Ok (App.finishRow row id (App.remember (App.categoryKey lower row) id l)),
         advance 500
           (setCategoryDB (JsMap.set id (MenuCategory.mk id data))
                          (addCall (AddCategory data) w)))
    end.
Proof.
  unfold App.processRow.
  destruct (negb (App.truthy (App.categoryNameOf row))); [reflexivity |].
  destruct (App.usable _); reflexivity.
Qed.

(** What the tests after the category do to the loop variables. *)
Lemma finishRow_cases (row : Row) (categoryId : string) (l : App.Loop) :
  (∃ message, App.finishRow row categoryId l = App.skip message l ∧
     (message = App.rowLabel row +:+ "Invalid or missing Price." ∨
      message = "A row was skipped: Missing Item Name.")) ∨
  (∃ item, App.finishRow row categoryId l = App.accept item l ∧
           MenuItem.categoryId item = categoryId).
Proof.
  unfold App.finishRow.
  destruct (_ || _)%bool; [left; eauto |].
  destruct (negb _); [left; eauto | right; eauto].
Qed.

Lemma processRow_total (n : nat) (l : App.Loop) (row : Row) (w : World) :
  ∃ l' w', App.processRow lower n l row w = (Ok l', w').
Proof.
  rewrite processRow_cases.
  destruct (negb _); [eauto |]. destruct (App.usable _); simpl; eauto.
Qed.

Lemma forEach_app {S X : Type} (body : S → X → M S) (xs ys : list X) (s : S) (w : World) :
  forEach body (xs ++ ys) s w =
  match forEach body xs s w with
  | (Ok s', w') => forEach body ys s' w'
  | (Throw e, w') => (Throw e, w')
  end.
Proof.
  revert s w. induction xs as [|x xs IH]; intros s w; simpl; [done |].
  unfold mbind, M_bind. destruct (body s x w) as [[s'|e] w']; [apply IH | done].
Qed.

Lemma forEach_one {S X : Type} (body : S → X → M S) (x : X) (s : S) (w : World) :
  forEach body [x] s w = body s x w.
Proof.
  simpl. unfold mbind, M_bind, mret, M_ret.
  by destruct (body s x w) as [[s'|e] w'].
Qed.

(** Induction over the rows: a property of the rows read so far and of the
    state that holds at the start and is kept by every turn holds at the end,
    and the loop does end. *)
Lemma loop_invariant (n : nat) (P : list Row → App.Loop → World → Prop)
    (rows : list Row) (l0 : App.Loop) (w0 : World) :
  P [] l0 w0 →
  (∀ pre l w row l' w',
     P pre l w → forEach (App.processRow lower n) pre l0 w0 = (Ok l, w) →
     App.processRow lower n l row w = (Ok l', w') → P (pre ++ [row]) l' w') →
  ∃ l w, forEach (App.processRow lower n) rows l0 w0 = (Ok l, w) ∧ P rows l w.
Proof.
  intros H0 Hstep. induction rows as [|row rows IH] using rev_ind.
  - exists l0, w0. by split.
  - destruct IH as (l & w & Hrun & HP).
    destruct (processRow_total n l row w) as (l' & w' & Hrow).
    exists l', w'. split; [| by eapply Hstep].
    by rewrite forEach_app, Hrun, forEach_one.
Qed.

Lemma importRows_total (cats : list MenuCategory.t) (rows : list Row) (w : World) :
  ∃ l w', App.importRows lower cats rows w = (Ok l, w').
Proof.
  destruct (loop_invariant (length cats) (fun _ _ _ => True) rows (App.initialLoop lower cats) w)
    as (l & w' & H & _); eauto.
Qed.

(** Every turn counts its row once: as an error with one message, or as a
    success with one item. *)
Lemma processRow_counts (n : nat) (l : App.Loop) (row : Row) (w : World) (l' : App.Loop) (w' : World) :
  App.processRow lower n l row w = (Ok l', w') →
  (App.successCount l' = App.successCount l ∧ App.errorCount l' = S (App.errorCount l) ∧
   App.newItems l' = App.newItems l ∧
   ∃ message, App.errors l' = App.errors l ++ [message] ∧
     (String.prefix (App.rowLabel row) message = true ∨
      message = "A row was skipped: Missing Item Name.")) ∨
  (App.successCount l' = S (App.successCount l) ∧ App.errorCount l' = App.errorCount l ∧
   App.errors l' = App.errors l ∧
   ∃ item, App.newItems l' = App.newItems l ++ [item]).
Proof.
  rewrite processRow_cases.
  assert (Hpre : ∀ s, String.prefix (App.rowLabel row) (App.rowLabel row +:+ s) = true).
  { intros s. generalize (App.rowLabel row) as p.
    induction p as [|c p IH]; simpl; [by destruct s |].
    by rewrite Ascii.eqb_refl || destruct (ascii_dec c c). }
  destruct (negb _).
  { intros [= <- <-]. left. simpl. split_and!; try done. eexists. split; [done |]. left. apply Hpre. }
  destruct (App.usable _) as [cid|].
  - intros [= <- <-].
    destruct (finishRow_cases row cid l) as [(m & -> & Hm) | (it & -> & _)].
    + left. simpl. split_and!; try done. exists m. split; [done |].
      destruct Hm as [-> | ->]; [left; apply Hpre | by right].
    + right. simpl. eauto.
  - simpl. intros [= <- <-].
    match goal with |- context [App.finishRow row ?c ?l0] =>
      destruct (finishRow_cases row c l0) as [(m & -> & Hm) | (it & -> & _)] end.
    + left. simpl. split_and!; try done. exists m. split; [done |].
      destruct Hm as [-> | ->]; [left; apply Hpre | by right].
    + right. simpl. eauto.
Qed.

(** ** The end of [handleExcelUpload] *)

Lemma bind_ok {A B : Type} (m : M A) (f : A → M B) (w w' : World) (a : A) :
  m w = (Ok a, w') → (m ≫= f) w = f a w'.
Proof. intros H. unfold mbind, M_bind. by rewrite H. Qed.

Lemma tryCatch_ok {A : Type} (m : M A) (h : string → M A) (w w' : World) (a : A) :
  m w = (Ok a, w') → tryCatch m h w = (Ok a, w').
Proof. intros H. unfold tryCatch. by rewrite H. Qed.

Lemma addMenuItemsBatch_run (itemsData : list MenuItem.data) (w : World) :
  api.addMenuItemsBatch itemsData w = (Ok (length itemsData), afterBatch itemsData w).
Proof. reflexivity. Qed.

Lemma submitBatch_run (l : App.Loop) (w : World) :
  App.submitBatch l w =
  (Ok tt, if App.newItems l is [] then w else afterBatch (App.newItems l) w).
Proof. unfold App.submitBatch. by destruct (App.newItems l). Qed.

Lemma fetchCategories_run (st : App.State) (w : World) :
  ∃ st' w',
    App.fetchCategories st w = (Ok st', w') ∧
    App.toast st' = App.toast st ∧
    calls w' = calls w ++ [GetCategories "tenant-123"] ∧
    console w' = console w ∧ sameStores w w'.
Proof.
  unfold App.fetchCategories, tryCatch, sameStores. run.
  destruct (App.selectedCategory st); [destruct (existsb _ _) |]; simpl; eauto 10.
Qed.

Lemma handleSelectCategory_run (category : MenuCategory.t) (st : App.State) (w : World) :
  ∃ st' w',
    App.handleSelectCategory category st w = (Ok st', w') ∧
    App.toast st' = App.toast st ∧
    calls w' = calls w ++ [GetMenuItems "tenant-123" (MenuCategory.id category)] ∧
    console w' = console w ∧ sameStores w w'.
Proof.
  unfold App.handleSelectCategory, tryCatch, sameStores. run. eauto 10.
Qed.

(** The run of [handleExcelUpload] once the row loop has ended in [l]. *)
Lemma handleExcelUpload_run (rows : list Row) (st : App.State) (w : World)
    (l : App.Loop) (w1 : World) :
  App.importRows lower (App.categories st) rows w = (Ok l, w1) →
  ∃ st' w2,
    App.handleExcelUpload lower (Ok rows) st w = (Ok st', w2) ∧
    App.toast st' =
      Some (if Js.nonEmpty (App.summary l) then App.summary l else "No items found in file.",
            if Nat.ltb 0 (App.errorCount l) then App.error else App.success) ∧
    calls w2 =
      calls w1 ++
      (if App.newItems l is [] then [] else [AddMenuItemsBatch (App.newItems l)]) ++
      refreshCalls st ∧
    console w2 =
      console w1 ++
      (if Nat.ltb 0 (App.errorCount l)
       then ["Excel upload errors:" +:+ exportImportService.lineFeed +:+ " " +:+
             Js.join exportImportService.lineFeed (App.errors l)]
       else []) ∧
    categoryDB w2 = categoryDB w1 ∧
    menuItemDB w2 =
      menuItemDB (if App.newItems l is [] then w1 else afterBatch (App.newItems l) w1).
Proof.
  intros Hrows.
  set (st1 := App.setIsUploading true st).
  set (st2 := App.showToast
                (if Js.nonEmpty (App.summary l) then App.summary l else "No items found in file.")
                (if Nat.ltb 0 (App.errorCount l) then App.error else App.success) st1).
  set (wb := if App.newItems l is [] then w1 else afterBatch (App.newItems l) w1).
  set (wc := if Nat.ltb 0 (App.errorCount l)
             then addConsole ("Excel upload errors:" +:+ exportImportService.lineFeed +:+ " " +:+
                              Js.join exportImportService.lineFeed (App.errors l)) wb
             else wb).
  destruct (fetchCategories_run st2 wc) as (st3 & w3 & Hfetch & Htoast3 & Hcalls3 & Hcons3 & Hdb3 & Hit3).
  assert (∃ st4 w4,
             (match App.selectedCategory st2 with
              | Some sel => App.handleSelectCategory sel st3
              | None => mret st3
              end) w3 = (Ok st4, w4) ∧
             App.toast st4 = App.toast st3 ∧
             calls w4 = calls w3 ++ (match App.selectedCategory st with
                                     | Some sel => [GetMenuItems "tenant-123" (MenuCategory.id sel)]
                                     | None => [] end) ∧
             console w4 = console w3 ∧ sameStores w3 w4)
    as (st4 & w4 & Hsel & Htoast4 & Hcalls4 & Hcons4 & Hdb4 & Hit4).
  { change (App.selectedCategory st2) with (App.selectedCategory st).
    destruct (App.selectedCategory st) as [sel|].
    - apply handleSelectCategory_run.
    - exists st3, w3. unfold sameStores. by rewrite app_nil_r. }
  exists (App.setIsUploading false st4), w4.
  split.
  { unfold App.handleExcelUpload. fold st1.
    erewrite bind_ok; [reflexivity |].
    apply tryCatch_ok.
    erewrite bind_ok; [| reflexivity].
    change (App.categories st1) with (App.categories st).
    erewrite bind_ok; [| exact Hrows].
    erewrite bind_ok; [| apply submitBatch_run].
    fold wb. fold st2.
    erewrite (bind_ok _ _ wb wc tt).
    2:{ subst wc. by destruct (Nat.ltb 0 (App.errorCount l)). }
    erewrite bind_ok; [| exact Hfetch].
    exact Hsel. }
  assert (Hwc_calls : calls wc = calls wb).
  { subst wc. by destruct (Nat.ltb 0 (App.errorCount l)). }
  assert (Hwb_calls : calls wb = calls w1 ++
            (if App.newItems l is [] then [] else [AddMenuItemsBatch (App.newItems l)])).
  { subst wb. destruct (App.newItems l); simpl; [by rewrite app_nil_r | done]. }
  split_and!.
  - simpl. by rewrite Htoast4, Htoast3.
  - rewrite Hcalls4, Hcalls3, Hwc_calls, Hwb_calls. unfold refreshCalls.
    by rewrite <- !app_assoc.
  - rewrite Hcons4, Hcons3. subst wc wb.
    destruct (Nat.ltb 0 (App.errorCount l)); destruct (App.newItems l); simpl;
      by rewrite ?app_nil_r.
  - rewrite Hdb4, Hdb3. subst wc wb.
    by destruct (Nat.ltb 0 (App.errorCount l)); destruct (App.newItems l).
  - rewrite Hit4, Hit3. subst wc.
    by destruct (Nat.ltb 0 (App.errorCount l)).
Qed.

(** ** The batch call *)

Lemma batchId_inj (startId : Z) (i j : nat) :
  "item-" +:+ pretty (startId + Z.of_nat i) = "item-" +:+ pretty (startId + Z.of_nat j) → i = j.
Proof. simpl. intros [= H]. apply pretty_Z_inj in H. lia. Qed.

Lemma setBatch_get_other (itemsData : list MenuItem.data) (startId : Z) (iso : string)
    (index : nat) (db : JsMap.t MenuItem.t) (k : string) :
  (∀ j, (index ≤ j)%nat → k ≠ "item-" +:+ pretty (startId + Z.of_nat j)) →
  JsMap.get k (api.setBatch startId iso index itemsData db) = JsMap.get k db.
Proof.
  revert index db. induction itemsData as [|item r IH]; intros index db Hk; [done |].
  cbn [api.setBatch]. rewrite IH.
  - apply get_set_ne. intros <-. by apply (Hk index).
  - intros j Hj. apply Hk. lia.
Qed.

Lemma setBatch_get (itemsData : list MenuItem.data) (startId : Z) (iso : string)
    (index : nat) (db : JsMap.t MenuItem.t) (i : nat) (item : MenuItem.data) :
  itemsData !! i = Some item →
  JsMap.get ("item-" +:+ pretty (startId + Z.of_nat (index + i)))
            (api.setBatch startId iso index itemsData db) =
  Some (api.batchItem startId iso (index + i) item).
Proof.
  revert index db i. induction itemsData as [|x r IH]; intros index db i; [done |].
  destruct i as [|i]; cbn [api.setBatch]; simpl.
  - intros [= ->]. rewrite Nat.add_0_r. rewrite setBatch_get_other.
    + apply get_set_eq.
    + intros j Hj Heq. apply batchId_inj in Heq. lia.
  - intros Hi. replace (index + S i)%nat with (S index + i)%nat by lia. by apply IH.
Qed.

Lemma importRows_no_batch (cats : list MenuCategory.t) (rows : list Row) (w : World) :
  ∃ l w1, App.importRows lower cats rows w = (Ok l, w1) ∧
          ∃ cs, calls w1 = calls w ++ cs ∧ batchCalls cs = [].
Proof.
  apply (loop_invariant (length cats)
           (fun _ _ w1 => ∃ cs, calls w1 = calls w ++ cs ∧ batchCalls cs = [])).
  - exists []. by rewrite app_nil_r.
  - intros pre l w0 row l' w' (cs & Hcs & Hb) _. rewrite processRow_cases.
    destruct (negb _); [intros [= <- <-]; eauto |].
    destruct (App.usable _); [intros [= <- <-]; eauto |].
    simpl. intros [= <- <-]. simpl. eexists (cs ++ [_]).
    rewrite Hcs, <- app_assoc. split; [done |].
    unfold batchCalls in *. by rewrite flat_map_app, Hb.
Qed.

(** C7 (amended).  In every spreadsheet upload the row loop makes no batch
    call; after the last row, the validated items are submitted in one batch
    call when there is at least one of them, and no batch call is made when
    there is none; the refresh that follows makes none.  A batch call stores
    every submitted item under the id of its position and returns the number
    of items submitted. *)
Theorem upload_submits_one_batch :
  (∀ (rows : list Row) (st : App.State) (w : World),
     ∃ l w1 st' w2 cs,
       App.importRows lower (App.categories st) rows w = (Ok l, w1) ∧
       calls w1 = calls w ++ cs ∧ batchCalls cs = [] ∧
       App.handleExcelUpload lower (Ok rows) st w = (Ok st', w2) ∧
       calls w2 =
         calls w1 ++
         (if App.newItems l is [] then [] else [AddMenuItemsBatch (App.newItems l)]) ++
         refreshCalls st ∧
       batchCalls (refreshCalls st) = [] ∧
       batchCalls (since w (calls w2)) =
         (if App.newItems l is [] then [] else [App.newItems l])) ∧
  (∀ (itemsData : list MenuItem.data) (w : World),
     ∃ w',
       api.addMenuItemsBatch itemsData w = (Ok (length itemsData), w') ∧
       ∀ index item,
         itemsData !! index = Some item →
         JsMap.get ("item-" +:+ Js.intToString (now w + Z.of_nat index)) (menuItemDB w') =
         Some (api.batchItem (now w) (Date.toISOString (now w)) index item)).
Proof.
  split.
  - intros rows st w.
    destruct (importRows_no_batch (App.categories st) rows w) as (l & w1 & Hrows & cs & Hcs & Hb).
    destruct (handleExcelUpload_run rows st w l w1 Hrows) as (st' & w2 & Hrun & _ & Hcalls & _).
    assert (Hr : batchCalls (refreshCalls st) = []).
    { unfold refreshCalls. by destruct (App.selectedCategory st). }
    exists l, w1, st', w2, cs. split_and!; try done.
    unfold since. rewrite Hcalls, Hcs, <- app_assoc, drop_app_length.
    unfold batchCalls in *. rewrite !flat_map_app, Hb, Hr.
    by destruct (App.newItems l).
  - intros itemsData w. exists (afterBatch itemsData w). split; [reflexivity |].
    intros index item Hi. apply (setBatch_get _ _ _ 0 _ index item Hi).
Qed.

End UploadLoop.

(** C7, as stated, fails: a run whose only row has the price [0] validates no
    item and makes no batch call at all. *)
Lemma upload_without_batch_call :
  ∃ st' w',
    App.handleExcelUpload Js.toLowerCase (Ok [rowZeroPrice]) state0 emptyWorld = (Ok st', w') ∧
    length (batchCalls (calls w')) ≠ 1%nat ∧
    calls w' =
      [ AddCategory (App.newCategoryData (Some (CStr "Drinks")) 0 0);
        GetCategories "tenant-123" ].
Proof.
  eexists _, _. split; [vm_compute; reflexivity |].
  split; [vm_compute; discriminate | vm_compute; reflexivity].
Qed.

(** A batch of one item on the initial data. *)
Lemma upload_submits_one_batch_witness :
  ∃ w',
    api.addMenuItemsBatch [App.buildItem rowCola "cat-4" (Num.parseFloat "2.5")] world0 =
      (Ok 1%nat, w') ∧
    JsMap.get "item-1700000000000" (menuItemDB w') =
      Some (api.batchItem 1700000000000 "2023-11-14T22:13:20.000Z" 0
              (App.buildItem rowCola "cat-4" (Num.parseFloat "2.5"))).
Proof.
  destruct (upload_submits_one_batch Js.toLowerCase) as [_ Hbatch].
  destruct (Hbatch [App.buildItem rowCola "cat-4" (Num.parseFloat "2.5")] world0)
    as (w' & Hrun & Hget).
  exists w'. split; [exact Hrun |].
  apply (Hget 0%nat). reflexivity.
Defined.

(** ** Counting the rows *)











(** A sheet with one row for each way a row ends: the messages are those of
    the three failing rows, each with its own label, and the one item is the
    one of the fourth row. *)
Example four_rows_four_fates :
  List.map fateOf [rowNoCategory; rowZeroPrice; rowNoName; rowCola] =
    [NoCategory; BadPrice; NoName; Added] ∧
  ∃ l w',
    App.importRows Js.toLowerCase [] [rowNoCategory; rowZeroPrice; rowNoName; rowCola]
                   emptyWorld = (Ok l, w') ∧
    App.errors l =
      [ "Row with item " +:+ App.quoted "Soup" +:+ " skipped: Missing Category Name.";
        "Row with item " +:+ App.quoted "Water" +:+ " skipped: Invalid or missing Price.";
        "A row was skipped: Missing Item Name." ] ∧
    List.map MenuItem.name (App.newItems l) = ["Cola"] ∧
    App.successCount l = 1%nat ∧ App.errorCount l = 3%nat.
Proof.
  split; [by vm_compute |].
  eexists _, _. split; [vm_compute; reflexivity |]. by vm_compute.
Qed.

(** ** Category resolution *)

Section Resolution.

Variable lower : string → string.

Lemma finishRow_map (row : Row) (categoryId : string) (l : App.Loop) :
  App.categoryNameToIdMap (App.finishRow row categoryId l) = App.categoryNameToIdMap l.
Proof. by destruct (finishRow_cases row categoryId l) as [(m & -> & _) | (it & -> & _)]. Qed.

Lemma finishRow_item (row : Row) (categoryId : string) (l : App.Loop) (item : MenuItem.data) :
  App.newItems (App.finishRow row categoryId l) = App.newItems l ++ [item] →
  MenuItem.categoryId item = categoryId.
Proof.
  destruct (finishRow_cases row categoryId l) as [(m & -> & _) | (it & -> & Hc)]; simpl.
  - intros H. apply (f_equal length) in H. rewrite length_app in H. simpl in H. lia.
  - intros H. apply app_inv_head in H. by injection H as <-.
Qed.

Lemma usable_Some (v : option string) (id : string) :
  App.usable v = Some id → v = Some id ∧ Js.nonEmpty id = true.
Proof.
  destruct v as [s|]; simpl; [| done].
  destruct (Js.nonEmpty s) eqn:E; [| done]. by intros [= <-].
Qed.

Lemma creations_app (key : string) (cs ds : list ApiCall) :
  creations lower key (cs ++ ds) = creations lower key cs ++ creations lower key ds.
Proof. apply flat_map_app. Qed.

Lemma producedAt_prefix (cats : list MenuCategory.t) (pre : list Row) (row : Row) (w : World)
    (i : nat) (item : MenuItem.data) :
  (i < length pre)%nat →
  producedAt lower cats (pre ++ [row]) w i item → producedAt lower cats pre w i item.
Proof.
  intros Hi (r & lp & wp & l' & w' & Hr & Hpre & Hrow & Hitems).
  exists r, lp, wp, l', w'. split_and!; try done.
  - by rewrite lookup_app_l in Hr.
  - by rewrite take_app_le in Hpre by lia.
Qed.

(** The state of the resolution of [key] while the rows are read: either no
    row has named it yet and nothing was created for it, or one category
    [data] was created for it under [id], recorded in the map and present
    in the store, and every item of a row that names it carries [id]. *)
Lemma resolution_invariant (cats : list MenuCategory.t) (rows : list Row) (w : World)
    (key : string) :
  App.usable (JsMap.get key (App.categoryNameToIdMap (App.initialLoop lower cats))) = None →
  ∃ l w1,
    App.importRows lower cats rows w = (Ok l, w1) ∧
    ∃ cs, calls w1 = calls w ++ cs ∧
      ((App.usable (JsMap.get key (App.categoryNameToIdMap l)) = None ∧
        creations lower key cs = [] ∧
        Forall (fun row => ¬ references lower key row) rows) ∨
       (∃ data t,
          let id := "cat-" +:+ Js.intToString t in
          JsMap.get key (App.categoryNameToIdMap l) = Some id ∧
          t < now w1 ∧
          creations lower key cs = [data] ∧
          JsMap.get id (categoryDB w1) = Some (MenuCategory.mk id data) ∧
          ∀ i row item,
            rows !! i = Some row → references lower key row →
            producedAt lower cats rows w i item → MenuItem.categoryId item = id)).
Proof.
  intros Hnew.
  apply (loop_invariant lower (length cats)
    (fun pre l w1 =>
       ∃ cs, calls w1 = calls w ++ cs ∧
         ((App.usable (JsMap.get key (App.categoryNameToIdMap l)) = None ∧
           creations lower key cs = [] ∧
           Forall (fun row => ¬ references lower key row) pre) ∨
          (∃ data t,
             let id := "cat-" +:+ Js.intToString t in
             JsMap.get key (App.categoryNameToIdMap l) = Some id ∧
             t < now w1 ∧
             creations lower key cs = [data] ∧
             JsMap.get id (categoryDB w1) = Some (MenuCategory.mk id data) ∧
             ∀ i row item,
               pre !! i = Some row → references lower key row →
               producedAt lower cats pre w i item → MenuItem.categoryId item = id)))).
  { exists []. rewrite app_nil_r. split; [done |]. left. by split_and!. }
  intros pre l w1 row l' w' (cs & Hcs & Hphase) Hpre Hrow.
  (* what the turn for [row] pushed, if anything, came from this turn *)
  assert (Hlast : ∀ i r item,
             (pre ++ [row]) !! i = Some r → producedAt lower cats (pre ++ [row]) w i item →
             (i < length pre)%nat ∨
             (r = row ∧ App.newItems l' = App.newItems l ++ [item])).
  { intros i r item Hr (r' & lp & wp & l2 & w2 & Hr' & Hrun & Hstep & Hitems).
    destruct (decide (i < length pre)%nat) as [|Hge]; [by left | right].
    assert (i = length pre) as ->.
    { apply lookup_lt_Some in Hr. rewrite length_app in Hr. simpl in Hr. lia. }
    rewrite list_lookup_middle in Hr, Hr' by done.
    injection Hr as <-. injection Hr' as <-.
    rewrite take_app_length in Hrun. fold (App.importRows lower cats pre) in Hrun.
    unfold App.importRows in Hrun. rewrite Hpre in Hrun. injection Hrun as <- <-.
    rewrite Hrow in Hstep. injection Hstep as <- <-. done. }
  (* items of earlier rows keep what was known about them *)
  assert (Hearlier : ∀ id,
             (∀ i r item, pre !! i = Some r → references lower key r →
                          producedAt lower cats pre w i item → MenuItem.categoryId item = id) →
             (App.newItems l' = App.newItems l ∨
              ∀ item, App.newItems l' = App.newItems l ++ [item] →
                      references lower key row → MenuItem.categoryId item = id) →
             ∀ i r item, (pre ++ [row]) !! i = Some r → references lower key r →
                         producedAt lower cats (pre ++ [row]) w i item →
                         MenuItem.categoryId item = id).
  { intros id Hold Hnow i r item Hr Hrefs Hprod.
    destruct (Hlast i r item Hr Hprod) as [Hi | [-> Hitems]].
    - rewrite lookup_app_l in Hr by done.
      eapply Hold; [exact Hr | done | by eapply producedAt_prefix].
    - destruct Hnow as [Hsame | Hnow]; [| by apply Hnow].
      rewrite Hsame in Hitems. apply (f_equal length) in Hitems.
      rewrite length_app in Hitems. simpl in Hitems. lia. }
  rewrite processRow_cases in Hrow.
  destruct (negb (App.truthy (App.categoryNameOf row))) eqn:Htruthy.
  { (* no category name: nothing changes *)
    injection Hrow as <- <-. exists cs. split; [done |]. simpl.
    destruct Hphase as [(Hu & Hc & Hall) | (data & t & Hget & Ht & Hc & Hdb & Hitems)].
    - left. split_and!; try done. apply Forall_app. split; [done |].
      apply Forall_singleton. intros [Htr _]. by rewrite Htr in Htruthy.
    - right. exists data, t. simpl. split_and!; try done.
      apply Hearlier; [done | by left]. }
  apply negb_false_iff in Htruthy.
  destruct (App.usable (JsMap.get (App.categoryKey lower row) (App.categoryNameToIdMap l)))
    as [cid|] eqn:Hlookup.
  { (* the category is known *)
    injection Hrow as <- <-. exists cs. split; [done |]. rewrite finishRow_map.
    destruct Hphase as [(Hu & Hc & Hall) | (data & t & Hget & Ht & Hc & Hdb & Hitems)].
    - left. split_and!; try done. apply Forall_app. split; [done |].
      apply Forall_singleton. intros [_ Hk]. rewrite Hk in Hlookup. congruence.
    - right. exists data, t. simpl. split_and!; try done.
      apply Hearlier; [done | right].
      intros item Hitem [_ Hk]. apply finishRow_item in Hitem as ->.
      rewrite Hk in Hlookup. apply usable_Some in Hlookup as [Hl _]. simpl in Hget. congruence. }
  (* the category is created *)
  simpl in Hrow. injection Hrow as <- <-. simpl.
  eexists (cs ++ [_]). split; [by rewrite Hcs, <- app_assoc |].
  rewrite finishRow_map. simpl. rewrite creations_app. simpl.
  change (lower (App.toStr (App.categoryNameOf row))) with (App.categoryKey lower row).
  destruct (String.eqb (App.categoryKey lower row) key) eqn:Hkey.
  - (* for [key]: this is its one creation *)
    apply String.eqb_eq in Hkey.
    destruct Hphase as [(Hu & Hc & Hall) | (data & t & Hget & Ht & Hc & Hdb & Hitems)].
    + right. eexists _, (now w1). simpl. rewrite Hc, Hkey. split_and!.
      * apply get_set_eq.
      * lia.
      * reflexivity.
      * apply get_set_eq.
      * apply Hearlier.
        -- intros i r item Hr Hrefs _. exfalso.
           eapply Forall_forall in Hall; [by apply Hall | by eapply list_elem_of_lookup_2].
        -- right. intros item Hitem _.
           by apply (finishRow_item row _ (App.remember _ _ l)) in Hitem.
    + exfalso. rewrite Hkey in Hlookup. simpl in Hget. by rewrite Hget in Hlookup.
  - (* for another key: [key] is not touched *)
    apply String.eqb_neq in Hkey. rewrite app_nil_r.
    destruct Hphase as [(Hu & Hc & Hall) | (data & t & Hget & Ht & Hc & Hdb & Hitems)].
    + left. rewrite get_set_ne by done. split_and!; try done.
      apply Forall_app. split; [done |]. apply Forall_singleton. by intros [_ Hk].
    + right. exists data, t. simpl. rewrite !get_set_ne; [split_and!; try done; try lia | | done].
      * apply Hearlier; [done |].
        right. intros item _ [_ Hk]. done.
      * simpl. intros [= H]. apply pretty_Z_inj in H. lia.
Qed.

(** C1.  In every run of the spreadsheet upload, and for every case mapping
    [lower] in the place of [String.prototype.toLowerCase] (the mapping of
    the engine, on the whole of Unicode, is one of them): when one or more
    rows name a category that is new (its lowercased name [key] has no usable
    id in the map the run starts with), the run creates one category for that
    name, and every item that comes from a row naming it, whatever the
    spelling (any name that [lower] sends to [key]), carries the id of that
    category, which is in the category store when the run ends. *)
Theorem category_created_once (cats : list MenuCategory.t) (rows : list Row) (w : World)
    (key : string) :
  App.usable (JsMap.get key (App.categoryNameToIdMap (App.initialLoop lower cats))) = None →
  (∃ row, row ∈ rows ∧ references lower key row) →
  ∃ l w' data id,
    App.importRows lower cats rows w = (Ok l, w') ∧
    creations lower key (since w (calls w')) = [data] ∧
    JsMap.get key (App.categoryNameToIdMap l) = Some id ∧
    JsMap.get id (categoryDB w') = Some (MenuCategory.mk id data) ∧
    ∀ i row item,
      rows !! i = Some row → references lower key row →
      producedAt lower cats rows w i item → MenuItem.categoryId item = id.
Proof.
  intros Hnew (row & Hin & Href).
  destruct (resolution_invariant cats rows w key Hnew) as (l & w' & Hrun & cs & Hcs & Hphase).
  destruct Hphase as [(_ & _ & Hall) | (data & t & Hget & _ & Hc & Hdb & Hitems)].
  - exfalso. eapply Forall_forall in Hall; [by apply Hall | done].
  - exists l, w', data, ("cat-" +:+ Js.intToString t). split_and!; try done.
    unfold since. by rewrite Hcs, drop_app_length.
Qed.

End Resolution.

(** Three rows on the initial data, read with the case mapping of the ASCII
    range; two of them spell the new category Drinks differently. *)
Lemma category_created_once_witness :
  (App.usable (JsMap.get "drinks"
                 (App.categoryNameToIdMap
                     (App.initialLoop Js.toLowerCase api.initialCategoriesData))) = None ∧
   references Js.toLowerCase "drinks" rowCola ∧ references Js.toLowerCase "drinks" rowTea) ∧
  ∃ l w' data id,
    App.importRows Js.toLowerCase api.initialCategoriesData
        [rowCola; rowTea; rowCake] world0 = (Ok l, w') ∧
    creations Js.toLowerCase "drinks" (since world0 (calls w')) = [data] ∧
    JsMap.get "drinks" (App.categoryNameToIdMap l) = Some id ∧
    JsMap.get id (categoryDB w') = Some (MenuCategory.mk id data) ∧
    ∀ i row item,
      [rowCola; rowTea; rowCake] !! i = Some row → references Js.toLowerCase "drinks" row →
      producedAt Js.toLowerCase api.initialCategoriesData [rowCola; rowTea; rowCake] world0 i item →
      MenuItem.categoryId item = id.
Proof.
  split.
  - split; [vm_compute; reflexivity |]. split; split; vm_compute; reflexivity.
  - apply category_created_once.
    + vm_compute. reflexivity.
    + exists rowCola. split; [apply list_elem_of_here |].
      split; vm_compute; reflexivity.
Defined.

(** The scenario of two rows naming the new category Drinks: one category is
    created, both items carry its id, and the third row finds Desserts. *)
Example two_rows_one_category :
  ∃ l w',
    App.importRows Js.toLowerCase api.initialCategoriesData
        [rowCola; rowTea; rowCake] world0 = (Ok l, w') ∧
    List.map MenuItem.categoryId (App.newItems l) =
      ["cat-1700000000000"; "cat-1700000000000"; "cat-3"] ∧
    JsMap.keys (categoryDB w') = ["cat-1"; "cat-2"; "cat-3"; "cat-4"; "cat-1700000000000"] ∧
    List.length (List.filter (fun c => match c with AddCategory _ => true | _ => false end)
                             (calls w')) = 1%nat.
Proof. eexists _, _. split; [vm_compute; reflexivity |]. by vm_compute. Qed.

(** The same with a name that has an accented letter, under a case mapping
    that lowers it: the two spellings have one key, one category is created,
    and both items carry its id. *)
Example accented_rows_one_category :
  latinLower "CAFÉ" = "café" ∧
  App.categoryKey latinLower rowMocha = App.categoryKey latinLower rowLatte ∧
  ∃ l w',
    App.importRows latinLower api.initialCategoriesData [rowMocha; rowLatte] world0 =
      (Ok l, w') ∧
    List.map MenuItem.categoryId (App.newItems l) =
      ["cat-1700000000000"; "cat-1700000000000"] ∧
    List.length (creations latinLower "café" (since world0 (calls w'))) = 1%nat.
Proof.
  split; [by vm_compute |]. split; [by vm_compute |].
  eexists _, _. split; [vm_compute; reflexivity |]. by vm_compute.
Qed.

(** ** Export *)

Lemma exportData_stores (menuItems : list MenuItem.t) (categories : list MenuCategory.t)
    (options : ExportOptions) (w : World) :
  ∃ r w', exportImportService.exportData menuItems categories options w = (r, w') ∧
          sameStores w w' ∧ calls w' = calls w.
Proof.
  unfold exportImportService.exportData, tryCatch, sameStores.
  unfold exportImportService.exportToCSV, exportImportService.exportToJSON,
    exportImportService.download.
  destruct (String.eqb (format options) "csv"); [by eexists _, _ |].
  destruct (String.eqb (format options) "json"); [by eexists _, _ |].
  destruct (String.eqb (format options) "xlsx").
  - unfold exportImportService.exportToXLSX. run.
    destruct (xlsxAvailable w); by eexists _, _.
  - by eexists _, _.
Qed.

Lemma handleExport_run (st : App.State) (w : World) :
  ∃ st' w',
    App.handleExport st w = (Ok st', w') ∧ sameStores w w' ∧ calls w' = calls w ∧
    App.categories st' = App.categories st ∧
    App.menuItems st' = App.menuItems st ∧
    App.filteredMenuItems st' = App.filteredMenuItems st.
Proof.
  unfold App.handleExport.
  set (items := if Nat.ltb 0 (length (App.filteredMenuItems (App.setIsExporting true st)))
                then App.filteredMenuItems (App.setIsExporting true st)
                else App.menuItems (App.setIsExporting true st)).
  destruct (exportData_stores items (App.categories (App.setIsExporting true st))
              (App.exportOptions (App.setIsExporting true st)) w)
    as (r & w' & Hrun & Hsame & Hcalls).
  unfold tryCatch, mbind, M_bind, mret, M_ret. rewrite Hrun.
  destruct r as [[]|e]; by eexists _, _.
Qed.

Lemma handleExcelExport_stores (st : App.State) (w : World) :
  ∃ st' w',
    App.handleExcelExport st w = (Ok st', w') ∧ sameStores w w' ∧
    calls w' = calls w ++ [GetAllMenuItems "tenant-123"] ∧
    App.categories st' = App.categories st ∧
    App.menuItems st' = App.menuItems st ∧
    App.filteredMenuItems st' = App.filteredMenuItems st.
Proof.
  unfold App.handleExcelExport, api.getAllMenuItems, tryCatch, sameStores. run.
  destruct (Nat.eqb _ 0); [eexists _, _; split_and!; reflexivity |].
  change (xlsxAvailable (advance 500 (addCall (GetAllMenuItems "tenant-123") w)))
    with (xlsxAvailable w).
  destruct (xlsxAvailable w); simpl; eexists _, _; split_and!; reflexivity.
Qed.

(** C8.  An export in any format, through [exportData] or through either
    handler, leaves the category store and the item store as they were, makes
    no mutating call, and leaves the item and category collections of the
    component as they were. *)
Theorem export_leaves_data_alone :
  (∀ (menuItems : list MenuItem.t) (categories : list MenuCategory.t)
     (options : ExportOptions) (w : World),
     ∃ r w', exportImportService.exportData menuItems categories options w = (r, w') ∧
             sameStores w w' ∧ calls w' = calls w) ∧
  (∀ (st : App.State) (w : World),
     ∃ st' w',
       App.handleExport st w = (Ok st', w') ∧ sameStores w w' ∧ calls w' = calls w ∧
       App.categories st' = App.categories st ∧
       App.menuItems st' = App.menuItems st ∧
       App.filteredMenuItems st' = App.filteredMenuItems st) ∧
  (∀ (st : App.State) (w : World),
     ∃ st' w',
       App.handleExcelExport st w = (Ok st', w') ∧ sameStores w w' ∧
       calls w' = calls w ++ [GetAllMenuItems "tenant-123"] ∧
       App.categories st' = App.categories st ∧
       App.menuItems st' = App.menuItems st ∧
       App.filteredMenuItems st' = App.filteredMenuItems st).
Proof.
  split_and!.
  - apply exportData_stores.
  - apply handleExport_run.
  - apply handleExcelExport_stores.
Qed.

(** The guarded sibling: with no item in the store, [handleExcelExport]
    reports that there is nothing to export and writes no file. *)
Lemma handleExcelExport_nothing (st : App.State) (w : World) :
  List.filter (fun item => String.eqb (MenuItem.tenantId (MenuItem.fields item)) "tenant-123")
              (JsMap.values (menuItemDB w)) = [] →
  ∃ st' w',
    App.handleExcelExport st w = (Ok st', w') ∧
    App.toast st' = Some ("No items to export.", App.error) ∧
    downloads w' = downloads w.
Proof.
  intros H. unfold App.handleExcelExport, api.getAllMenuItems, tryCatch. run.
  rewrite H. simpl. by eexists _, _.
Qed.

(** C4: the code at the failing input.  [handleExport] on a component that
    holds no items, with the default CSV options, hands the browser a file
    that holds the header row alone and shows the success toast; the same
    happens through [exportData] for every category list and every world. *)
Theorem empty_export_writes_header_file :
  (∃ st' w',
     App.handleExport state0 emptyWorld = (Ok st', w') ∧
     App.toast st' = Some ("Export completed successfully!", App.success) ∧
     downloads w' =
       [mkDownload "menu-export-2023-11-14.csv"
          (CsvText ("ID,Name,Description,Price,Currency,Category ID,Category Name," +:+
                    "Special Type,Allergens,Availability Flag,Sold Out,Prep Time (min)," +:+
                    "Calories,Max Order Qty,BOGO,Complimentary,Image Orientation," +:+
                    "Created At,Updated At"))]) ∧
  (∀ (categories : list MenuCategory.t) (w : World),
     ∃ name,
       exportImportService.exportData [] categories (App.exportOptions state0) w =
       (Ok tt, addDownload (mkDownload name (CsvText (Js.join "," exportImportService.headers))) w)).
Proof.
  split.
  - eexists _, _. split; [vm_compute; reflexivity |]. split; reflexivity.
  - intros categories w. eexists. reflexivity.
Qed.

(** ** CSV lines *)











(** C5: the code at the failing input.  The header line is cut at every
    comma, also inside double quotes, where [parseCSVLine] on the same line
    keeps the quoted name whole; the columns of a file with such a header are
    then read one place off: the description receives the price text and the
    price is read as missing. *)
Theorem header_is_split_inside_quotes :
  exportImportService.parseHeaderLine headerWithComma = ["Name"; "full"; "Description"; "Price"] ∧
  exportImportService.parseCSVLine headerWithComma = ["Name, full"; "Description"; "Price"] ∧
  ∃ r w',
    exportImportService.importFromCSV csvHeaderWithComma emptyWorld = (Ok r, w') ∧
    List.map (fun i => (MenuItem.name (MenuItem.fields i),
                        MenuItem.description (MenuItem.fields i),
                        Num.toString (MenuItem.price (MenuItem.fields i))))
             (exportImportService.importedItems r) =
      [("Taco, large", "5.50", "0")].
Proof.
  split; [by vm_compute |]. split; [by vm_compute |].
  eexists _, _. split; [vm_compute; reflexivity | by vm_compute].
Qed.

(** ** Flags *)

(** In the spreadsheet upload a flag is on exactly when the text of its cell
    lowercases to true. *)
Lemma upload_flags (row : Row) (categoryId : string) (price : number) :
  let item := App.buildItem row categoryId price in
  (MenuItem.availabilityFlag item = true ↔
     Js.toLowerCase (App.toStr (row !! "Available")) = "true") ∧
  (MenuItem.soldOut item = true ↔
     Js.toLowerCase (App.toStr (row !! "Sold Out")) = "true") ∧
  (MenuItem.bogo item = true ↔ Js.toLowerCase (App.toStr (row !! "BOGO")) = "true").
Proof.
  simpl. unfold App.isTrue. split_and!; apply bool_decide_eq_true.
Qed.

Example upload_flag_values :
  App.isTrue (Some (CStr "TRUE")) = true ∧ App.isTrue (Some (CStr "True")) = true ∧
  App.isTrue (Some (CBool true)) = true ∧ App.isTrue None = false ∧
  App.isTrue (Some (CStr EmptyString)) = false ∧ App.isTrue (Some (CStr "yes")) = false ∧
  App.isTrue (Some (CNum (Num.ofZ 1))) = false.
Proof. by vm_compute. Qed.

(** C6: the code at the failing input.  In the CSV import the three flags are
    compared with the text true as it is: a row that spells them TRUE or True
    gets all three off, the row that spells them true gets them on; the
    spreadsheet upload reads TRUE as on. *)
Theorem csv_flags_compared_exactly :
  csvFlags ["Taco"; "Crisp"; "5"; "TRUE"; "True"; "TRUE"] = Some (false, false, false) ∧
  csvFlags ["Taco"; "Crisp"; "5"; "true"; "true"; "true"] = Some (true, true, true) ∧
  App.isTrue (Some (CStr "TRUE")) = true.
Proof. by vm_compute. Qed.

(** ** Prices *)

(** In the spreadsheet upload a row whose price text gives NaN, zero or a
    negative number is counted as an error with one message and adds no
    item. *)
Lemma upload_rejects_bad_price (lower : string → string) (n : nat) (l : App.Loop)
  (row : Row) (w : World) :
  (let price := Num.parseFloat (App.toStr (row !! "Price")) in
   (Num.isNaN price || Num.leZero price)%bool = true) →
  ∃ l' w' message,
    App.processRow lower n l row w = (Ok l', w') ∧
    App.newItems l' = App.newItems l ∧
    App.successCount l' = App.successCount l ∧
    App.errorCount l' = S (App.errorCount l) ∧
    App.errors l' = App.errors l ++ [message].
Proof.
  simpl. intros Hbad. rewrite processRow_cases.
  destruct (negb _); [by eexists _, _, _ |].
  destruct (App.usable _); simpl; unfold App.finishRow; rewrite Hbad; by eexists _, _, _.
Qed.

Example upload_bad_prices :
  Forall (fun v => let price := Num.parseFloat (App.toStr v) in
                   (Num.isNaN price || Num.leZero price)%bool = true)
         [ Some (CStr "0"); Some (CStr "-5"); Some (CStr "abc"); Some (CStr EmptyString);
           None; Some (CNum (Num.ofZ 0)); Some (CNum (Num.ofZ (-5))); Some (CNum Num.NaN);
           Some (CBool true) ].
Proof. repeat constructor. Qed.

(** C2: the code at the failing input.  The CSV import keeps the rows whose
    price is 0, -5, a text or missing: all four are among the imported items,
    with the prices 0, -5, 0 and 0, and no error is reported; and
    [validateMenuItem] accepts a JSON item whose price is 0 or -5. *)
Theorem csv_import_keeps_bad_prices :
  (∃ r w',
     exportImportService.importFromCSV csvBadPrices emptyWorld = (Ok r, w') ∧
     exportImportService.success r = true ∧
     exportImportService.errors r = None ∧
     exportImportService.message r = "Successfully imported 4 items") ∧
  csvPrices csvBadPrices = ["0"; "-5"; "0"; "0"] ∧
  exportImportService.validateMenuItem (jsonItem 0) = true ∧
  exportImportService.validateMenuItem (jsonItem (-5)) = true.
Proof.
  split; [| by vm_compute].
  eexists _, _. split; [vm_compute; reflexivity | by vm_compute].
Qed.

(** * Further properties *)

(** ** The storage collaborator: reading back what was written *)

Lemma insertSorted_perm (c : MenuCategory.t) (l : list MenuCategory.t) :
  api.insertSorted c l ≡ₚ c :: l.
Proof.
  induction l as [|h r IH]; simpl; [done |].
  destruct (Num.ltb _ _); [| done].
  rewrite IH. apply Permutation_swap.
Qed.

Lemma sortBySortOrder_perm (l : list MenuCategory.t) : api.sortBySortOrder l ≡ₚ l.
Proof.
  induction l as [|c l IH]; simpl; [done |].
  fold (api.sortBySortOrder l). by rewrite insertSorted_perm, IH.
Qed.

Lemma ltb_false_trans (a b c : MenuCategory.t) :
  finiteOrder a → finiteOrder b → finiteOrder c →
  orderLe a b → orderLe b c → orderLe a c.
Proof.
  unfold finiteOrder, orderLe. intros [p ->] [q ->] [r ->]. simpl.
  rewrite !negb_false_iff, !Qle_bool_iff. intros H1 H2. by apply (Qle_trans _ q).
Qed.

Lemma ltb_true_orderLe (h c : MenuCategory.t) :
  Num.ltb (MenuCategory.sortOrder (MenuCategory.fields h))
          (MenuCategory.sortOrder (MenuCategory.fields c)) = true →
  orderLe h c.
Proof.
  unfold orderLe.
  destruct (MenuCategory.sortOrder (MenuCategory.fields h)) as [|[]|p],
           (MenuCategory.sortOrder (MenuCategory.fields c)) as [|[]|q]; simpl; try done.
  rewrite negb_true_iff, negb_false_iff, Qle_bool_iff. intros H.
  destruct (Qlt_le_dec p q) as [Hlt | Hle]; [by apply Qlt_le_weak |].
  apply Qle_bool_iff in Hle. congruence.
Qed.

Lemma insertSorted_sorted (c : MenuCategory.t) (l : list MenuCategory.t) :
  finiteOrder c → Forall finiteOrder l →
  StronglySorted orderLe l → StronglySorted orderLe (api.insertSorted c l).
Proof.
  intros Hc Hfin Hs. induction Hs as [|h r Hr IH Hall]; simpl.
  - repeat constructor.
  - apply Forall_cons in Hfin as [Hh Hfin].
    destruct (Num.ltb _ _) eqn:E.
    + constructor; [by apply IH |].
      rewrite insertSorted_perm. constructor; [by apply ltb_true_orderLe | done].
    + constructor; [by constructor |].
      constructor; [exact E |].
      rewrite Forall_forall in Hall, Hfin. apply Forall_forall. intros x Hx.
      apply (ltb_false_trans c h x); auto.
Qed.

Lemma sortBySortOrder_sorted (l : list MenuCategory.t) :
  Forall finiteOrder l → StronglySorted orderLe (api.sortBySortOrder l).
Proof.
  induction l as [|c l IH]; simpl; [constructor |].
  intros [Hc Hl]%Forall_cons. fold (api.sortBySortOrder l).
  apply insertSorted_sorted; [done | by rewrite sortBySortOrder_perm | by apply IH].
Qed.

Lemma getCategories_run (tenantId : string) (w : World) :
  api.getCategories tenantId w =
  (Ok (api.sortBySortOrder (List.filter (ofTenant tenantId) (JsMap.values (categoryDB w)))),
   advance 500 (addCall (GetCategories tenantId) w)).
Proof. reflexivity. Qed.

(** X1.  [getCategories] changes neither store.  What it returns is a
    rearrangement of the categories of the tenant, each once, and when their
    sort orders are finite numbers it is in ascending sort order. *)
Theorem getCategories_sorted (tenantId : string) (w : World) :
  Forall finiteOrder (JsMap.values (categoryDB w)) →
  ∃ l w',
    api.getCategories tenantId w = (Ok l, w') ∧
    sameStores w w' ∧
    l ≡ₚ List.filter (ofTenant tenantId) (JsMap.values (categoryDB w)) ∧
    StronglySorted orderLe l.
Proof.
  intros Hfin. eexists _, _. split; [apply getCategories_run |].
  split; [done |]. split; [apply sortBySortOrder_perm |].
  apply sortBySortOrder_sorted.
  apply Forall_forall. intros c Hc. rewrite Forall_forall in Hfin. apply Hfin.
  apply list_elem_of_In, filter_In in Hc as [Hc _]. by apply list_elem_of_In.
Qed.

(** The four initial categories are listed in their order. *)
Lemma getCategories_sorted_witness :
  ∃ l w',
    api.getCategories "tenant-123" world0 = (Ok l, w') ∧
    sameStores world0 w' ∧
    l ≡ₚ List.filter (ofTenant "tenant-123") (JsMap.values (categoryDB world0)) ∧
    StronglySorted orderLe l.
Proof.
  apply getCategories_sorted.
  set (l := JsMap.values (categoryDB world0)). vm_compute in l. subst l.
  repeat (constructor; [eexists; reflexivity |]). constructor.
Defined.

Lemma in_values_set {V : Type} (k : string) (v : V) (m : JsMap.t V) :
  v ∈ JsMap.values (JsMap.set k v m).
Proof.
  unfold JsMap.values. induction m as [|[k' v'] m IH]; simpl.
  - apply list_elem_of_here.
  - destruct (String.eqb k' k); simpl; [apply list_elem_of_here |].
    by apply list_elem_of_further.
Qed.

(** X2.  [addCategory] never fails.  The category it returns carries the
    given data under the id cat-<clock>, is in the category store under that
    id, and is in the list [getCategories] returns next for its tenant; the
    item store is not touched. *)
Theorem addCategory_then_listed (categoryData : MenuCategory.data) (w : World) :
  ∃ c w1 l w2,
    api.addCategory categoryData w = (Ok c, w1) ∧
    c = MenuCategory.mk ("cat-" +:+ Js.intToString (now w)) categoryData ∧
    JsMap.get (MenuCategory.id c) (categoryDB w1) = Some c ∧
    (∀ id, id ≠ MenuCategory.id c →
           JsMap.get id (categoryDB w1) = JsMap.get id (categoryDB w)) ∧
    menuItemDB w1 = menuItemDB w ∧
    api.getCategories (MenuCategory.tenantId categoryData) w1 = (Ok l, w2) ∧
    c ∈ l.
Proof.
  eexists _, _, _, _. split; [apply addCategory_run |]. split; [reflexivity |].
  split; [apply get_set_eq |]. split; [intros id Hid; by apply get_set_ne |].
  split; [reflexivity |]. split; [apply getCategories_run |].
  rewrite sortBySortOrder_perm. apply list_elem_of_In, filter_In. split.
  - apply list_elem_of_In. apply in_values_set.
  - apply String.eqb_refl.
Qed.

Lemma keys_set_has {V : Type} (k : string) (v : V) (m : JsMap.t V) :
  JsMap.has k m = true → JsMap.keys (JsMap.set k v m) = JsMap.keys m.
Proof. intros H. by rewrite keys_set, H. Qed.

(** X3.  [updateCategory] on a category whose id is in the store returns the
    given category and puts it in the place of the old one: the order of the
    ids is kept, every other category and the item store are as before. *)
Theorem updateCategory_in_place (updatedCategory : MenuCategory.t) (w : World) :
  JsMap.has (MenuCategory.id updatedCategory) (categoryDB w) = true →
  ∃ w',
    api.updateCategory updatedCategory w = (Ok updatedCategory, w') ∧
    JsMap.get (MenuCategory.id updatedCategory) (categoryDB w') = Some updatedCategory ∧
    JsMap.keys (categoryDB w') = JsMap.keys (categoryDB w) ∧
    (∀ id, id ≠ MenuCategory.id updatedCategory →
           JsMap.get id (categoryDB w') = JsMap.get id (categoryDB w)) ∧
    menuItemDB w' = menuItemDB w.
Proof.
  intros H. unfold api.updateCategory. run. rewrite H. simpl.
  eexists. split; [reflexivity |]. simpl.
  split; [apply get_set_eq |]. split; [by apply keys_set_has |].
  split; [intros id Hid; by apply get_set_ne | done].
Qed.

Lemma updateCategory_in_place_witness :
  ∃ w',
    api.updateCategory (api.category "cat-2" "Mains" "Hearty plates" 7) world0 =
      (Ok (api.category "cat-2" "Mains" "Hearty plates" 7), w') ∧
    JsMap.get "cat-2" (categoryDB w') = Some (api.category "cat-2" "Mains" "Hearty plates" 7) ∧
    JsMap.keys (categoryDB w') = JsMap.keys (categoryDB world0) ∧
    (∀ id, id ≠ "cat-2" → JsMap.get id (categoryDB w') = JsMap.get id (categoryDB world0)) ∧
    menuItemDB w' = menuItemDB world0.
Proof.
  apply (updateCategory_in_place (api.category "cat-2" "Mains" "Hearty plates" 7) world0).
  vm_compute. reflexivity.
Defined.

(** X4.  [updateMenuItem] on an item whose id is in the store stores the
    given item with [updatedAt] set to the present time, in the place of the
    old one, and returns it; the creation time is the one the caller passed.
    Every other item and the category store are as before. *)
Theorem updateMenuItem_in_place (updatedItem : MenuItem.t) (w : World) :
  JsMap.has (MenuItem.id updatedItem) (menuItemDB w) = true →
  ∃ stored w',
    api.updateMenuItem updatedItem w = (Ok stored, w') ∧
    stored = MenuItem.mk (MenuItem.id updatedItem) (MenuItem.createdAt updatedItem)
                         (Date.toISOString (now w)) (MenuItem.fields updatedItem) ∧
    JsMap.get (MenuItem.id updatedItem) (menuItemDB w') = Some stored ∧
    JsMap.keys (menuItemDB w') = JsMap.keys (menuItemDB w) ∧
    (∀ id, id ≠ MenuItem.id updatedItem →
           JsMap.get id (menuItemDB w') = JsMap.get id (menuItemDB w)) ∧
    categoryDB w' = categoryDB w.
Proof.
  intros H. unfold api.updateMenuItem. run. rewrite H. simpl.
  eexists _, _. split; [reflexivity |]. simpl. split; [reflexivity |].
  split; [apply get_set_eq |]. split; [by apply keys_set_has |].
  split; [intros id Hid; by apply get_set_ne | done].
Qed.

Lemma updateMenuItem_in_place_witness :
  ∃ stored w',
    api.updateMenuItem
      (api.item "2020" "item-5" "Iced Latte" "Cold" "5.49" "latte.png" ["Dairy"]
                "cat-4" "None" 80 5) world0 = (Ok stored, w') ∧
    MenuItem.createdAt stored = "2020" ∧
    MenuItem.updatedAt stored = "2023-11-14T22:13:20.000Z" ∧
    JsMap.get "item-5" (menuItemDB w') = Some stored ∧
    JsMap.keys (menuItemDB w') = JsMap.keys (menuItemDB world0).
Proof.
  destruct (updateMenuItem_in_place
              (api.item "2020" "item-5" "Iced Latte" "Cold" "5.49" "latte.png" ["Dairy"]
                        "cat-4" "None" 80 5) world0)
    as (stored & w' & Hrun & -> & Hget & Hkeys & _); [vm_compute; reflexivity |].
  eexists _, w'. split; [exact Hrun |]. split; [reflexivity |]. split; [reflexivity |].
  split; [exact Hget | exact Hkeys].
Defined.

Lemma length_delete_wf {V : Type} (k : string) (m : JsMap.t V) :
  wf m → JsMap.has k m = true → S (length (JsMap.delete k m)) = length m.
Proof.
  unfold wf, JsMap.has, JsMap.delete. induction m as [|[k0 v0] m IH]; simpl; [done |].
  rewrite NoDup_cons. intros [Hk Hm].
  destruct (String.eqb k0 k) eqn:E; simpl.
  - intros _. apply String.eqb_eq in E as ->. f_equal.
    fold (JsMap.delete k m). rewrite has_false_delete; [done |].
    unfold JsMap.has. apply get_None_notin in Hk. by rewrite Hk.
  - intros H. f_equal. by apply IH.
Qed.

(** X5.  [deleteMenuItem] on an id that is in the store removes that item and
    nothing else: the other items keep their values, the store has one entry
    less, and the category store is as before. *)
Theorem deleteMenuItem_removes_one (itemId : string) (w : World) :
  wf (menuItemDB w) →
  JsMap.has itemId (menuItemDB w) = true →
  ∃ w',
    api.deleteMenuItem itemId w = (Ok tt, w') ∧
    JsMap.get itemId (menuItemDB w') = None ∧
    (∀ id, id ≠ itemId → JsMap.get id (menuItemDB w') = JsMap.get id (menuItemDB w)) ∧
    S (length (menuItemDB w')) = length (menuItemDB w) ∧
    categoryDB w' = categoryDB w.
Proof.
  intros Hwf H. unfold api.deleteMenuItem. run. rewrite H. simpl.
  eexists. split; [reflexivity |]. simpl.
  split; [apply get_delete_eq |]. split; [intros id Hid; by apply get_delete_ne |].
  split; [by apply length_delete_wf | done].
Qed.

Lemma deleteMenuItem_removes_one_witness :
  ∃ w',
    api.deleteMenuItem "item-3" world0 = (Ok tt, w') ∧
    JsMap.get "item-3" (menuItemDB w') = None ∧
    (∀ id, id ≠ "item-3" → JsMap.get id (menuItemDB w') = JsMap.get id (menuItemDB world0)) ∧
    S (length (menuItemDB w')) = length (menuItemDB world0) ∧
    categoryDB w' = categoryDB world0.
Proof.
  apply deleteMenuItem_removes_one.
  - unfold wf. apply (bool_decide_unpack _). vm_compute. exact I.
  - vm_compute. reflexivity.
Defined.

Lemma no_item_left (tenantId categoryId : string) (m : JsMap.t MenuItem.t) :
  List.filter
    (fun item =>
       (String.eqb (MenuItem.tenantId (MenuItem.fields item)) tenantId &&
        String.eqb (MenuItem.categoryId (MenuItem.fields item)) categoryId)%bool)
    (JsMap.values
       (List.filter
          (fun e => negb (String.eqb (MenuItem.categoryId (MenuItem.fields (snd e))) categoryId))
          m)) = [].
Proof.
  unfold JsMap.values. induction m as [|[k v] m IH]; simpl; [done |].
  destruct (String.eqb (MenuItem.categoryId (MenuItem.fields v)) categoryId) eqn:E; simpl.
  - apply IH.
  - rewrite E, andb_false_r. apply IH.
Qed.

(** X6.  After a category was deleted, [getMenuItems] finds no item of it,
    for any tenant. *)
Theorem deleted_category_has_no_items (categoryId tenantId : string) (w : World) :
  wf (menuItemDB w) →
  JsMap.has categoryId (categoryDB w) = true →
  ∃ w1 w2,
    api.deleteCategory categoryId w = (Ok tt, w1) ∧
    api.getMenuItems tenantId categoryId w1 = (Ok [], w2).
Proof.
  intros Hwf Hhas.
  destruct (deleteCategory_found categoryId w Hhas) as (w1 & Hrun & _ & Hitems).
  rewrite cascade_filter in Hitems by done.
  exists w1. eexists. split; [exact Hrun |].
  unfold api.getMenuItems. run. rewrite Hitems, no_item_left. reflexivity.
Qed.

Lemma deleted_category_has_no_items_witness :
  ∃ w1 w2,
    api.deleteCategory "cat-1" world0 = (Ok tt, w1) ∧
    api.getMenuItems "tenant-123" "cat-1" w1 = (Ok [], w2).
Proof.
  apply deleted_category_has_no_items.
  - unfold wf. apply (bool_decide_unpack _). vm_compute. exact I.
  - vm_compute. reflexivity.
Defined.

(** ** The spreadsheet upload: what the validated items and the created
    categories look like *)

Lemma enumOr_in (values : list string) (fallback : string) (v : option cell) :
  fallback ∈ values → App.enumOr values fallback v ∈ values.
Proof.
  intros H. unfold App.enumOr. destruct v as [[s| |]|]; try done.
  by case_bool_decide.
Qed.

(** An accepted row gives an item that passed every test. *)
Lemma finishRow_accepts_validated (row : Row) (categoryId : string) (l : App.Loop)
    (item : MenuItem.data) :
  Js.nonEmpty categoryId = true →
  App.newItems (App.finishRow row categoryId l) = App.newItems l ++ [item] →
  validated item.
Proof.
  intros Hc. unfold App.finishRow.
  destruct (_ || _)%bool eqn:Hp.
  { simpl. intros H. apply (f_equal length) in H. rewrite length_app in H. simpl in H. lia. }
  destruct (negb _) eqn:Hn.
  { simpl. intros H. apply (f_equal length) in H. rewrite length_app in H. simpl in H. lia. }
  simpl. intros H. apply app_inv_head in H. injection H as <-.
  apply orb_false_iff in Hp as [Hnan Hle]. apply negb_false_iff in Hn.
  unfold validated. simpl. split_and!; try done.
  - apply enumOr_in. apply list_elem_of_here.
  - eexists. split; [done |]. apply enumOr_in. apply list_elem_of_here.
  - eexists. split; [done |]. apply enumOr_in. set_solver.
Qed.

(** The ids the map of the upload holds come from the entries it was built
    from or was given since. *)
Lemma in_set {V : Type} (m : JsMap.t V) (k k' : string) (v v' : V) :
  (k, v) ∈ JsMap.set k' v' m → (k, v) = (k', v') ∨ (k, v) ∈ m.
Proof.
  induction m as [|[k0 v0] m IH]; simpl.
  - intros H. apply list_elem_of_singleton in H. by left.
  - destruct (String.eqb k0 k').
    + rewrite elem_of_cons. intros [H | H]; [by left | right; by apply list_elem_of_further].
    + rewrite !elem_of_cons. intros [H | H]; [right; by left |].
      destruct (IH H) as [? | ?]; [by left | right; by right].
Qed.

Lemma in_ofEntries {V : Type} (l : list (string * V)) (k : string) (v : V) :
  JsMap.get k (JsMap.ofEntries l) = Some v → (k, v) ∈ l.
Proof.
  intros H. apply get_Some_in in H. revert H. unfold JsMap.ofEntries.
  assert (Hgen : ∀ m : JsMap.t V,
            (k, v) ∈ List.fold_left (fun m kv => JsMap.set (fst kv) (snd kv) m) l m →
            (k, v) ∈ l ∨ (k, v) ∈ m).
  { induction l as [|[k0 v0] l IH]; intros m H; simpl in *; [by right |].
    destruct (IH _ H) as [? | Hin]; [left; by apply list_elem_of_further |].
    apply in_set in Hin as [-> | ?]; [left; apply list_elem_of_here | by right]. }
  intros H. destruct (Hgen _ H) as [? | Hnil]; [done | by apply elem_of_nil in Hnil].
Qed.

(** X7.  Every item the row loop of the upload collects for the batch has a
    name, a price that is a number above zero, the tenant tenant-123, a
    currency, a special type and an image orientation out of their
    enumerations, no allergens, and a category id that is not empty and that
    is either the id of one of the categories the component has on screen
    when the upload starts (whether or not a store holds a category under
    that id) or the id under which a call of this run created a category,
    which the category store holds when the loop ends. *)
Theorem upload_items_validated (lower : string → string) (cats : list MenuCategory.t)
    (rows : list Row) (w : World) :
  ∃ l w',
    App.importRows lower cats rows w = (Ok l, w') ∧
    Forall (fun item => validated item ∧ resolved cats w w' (MenuItem.categoryId item))
           (App.newItems l).
Proof.
  set (good := fun (w1 : World) (cs : list ApiCall) (id : string) =>
         id ∈ List.map MenuCategory.id cats ∨
         ∃ t data, id = "cat-" +:+ pretty t ∧ t < now w1 ∧ AddCategory data ∈ cs ∧
                   JsMap.get id (categoryDB w1) = Some (MenuCategory.mk id data)).
  destruct (loop_invariant lower (length cats)
    (fun _ l w1 =>
       ∃ cs, calls w1 = calls w ++ cs ∧
         (∀ k id, JsMap.get k (App.categoryNameToIdMap l) = Some id → good w1 cs id) ∧
         Forall (fun item => validated item ∧ good w1 cs (MenuItem.categoryId item))
                (App.newItems l))
    rows (App.initialLoop lower cats) w) as (l & w' & Hrun & cs & Hcs & _ & Hitems).
  - exists []. rewrite app_nil_r. split; [done |]. split; [| constructor].
    intros k id Hget. left. simpl in Hget. apply in_ofEntries in Hget.
    apply list_elem_of_In, in_map_iff in Hget as (c & [= _ <-] & Hc).
    apply list_elem_of_In, in_map_iff. by exists c.
  - intros pre l w0 row l' w' (cs & Hcs & Hmap & Hitems) _.
    rewrite processRow_cases.
    destruct (negb _); [intros [= <- <-]; by exists cs |].
    destruct (App.usable _) as [cid|] eqn:Hu.
    + intros [= <- <-]. exists cs. rewrite finishRow_map. split_and!; try done.
      apply usable_Some in Hu as [Hget Hne].
      destruct (finishRow_cases row cid l) as [(m & Heq & _) | (it & Heq & Hc)].
      * by rewrite Heq.
      * pose proof (finishRow_accepts_validated row cid l it Hne) as Hv.
        rewrite Heq in *. simpl in *. apply Forall_app. split; [done |].
        apply Forall_singleton. split; [by apply Hv |]. rewrite Hc. by eapply Hmap.
    + simpl. intros [= <- <-].
      set (data := App.newCategoryData (App.categoryNameOf row) (length cats)
                                        (App.newCategoriesCreated l)).
      set (id := "cat-" +:+ pretty (now w0)).
      assert (Hnew : good (advance 500
                       (setCategoryDB (JsMap.set id (MenuCategory.mk id data))
                                      (addCall (AddCategory data) w0)))
                     (cs ++ [AddCategory data]) id).
      { right. exists (now w0), data. simpl. split_and!; [done | lia | | apply get_set_eq].
        apply elem_of_app. right. apply list_elem_of_here. }
      assert (Hold : ∀ v, good w0 cs v →
                good (advance 500
                        (setCategoryDB (JsMap.set id (MenuCategory.mk id data))
                                       (addCall (AddCategory data) w0)))
                     (cs ++ [AddCategory data]) v).
      { intros v [Hv | (t & d & -> & Ht & Hd & Hget)]; [by left | right].
        exists t, d. simpl. split_and!; [done | lia | apply elem_of_app; by left |].
        rewrite get_set_ne; [done |]. unfold id. intros [= H].
        apply pretty_Z_inj in H. lia. }
      exists (cs ++ [AddCategory data]). simpl. rewrite finishRow_map. simpl.
      split; [by rewrite Hcs, <- app_assoc |]. split.
      * intros k v Hget.
        destruct (decide (App.categoryKey lower row = k)) as [<- | Hne].
        -- rewrite get_set_eq in Hget. by injection Hget as <-.
        -- rewrite get_set_ne in Hget by done. apply Hold. by eapply Hmap.
      * assert (Hitems' : Forall (fun item => validated item ∧
                   good (advance 500
                           (setCategoryDB (JsMap.set id (MenuCategory.mk id data))
                                          (addCall (AddCategory data) w0)))
                        (cs ++ [AddCategory data]) (MenuItem.categoryId item))
                 (App.newItems l)).
        { eapply Forall_impl; [exact Hitems |]. intros it [Hv Hg]. split; [done | by apply Hold]. }
        match goal with |- context [App.finishRow row id ?l0] =>
          destruct (finishRow_cases row id l0) as [(m & Heq & _) | (it & Heq & Hc)];
          pose proof (fun it => finishRow_accepts_validated row id l0 it eq_refl) as Hv
        end.
        -- by rewrite Heq.
        -- specialize (Hv it). rewrite Heq in *. simpl in *. apply Forall_app. split; [done |].
           apply Forall_singleton. split; [by apply Hv |]. by rewrite Hc.
  - exists l, w'. split; [exact Hrun |].
    eapply Forall_impl; [exact Hitems |]. intros it [Hv Hg]. split; [done |].
    destruct Hg as [? | (t & d & _ & _ & Hd & Hget)]; [by left | right].
    exists d. split; [| done]. unfold since. by rewrite Hcs, drop_app_length.
Qed.

(** An item can carry an id no store holds: the component shows a category
    the store does not have, and a row names it. *)
Example upload_item_of_unknown_category :
  ∃ l w',
    App.importRows Js.toLowerCase [api.category "cat-9" "Drinks" "Cold and hot" 1] [rowCola]
                   emptyWorld = (Ok l, w') ∧
    List.map MenuItem.categoryId (App.newItems l) = ["cat-9"] ∧
    JsMap.get "cat-9" (categoryDB w') = None ∧
    calls w' = [].
Proof. eexists _, _. split; [vm_compute; reflexivity |]. by vm_compute. Qed.



Lemma created_app (cs ds : list ApiCall) : created (cs ++ ds) = created cs ++ created ds.
Proof. apply flat_map_app. Qed.

(** X9.  During the row loop the collaborator is only asked to create
    categories.  The categories are created active, for tenant-123, with the
    fixed description, and the one created as number [i] of the run gets the
    sort order: number of categories the component held, plus [i]. *)
Theorem created_categories_numbered (lower : string → string) (cats : list MenuCategory.t)
    (rows : list Row) (w : World) :
  ∃ l w',
    App.importRows lower cats rows w = (Ok l, w') ∧
    since w (calls w') = List.map AddCategory (created (since w (calls w'))) ∧
    length (created (since w (calls w'))) = App.newCategoriesCreated l ∧
    ∀ i data,
      created (since w (calls w')) !! i = Some data →
      MenuCategory.sortOrder data = Num.ofZ (Z.of_nat (length cats + i)) ∧
      MenuCategory.activeFlag data = true ∧
      MenuCategory.tenantId data = "tenant-123" ∧
      MenuCategory.description data = "Automatically created from Excel import".
Proof.
  destruct (loop_invariant lower (length cats)
    (fun _ l w' =>
       ∃ cs, calls w' = calls w ++ cs ∧
         cs = List.map AddCategory (created cs) ∧
         length (created cs) = App.newCategoriesCreated l ∧
         ∀ i data,
           created cs !! i = Some data →
           MenuCategory.sortOrder data = Num.ofZ (Z.of_nat (length cats + i)) ∧
           MenuCategory.activeFlag data = true ∧
           MenuCategory.tenantId data = "tenant-123" ∧
           MenuCategory.description data = "Automatically created from Excel import")
    rows (App.initialLoop lower cats) w) as (l & w' & Hrun & cs & Hcs & Hall & Hlen & Hdata).
  - exists []. rewrite app_nil_r. by split_and!.
  - intros pre l w0 row l' w' (cs & Hcs & Hall & Hlen & Hdata) _.
    rewrite processRow_cases.
    destruct (negb _); [intros [= <- <-]; by exists cs |].
    destruct (App.usable _) as [cid|].
    + intros [= <- <-]. exists cs. split_and!; try done.
      destruct (finishRow_cases row cid l) as [(m & -> & _) | (it & -> & _)]; done.
    + simpl. intros [= <- <-]. simpl. eexists (cs ++ [_]).
      split; [by rewrite Hcs, <- app_assoc |].
      rewrite created_app. simpl. split_and!.
      * rewrite map_app. simpl. by rewrite <- Hall.
      * rewrite length_app. simpl.
        match goal with |- context [App.finishRow row ?c ?l0] =>
          destruct (finishRow_cases row c l0) as [(m & -> & _) | (it & -> & _)] end;
          simpl; lia.
      * intros i data Hi.
        destruct (decide (i < length (created cs))%nat) as [Hlt | Hge].
        -- rewrite lookup_app_l in Hi by done. by apply Hdata.
        -- rewrite lookup_app_r in Hi by lia.
           destruct (i - length (created cs))%nat eqn:Hdiff; [| done].
           injection Hi as <-. simpl. split_and!; try done.
           do 2 f_equal. lia.
  - exists l, w'. split; [exact Hrun |]. unfold since.
    by rewrite Hcs, drop_app_length.
Qed.

(** Three rows on the initial data: the one new category is number 0 of the run. *)
Lemma created_categories_numbered_witness :
  ∃ l w' data,
    App.importRows Js.toLowerCase api.initialCategoriesData
        [rowCola; rowTea; rowCake] world0 = (Ok l, w') ∧
    created (since world0 (calls w')) !! 0%nat = Some data ∧
    MenuCategory.name data = "Drinks" ∧
    MenuCategory.sortOrder data = Num.ofZ 4 ∧
    MenuCategory.activeFlag data = true ∧
    MenuCategory.tenantId data = "tenant-123" ∧
    MenuCategory.description data = "Automatically created from Excel import".
Proof.
  destruct (created_categories_numbered Js.toLowerCase api.initialCategoriesData
      [rowCola; rowTea; rowCake] world0)
    as (l & w' & Hrun & _ & _ & Hall).
  pose proof Hrun as E. vm_compute in E. injection E as El Ew.
  assert (Hd : ∃ data, created (since world0 (calls w')) !! 0%nat = Some data ∧
                       MenuCategory.name data = "Drinks").
  { rewrite <- Ew. vm_compute. eexists. split; reflexivity. }
  destruct Hd as (data & Hd & Hname).
  exists l, w', data. split; [exact Hrun |]. split; [exact Hd |]. split; [exact Hname |].
  exact (Hall 0%nat data Hd).
Defined.

(** ** The spreadsheet upload: rows of a category that exists *)

Lemma producedAt_last (lower : string → string) (cats : list MenuCategory.t)
    (pre : list Row) (row : Row) (w : World)
    (l : App.Loop) (w1 : World) (l' : App.Loop) (w' : World) (i : nat) (r : Row)
    (item : MenuItem.data) :
  forEach (App.processRow lower (length cats)) pre (App.initialLoop lower cats) w = (Ok l, w1) →
  App.processRow lower (length cats) l row w1 = (Ok l', w') →
  (pre ++ [row]) !! i = Some r →
  producedAt lower cats (pre ++ [row]) w i item →
  (i < length pre)%nat ∨ (r = row ∧ App.newItems l' = App.newItems l ++ [item]).
Proof.
  intros Hpre Hrow Hr (r' & lp & wp & l2 & w2 & Hr' & Hrun & Hstep & Hitems).
  destruct (decide (i < length pre)%nat) as [|Hge]; [by left | right].
  assert (i = length pre) as ->.
  { apply lookup_lt_Some in Hr. rewrite length_app in Hr. simpl in Hr. lia. }
  rewrite list_lookup_middle in Hr, Hr' by done.
  injection Hr as <-. injection Hr' as <-.
  rewrite take_app_length in Hrun. rewrite Hpre in Hrun. injection Hrun as <- <-.
  rewrite Hrow in Hstep. by injection Hstep as <- <-.
Qed.

Lemma get_fold_set_notin {V : Type} (l : list (string * V)) (m : JsMap.t V) (k : string) :
  k ∉ List.map fst l →
  JsMap.get k (List.fold_left (fun m kv => JsMap.set (fst kv) (snd kv) m) l m) = JsMap.get k m.
Proof.
  revert m. induction l as [|[k0 v0] l IH]; intros m Hk; [done |].
  simpl in *. apply not_elem_of_cons in Hk as [Hne Hk].
  rewrite IH by done. by apply get_set_ne.
Qed.

Lemma get_ofEntries {V : Type} (l : list (string * V)) (k : string) (v : V) :
  NoDup (List.map fst l) → (k, v) ∈ l → JsMap.get k (JsMap.ofEntries l) = Some v.
Proof.
  unfold JsMap.ofEntries. generalize (@JsMap.empty V) as m.
  induction l as [|[k0 v0] l IH]; intros m Hnd Hin; [by apply elem_of_nil in Hin |].
  simpl in *. apply NoDup_cons in Hnd as [Hk0 Hnd].
  apply elem_of_cons in Hin as [[= -> ->] | Hin].
  - rewrite get_fold_set_notin by done. apply get_set_eq.
  - by apply IH.
Qed.

(** With no two categories of the same lowercased name, the map the upload
    starts with files every category under its lowercased name. *)
Lemma initial_map_lookup (lower : string → string) (cats : list MenuCategory.t)
    (c : MenuCategory.t) :
  NoDup (List.map (keyOf lower) cats) → c ∈ cats →
  JsMap.get (keyOf lower c) (App.categoryNameToIdMap (App.initialLoop lower cats)) =
      Some (MenuCategory.id c).
Proof.
  intros Hnd Hin. simpl. apply get_ofEntries.
  - by rewrite List.map_map.
  - apply list_elem_of_In, in_map_iff. exists c. split; [done | by apply list_elem_of_In].
Qed.

(** X10.  A category the component already holds is reused, for every case
    mapping [lower] in the place of [String.prototype.toLowerCase] (the
    mapping of the engine is one of them): when no two of its categories have
    the same lowercased name and [c] is one of them with an id that is not
    empty, the run creates no category under the name of [c], whatever the
    spelling in the rows (any name that [lower] sends where it sends the name
    of [c]), and every item of a row that names it carries the id of [c]. *)
Theorem existing_category_reused (lower : string → string) (cats : list MenuCategory.t)
    (rows : list Row) (w : World)
    (c : MenuCategory.t) :
  NoDup (List.map (keyOf lower) cats) → c ∈ cats → Js.nonEmpty (MenuCategory.id c) = true →
  ∃ l w',
    App.importRows lower cats rows w = (Ok l, w') ∧
    creations lower (keyOf lower c) (since w (calls w')) = [] ∧
    ∀ i row item,
      rows !! i = Some row → references lower (keyOf lower c) row →
      producedAt lower cats rows w i item → MenuItem.categoryId item = MenuCategory.id c.
Proof.
  intros Hnd Hin Hid. pose proof (initial_map_lookup lower cats c Hnd Hin) as Hinit.
  destruct (loop_invariant lower (length cats)
    (fun pre l w' =>
       ∃ cs, calls w' = calls w ++ cs ∧
         JsMap.get (keyOf lower c) (App.categoryNameToIdMap l) = Some (MenuCategory.id c) ∧
         creations lower (keyOf lower c) cs = [] ∧
         ∀ i row item,
           pre !! i = Some row → references lower (keyOf lower c) row →
           producedAt lower cats pre w i item → MenuItem.categoryId item = MenuCategory.id c)
    rows (App.initialLoop lower cats) w) as (l & w' & Hrun & cs & Hcs & _ & Hcr & Hitems).
  - exists []. rewrite app_nil_r. split_and!; try done.
  - intros pre l w0 row l' w' (cs & Hcs & Hget & Hcr & Hitems) Hpre Hrow.
    assert (Hstep :
               (App.newItems l' = App.newItems l ∨
                ∀ item, App.newItems l' = App.newItems l ++ [item] →
                        references lower (keyOf lower c) row →
                        MenuItem.categoryId item = MenuCategory.id c) →
               ∀ i r item, (pre ++ [row]) !! i = Some r → references lower (keyOf lower c) r →
                           producedAt lower cats (pre ++ [row]) w i item →
                           MenuItem.categoryId item = MenuCategory.id c).
    { intros Hnow i r item Hr Hrefs Hprod.
      destruct (producedAt_last lower cats pre row w l w0 l' w' i r item Hpre Hrow Hr Hprod)
        as [Hi | [-> Hit]].
      - rewrite lookup_app_l in Hr by done.
        eapply Hitems; [exact Hr | done | by eapply producedAt_prefix].
      - destruct Hnow as [Hsame | Hnow]; [| by apply Hnow].
        rewrite Hsame in Hit. apply (f_equal length) in Hit.
        rewrite length_app in Hit. simpl in Hit. lia. }
    rewrite processRow_cases in Hrow.
    destruct (negb (App.truthy (App.categoryNameOf row))) eqn:Htruthy.
    { injection Hrow as <- <-. exists cs. split_and!; try done.
      apply Hstep. by left. }
    destruct (App.usable (JsMap.get (App.categoryKey lower row) (App.categoryNameToIdMap l)))
      as [cid|] eqn:Hlookup.
    { injection Hrow as <- <-. exists cs. rewrite finishRow_map. split_and!; try done.
      apply Hstep. right. intros item Hitem [_ Hk].
      apply finishRow_item in Hitem as ->. rewrite Hk in Hlookup.
      apply usable_Some in Hlookup as [Hl _]. congruence. }
    simpl in Hrow. injection Hrow as <- <-. simpl.
    assert (Hne : App.categoryKey lower row ≠ keyOf lower c).
    { intros Heq. rewrite Heq, Hget in Hlookup. simpl in Hlookup. by rewrite Hid in Hlookup. }
    eexists (cs ++ [_]). split; [by rewrite Hcs, <- app_assoc |].
    rewrite finishRow_map. simpl. rewrite get_set_ne by done.
    rewrite creations_app, Hcr. simpl.
    change (lower (App.toStr (App.categoryNameOf row))) with (App.categoryKey lower row).
    apply String.eqb_neq in Hne as Hne'. rewrite Hne'.
    split_and!; try done.
    apply Hstep. right. intros item _ [_ Hk]. done.
  - exists l, w'. split; [exact Hrun |]. unfold since.
    by rewrite Hcs, drop_app_length.
Qed.

Lemma existing_category_reused_witness :
  ∃ l w',
    App.importRows Js.toLowerCase api.initialCategoriesData
        [rowCola; rowTea; rowCake] world0 = (Ok l, w') ∧
    creations Js.toLowerCase "desserts" (since world0 (calls w')) = [] ∧
    ∀ i row item,
      [rowCola; rowTea; rowCake] !! i = Some row → references Js.toLowerCase "desserts" row →
      producedAt Js.toLowerCase api.initialCategoriesData [rowCola; rowTea; rowCake] world0 i item →
      MenuItem.categoryId item = "cat-3".
Proof.
  apply (existing_category_reused Js.toLowerCase api.initialCategoriesData
      [rowCola; rowTea; rowCake] world0
           (api.category "cat-3" "Desserts" "Sweet endings to your meal" 3)).
  - apply (bool_decide_unpack _). vm_compute. exact I.
  - set_solver.
  - reflexivity.
Defined.

(** ** Export: one file or none *)

(** X11.  [exportData] either hands the browser exactly one file, named
    menu-export-<date>.<format> and written in the format asked for, and logs
    nothing, or throws, hands over no file and logs the error.  It throws in
    two cases only: a format other than csv, json and xlsx, and xlsx without
    the XLSX library. *)
Theorem exportData_one_file_or_none (menuItems : list MenuItem.t)
    (categories : list MenuCategory.t) (options : ExportOptions) (w : World) :
  ∃ r w',
    exportImportService.exportData menuItems categories options w = (r, w') ∧
    match r with
    | Ok _ =>
        (∃ c, downloads w' = downloads w ++ [mkDownload (exportName w (format options)) c] ∧
              kindOf c = format options) ∧
        console w' = console w
    | Throw e =>
        downloads w' = downloads w ∧
        console w' = console w ++ ["Export failed: " +:+ e] ∧
        ((format options ≠ "csv" ∧ format options ≠ "json" ∧ format options ≠ "xlsx" ∧
          e = ("Unsupported export format: " +:+ format options)) ∨
         (format options = "xlsx" ∧ xlsxAvailable w = false ∧
          e = "XLSX library not available. Please install xlsx package for Excel export."))
    end.
Proof.
  unfold exportImportService.exportData, tryCatch.
  unfold exportImportService.exportToCSV, exportImportService.exportToJSON,
    exportImportService.download.
  destruct (String.eqb (format options) "csv") eqn:Ecsv.
  { apply String.eqb_eq in Ecsv. eexists _, _. split; [reflexivity |].
    unfold exportName. rewrite Ecsv. simpl. split; [| done]. by eexists. }
  destruct (String.eqb (format options) "json") eqn:Ejson.
  { apply String.eqb_eq in Ejson. eexists _, _. split; [reflexivity |].
    unfold exportName. rewrite Ejson. simpl. split; [| done]. by eexists. }
  destruct (String.eqb (format options) "xlsx") eqn:Exlsx.
  { apply String.eqb_eq in Exlsx. unfold exportImportService.exportToXLSX. run.
    destruct (xlsxAvailable w) eqn:Ea; simpl.
    - eexists _, _. split; [reflexivity |].
      unfold exportName. rewrite Exlsx. simpl. split; [| done]. by eexists.
    - eexists _, _. split; [reflexivity |]. simpl. split_and!; try done. by right. }
  apply String.eqb_neq in Ecsv, Ejson, Exlsx.
  eexists _, _. split; [reflexivity |]. simpl. split_and!; try done. by left.
Qed.

(** X12.  [handleExport] always ends with the busy flag off, and it shows
    the success toast exactly when a file was handed to the browser; in every
    other case it shows the failure toast and no file was written. *)
Theorem handleExport_toast_matches (st : App.State) (w : World) :
  ∃ st' w',
    App.handleExport st w = (Ok st', w') ∧
    App.isExporting st' = false ∧
    ((App.toast st' = Some ("Export completed successfully!", App.success) ∧
      ∃ d, downloads w' = downloads w ++ [d]) ∨
     (App.toast st' = Some ("Export failed", App.error) ∧ downloads w' = downloads w)).
Proof.
  unfold App.handleExport.
  set (items := if Nat.ltb 0 (length (App.filteredMenuItems (App.setIsExporting true st)))
                then App.filteredMenuItems (App.setIsExporting true st)
                else App.menuItems (App.setIsExporting true st)).
  destruct (exportData_one_file_or_none items (App.categories (App.setIsExporting true st))
              (App.exportOptions (App.setIsExporting true st)) w)
    as (r & w' & Hrun & Hcase).
  unfold tryCatch, mbind, M_bind, mret, M_ret. rewrite Hrun.
  destruct r as [[]|e].
  - destruct Hcase as [(c & Hd & _) _]. eexists _, _. split; [reflexivity |].
    split; [reflexivity |]. left. split; [reflexivity | by eexists].
  - destruct Hcase as (Hd & _). eexists _, _. split; [reflexivity |].
    split; [reflexivity |]. right. by split.
Qed.










(** On the initial data no item is a BOGO offer: every cell of that column
    reads false, five characters, and the column is six wide, as its header
    of four characters needs. *)
Example bogo_column_width :
  ∃ st' w' rows widths,
    App.handleExcelExport state0 world0 = (Ok st', w') ∧
    downloads w' =
      [mkDownload "Smartler_F&B_Menu_Export.xlsx"
                  (Workbook [mkSheet "Menu Items" rows (Some widths)])] ∧
    Forall (fun row => App.field "BOGO" row = Some (CBool false) ∧
                       App.toStr (App.field "BOGO" row) = "false") rows ∧
    exportColumns !! 15%nat = Some "BOGO" ∧ widths !! 15%nat = Some 6.
Proof.
  eexists _, _, _, _. split; [vm_compute; reflexivity |]. split; [reflexivity |].
  split; [| by vm_compute]. repeat constructor.
Qed.

(** ** CSV text *)


Lemma hasChar_empty (c : ascii) : hasChar c EmptyString = false.
Proof. reflexivity. Qed.













(** ** The CSV import, line by line *)











(** A file with two good lines, two lines that are too short, a blank line
    and a line without description: the two items are those of lines 2 and
    6, and the two messages name lines 3 and 7. *)
Example importFromCSV_line_by_line :
  List.map (outcomeOf (headerOf csvMixed)) (dataLines csvMixed) =
    [Imported; Failed; Blank; Dropped; Imported; Failed] ∧
  ∃ r w',
    exportImportService.importFromCSV csvMixed emptyWorld = (Ok r, w') ∧
    List.map (fun i => MenuItem.name (MenuItem.fields i))
             (exportImportService.importedItems r) = ["Taco"; "Cake"] ∧
    exportImportService.errors r =
      Some ["Line 3: " +:+ shortLine; "Line 7: " +:+ shortLine].
Proof.
  split; [by vm_compute |].
  eexists _, _. split; [vm_compute; reflexivity |]. by vm_compute.
Qed.



(** ** The handlers of single items and categories *)

(** X17.  [handleToggleMenuItemAvailability] always ends.  When the store
    holds the id of the item, the store afterwards holds under that id the
    item as the caller passed it with the flag turned over and a new update
    stamp, every other entry and the order of the keys are as before, and
    the list on screen has the same item, with its old stamp, at every place
    of that id.  When the store does not hold the id, the store is left as it
    was, the list on screen is put back to what it was, the error is logged
    and the failure toast names the item. *)
Theorem toggle_stores_or_reverts (item : MenuItem.t) (st : App.State) (w : World) :
  ∃ st' w',
    App.handleToggleMenuItemAvailability item st w = (Ok st', w') ∧
    categoryDB w' = categoryDB w ∧
    calls w' = calls w ++ [UpdateMenuItem (flipped item)] ∧
    App.categories st' = App.categories st ∧
    App.selectedCategory st' = App.selectedCategory st ∧
    if JsMap.has (MenuItem.id item) (menuItemDB w) then
      JsMap.get (MenuItem.id item) (menuItemDB w') = Some (stamped (now w) (flipped item)) ∧
      JsMap.keys (menuItemDB w') = JsMap.keys (menuItemDB w) ∧
      (∀ id, id ≠ MenuItem.id item →
             JsMap.get id (menuItemDB w') = JsMap.get id (menuItemDB w)) ∧
      App.menuItems st' =
        List.map (fun i => if String.eqb (MenuItem.id i) (MenuItem.id item)
                           then flipped item else i)
                 (App.menuItems st) ∧
      App.toast st' =
        Some ("'" +:+ MenuItem.name (MenuItem.fields item) +:+ "' is now " +:+
              (if MenuItem.availabilityFlag (MenuItem.fields item)
               then "unavailable" else "available") +:+ ".", App.success) ∧
      console w' = console w
    else
      menuItemDB w' = menuItemDB w ∧
      App.menuItems st' = App.menuItems st ∧
      App.toast st' =
        Some ("Failed to update '" +:+ MenuItem.name (MenuItem.fields item) +:+
              "'. Reverting...", App.error) ∧
      console w' = console w ++ ["Menu item not found"].
Proof.
  unfold App.handleToggleMenuItemAvailability, api.updateMenuItem, tryCatch. run.
  fold (flipped item).
  destruct (JsMap.has (MenuItem.id item) (menuItemDB w)) eqn:Hhas; simpl.
  - eexists _, _. split; [reflexivity |]. simpl. split_and!; try done.
    + apply get_set_eq.
    + rewrite keys_set. by rewrite Hhas.
    + intros id Hne. by apply get_set_ne.
    + by destruct (MenuItem.availabilityFlag (MenuItem.fields item)).
  - eexists _, _. split; [reflexivity |]. simpl. by split_and!.
Qed.

Lemma deleteCategory_missing (categoryId : string) (w : World) :
  JsMap.has categoryId (categoryDB w) = false →
  api.deleteCategory categoryId w =
  (Throw "Category not found", addCall (DeleteCategory categoryId) w).
Proof. intros H. unfold api.deleteCategory. run. by rewrite H. Qed.

Lemma cascade_leaves_none (categoryId : string) (items : JsMap.t MenuItem.t) :
  Forall (fun item => MenuItem.categoryId (MenuItem.fields item) ≠ categoryId)
    (JsMap.values
       (List.fold_left (fun db id => JsMap.delete id db)
          (List.map fst
             (List.filter
                (fun e => String.eqb (MenuItem.categoryId (MenuItem.fields (snd e))) categoryId)
                items))
          items)).
Proof.
  rewrite fold_delete. apply Forall_forall. intros item Hin.
  apply list_elem_of_In, in_map_iff in Hin as ([k v] & <- & Hin). simpl.
  apply filter_In in Hin as [Hin Hkeep]. simpl in Hkeep.
  intros Hcat. apply negb_true_iff in Hkeep.
  assert (existsb (String.eqb k)
            (List.map fst
               (List.filter
                  (fun e => String.eqb (MenuItem.categoryId (MenuItem.fields (snd e))) categoryId)
                  items)) = true); [| congruence].
  apply existsb_exists. exists k. split; [| apply String.eqb_refl].
  apply in_map_iff. exists (k, v). split; [done |]. apply filter_In. split; [done |].
  simpl. by apply String.eqb_eq.
Qed.

(** X18.  [handleDeleteCategory] does nothing for an id that is not in the
    list on screen.  For one that is, it opens the confirmation dialog with a
    message that names the category and stores an action.  The action, run on
    whatever state the component has by then, asks the collaborator once to
    delete the category and ends.  If the store holds the category, the
    category and all items of it are gone from the store, the category is
    taken off the list on screen and the success toast is shown.  If not, the
    stores are as before, the error is logged, and the list on screen is put
    back: to the list of the moment the dialog was opened, not to the list the
    action found.  In both cases the open category is closed, and stays
    closed, when it was the deleted one at the moment the dialog was opened. *)
Theorem category_delete_confirmed (categoryId : string) (st later : App.State)
    (c : App.Confirm) (w : World) :
  match List.find (fun c => String.eqb (MenuCategory.id c) categoryId) (App.categories st) with
  | None => App.handleDeleteCategory categoryId st c = c
  | Some cat =>
      ∃ action,
        App.handleDeleteCategory categoryId st c =
          App.mkConfirm true (Some action)
            ("Are you sure you want to delete the category " +:+
             exportImportService.quoted (MenuCategory.name (MenuCategory.fields cat)) +:+
             "? All items within it will also be deleted.") ∧
        ∃ st' w',
          action later w = (Ok st', w') ∧
          calls w' = calls w ++ [DeleteCategory categoryId] ∧
          App.selectedCategory st' =
            (if selectedIs categoryId st then None else App.selectedCategory later) ∧
          App.menuItems st' = (if selectedIs categoryId st then [] else App.menuItems later) ∧
          if JsMap.has categoryId (categoryDB w) then
            JsMap.has categoryId (categoryDB w') = false ∧
            Forall (fun item => MenuItem.categoryId (MenuItem.fields item) ≠ categoryId)
                   (JsMap.values (menuItemDB w')) ∧
            App.categories st' = List.filter (otherCategory categoryId) (App.categories later) ∧
            App.toast st' = Some ("Category deleted successfully!", App.success) ∧
            console w' = console w
          else
            sameStores w w' ∧
            App.categories st' = App.categories st ∧
            App.toast st' = Some ("Failed to delete category. Restoring...", App.error) ∧
            console w' = console w ++ ["Category not found"]
  end.
Proof.
  unfold App.handleDeleteCategory.
  destruct (List.find _ (App.categories st)) as [cat|]; [| done].
  eexists. split; [reflexivity |].
  unfold App.deleteCategoryAction, selectedIs.
  destruct (JsMap.has categoryId (categoryDB w)) eqn:Hhas.
  - destruct (deleteCategory_found categoryId w Hhas) as (w1 & Hrun & Hcats & Hitems).
    assert (Hcalls : calls w1 = calls w ++ [DeleteCategory categoryId] ∧ console w1 = console w).
    { revert Hrun. unfold api.deleteCategory. run. rewrite Hhas. simpl. by intros [= <-]. }
    destruct Hcalls as [Hcalls Hconsole].
    unfold tryCatch. erewrite bind_ok by exact Hrun.
    eexists _, _. split; [reflexivity |]. split; [done |].
    split; [by destruct (App.selectedCategory st) as [sel|]; [destruct (String.eqb _ _) |] |].
    split; [by destruct (App.selectedCategory st) as [sel|]; [destruct (String.eqb _ _) |] |].
    split_and!.
    + rewrite Hcats. unfold JsMap.has. by rewrite get_delete_eq.
    + rewrite Hitems. apply cascade_leaves_none.
    + by destruct (App.selectedCategory st) as [sel|]; [destruct (String.eqb _ _) |].
    + done.
    + done.
  - unfold tryCatch, mbind at 1, M_bind at 1. rewrite (deleteCategory_missing _ _ Hhas). run.
    eexists _, _. split; [reflexivity |]. simpl. unfold sameStores. simpl.
    split; [done |].
    split; [by destruct (App.selectedCategory st) as [sel|]; [destruct (String.eqb _ _) |] |].
    split; [by destruct (App.selectedCategory st) as [sel|]; [destruct (String.eqb _ _) |] |].
    by split_and!.
Qed.

Lemma deleteMenuItem_run (itemId : string) (w : World) :
  api.deleteMenuItem itemId w =
  if JsMap.has itemId (menuItemDB w)
  then (Ok tt, advance 500 (setMenuItemDB (JsMap.delete itemId)
                              (addCall (DeleteMenuItem itemId) w)))
  else (Throw "Menu item not found", addCall (DeleteMenuItem itemId) w).
Proof.
  unfold api.deleteMenuItem. run.
  destruct (JsMap.has itemId (menuItemDB w)) eqn:Hhas; simpl; [done |].
  unfold setMenuItemDB, addCall. simpl. by rewrite has_false_delete.
Qed.

(** X19.  [handleDeleteMenuItem] does nothing when no category is open or
    the id is not in the list on screen.  Else it opens the confirmation
    dialog, naming the item.  The stored action asks the collaborator once to
    delete the item and ends: if the store holds the id, that entry alone is
    removed and the item is taken off the list on screen; if not, the store is
    as before, the error is logged and the list on screen is put back to the
    list of the moment the dialog was opened. *)
Theorem item_delete_confirmed (itemId : string) (st later : App.State)
    (c : App.Confirm) (w : World) :
  match App.selectedCategory st,
        List.find (fun item => String.eqb (MenuItem.id item) itemId) (App.menuItems st) with
  | Some _, Some item =>
      ∃ action,
        App.handleDeleteMenuItem itemId st c =
          App.mkConfirm true (Some action)
            ("Are you sure you want to delete the menu item " +:+
             exportImportService.quoted (MenuItem.name (MenuItem.fields item)) +:+ "?") ∧
        ∃ st' w',
          action later w = (Ok st', w') ∧
          calls w' = calls w ++ [DeleteMenuItem itemId] ∧
          categoryDB w' = categoryDB w ∧
          App.categories st' = App.categories later ∧
          App.selectedCategory st' = App.selectedCategory later ∧
          if JsMap.has itemId (menuItemDB w) then
            menuItemDB w' = JsMap.delete itemId (menuItemDB w) ∧
            JsMap.has itemId (menuItemDB w') = false ∧
            (∀ id, id ≠ itemId → JsMap.get id (menuItemDB w') = JsMap.get id (menuItemDB w)) ∧
            App.menuItems st' = List.filter (otherItem itemId) (App.menuItems later) ∧
            App.toast st' = Some ("Menu item deleted successfully!", App.success) ∧
            console w' = console w
          else
            menuItemDB w' = menuItemDB w ∧
            App.menuItems st' = App.menuItems st ∧
            App.toast st' = Some ("Failed to delete menu item. Restoring...", App.error) ∧
            console w' = console w ++ ["Menu item not found"]
  | _, _ => App.handleDeleteMenuItem itemId st c = c
  end.
Proof.
  unfold App.handleDeleteMenuItem.
  destruct (App.selectedCategory st) as [sel|]; [| done].
  destruct (List.find _ (App.menuItems st)) as [item|]; [| done].
  eexists. split; [reflexivity |].
  unfold App.deleteMenuItemAction, tryCatch, mbind at 1, M_bind at 1.
  rewrite deleteMenuItem_run.
  destruct (JsMap.has itemId (menuItemDB w)) eqn:Hhas; run.
  - eexists _, _. split; [reflexivity |]. simpl. split_and!; try done.
    + unfold JsMap.has. by rewrite get_delete_eq.
    + intros id Hne. apply get_delete_ne. congruence.
  - eexists _, _. split; [reflexivity |]. simpl. by split_and!.
Qed.

(** ** The handlers of many items *)

Lemma get_fold_delete {V : Type} (ids : list string) (m : JsMap.t V) (k : string) :
  JsMap.get k (List.fold_left (fun db id => JsMap.delete id db) ids m) =
  if bool_decide (k ∈ ids) then None else JsMap.get k m.
Proof.
  revert m. induction ids as [|id ids IH]; intros m; simpl; [done |].
  rewrite IH. destruct (decide (k = id)) as [-> | Hne].
  - rewrite get_delete_eq. rewrite (bool_decide_eq_true_2 (id ∈ id :: ids)) by apply list_elem_of_here.
    by destruct (bool_decide _).
  - rewrite get_delete_ne by congruence.
    destruct (decide (k ∈ ids)) as [Hin | Hnin].
    + rewrite !bool_decide_eq_true_2; [done | by apply list_elem_of_further | done].
    + rewrite !bool_decide_eq_false_2; [done | | done].
      rewrite elem_of_cons. tauto.
Qed.

Lemma fetchMenuItems_run (st : App.State) (w : World) :
  ∃ st' w',
    App.fetchMenuItems st w = (Ok st', w') ∧
    sameStores w w' ∧
    calls w' = calls w ++ refreshOf st ∧
    console w' = console w ∧
    App.toast st' = App.toast st ∧
    App.categories st' = App.categories st ∧
    App.selectedCategory st' = App.selectedCategory st ∧
    App.menuItems st' =
      match App.selectedCategory st with
      | Some sel => itemsOf (MenuCategory.id sel) w
      | None => App.menuItems st
      end.
Proof.
  unfold App.fetchMenuItems, refreshOf, sameStores.
  destruct (App.selectedCategory st) as [sel|] eqn:Hsel.
  - unfold tryCatch, api.getMenuItems. run. eexists _, _. split; [reflexivity |]. simpl.
    by split_and!.
  - eexists _, _. split; [reflexivity |]. rewrite app_nil_r. by split_and!.
Qed.

Lemma delete_loop_ok (ids : list string) (w : World) :
  NoDup ids → Forall (stored w) ids →
  ∃ w',
    forEach (fun _ id => api.deleteMenuItem id) ids tt w = (Ok tt, w') ∧
    menuItemDB w' = List.fold_left (fun db id => JsMap.delete id db) ids (menuItemDB w) ∧
    categoryDB w' = categoryDB w ∧
    calls w' = calls w ++ List.map DeleteMenuItem ids ∧
    console w' = console w.
Proof.
  revert w. induction ids as [|id ids IH]; intros w Hnd Hall.
  - exists w. simpl. rewrite app_nil_r. by split_and!.
  - apply NoDup_cons in Hnd as [Hnin Hnd]. apply Forall_cons in Hall as [Hid Hall].
    cbn [forEach]. unfold mbind at 1, M_bind at 1. rewrite deleteMenuItem_run.
    unfold stored in Hid. rewrite Hid.
    destruct (IH (advance 500 (setMenuItemDB (JsMap.delete id) (addCall (DeleteMenuItem id) w))))
      as (w' & Hrun & Hdb & Hcat & Hcalls & Hcons); [done | |].
    { apply Forall_forall. intros id' Hin.
      pose proof (proj1 (Forall_forall _ _) Hall id' Hin) as Hst.
      unfold stored, JsMap.has in *. simpl.
      rewrite get_delete_ne; [done |]. intros ->. by apply Hnin. }
    exists w'. split; [exact Hrun |]. simpl in *. rewrite Hcalls, <- app_assoc.
    by split_and!.
Qed.

(** X20.  [handleBulkDelete] with ids that are pairwise different and all in
    the store removes exactly these entries, one call each and in the order
    given, shows the success toast with their number, and reads the open
    category again, so that the list on screen is the list of the store. *)
Theorem bulk_delete_all (itemIds : list string) (st : App.State) (w : World) :
  NoDup itemIds → Forall (stored w) itemIds →
  ∃ st' w',
    App.handleBulkDelete itemIds st w = (Ok st', w') ∧
    categoryDB w' = categoryDB w ∧
    (∀ id, JsMap.get id (menuItemDB w') =
           if bool_decide (id ∈ itemIds) then None else JsMap.get id (menuItemDB w)) ∧
    calls w' = calls w ++ List.map DeleteMenuItem itemIds ++ refreshOf st ∧
    App.toast st' =
      Some ("Successfully deleted " +:+ Js.intToString (Z.of_nat (length itemIds)) +:+
            " item(s)", App.success) ∧
    App.menuItems st' =
      match App.selectedCategory st with
      | Some sel => itemsOf (MenuCategory.id sel) w'
      | None => App.menuItems st
      end.
Proof.
  intros Hnd Hall.
  destruct (delete_loop_ok itemIds w Hnd Hall) as (w1 & Hrun & Hdb & Hcat & Hcalls & Hcons).
  unfold App.handleBulkDelete.
  set (st1 := App.showToast _ App.success st).
  destruct (fetchMenuItems_run st1 w1)
    as (st' & w' & Hrun' & [Hs1 Hs2] & Hcalls' & _ & Htoast & _ & _ & Hitems).
  exists st', w'. split.
  { unfold tryCatch. erewrite bind_ok by exact Hrun. by rewrite Hrun'. }
  split; [congruence |]. split.
  { intros id. rewrite Hs2, Hdb. apply get_fold_delete. }
  split; [by rewrite Hcalls', Hcalls, <- app_assoc |].
  split; [by rewrite Htoast |].
  rewrite Hitems. simpl. unfold itemsOf. by rewrite Hs2.
Qed.

Lemma bulk_delete_all_witness :
  ∃ st' w',
    App.handleBulkDelete ["item-1"; "item-3"]
      (App.setSelectedCategory (Some (api.category "cat-1" "Appetizers"
         "Start your meal with our delicious appetizers" 1)) state0) world0 = (Ok st', w') ∧
    JsMap.keys (menuItemDB w') = ["item-2"; "item-4"; "item-5"] ∧
    App.menuItems st' = [] ∧
    App.toast st' = Some ("Successfully deleted 2 item(s)", App.success).
Proof.
  destruct (bulk_delete_all ["item-1"; "item-3"]
              (App.setSelectedCategory (Some (api.category "cat-1" "Appetizers"
                 "Start your meal with our delicious appetizers" 1)) state0) world0)
    as (st' & w' & Hrun & _ & _ & _ & Htoast & _).
  - apply (bool_decide_unpack _). vm_compute. exact I.
  - repeat constructor.
  - exists st', w'. pose proof Hrun as E. vm_compute in E. injection E as <- <-.
    split; [exact Hrun |]. split; [vm_compute; reflexivity |].
    split; [vm_compute; reflexivity |]. vm_compute. reflexivity.
Defined.

(** X21.  [handleBulkDelete] stops at the first id that the store does not
    hold, or holds no more because the same id came earlier in the list.  The
    items before it stay deleted, the ids after it are not asked for, the
    failure toast is shown, and the list on screen is not read again: it is
    the list from before, deleted items included. *)
Theorem bulk_delete_stops (done : list string) (bad : string) (rest : list string)
    (st : App.State) (w : World) :
  NoDup done → Forall (stored w) done → bad ∈ done ∨ ¬ stored w bad →
  ∃ st' w',
    App.handleBulkDelete (done ++ bad :: rest) st w = (Ok st', w') ∧
    categoryDB w' = categoryDB w ∧
    (∀ id, JsMap.get id (menuItemDB w') =
           if bool_decide (id ∈ done) then None else JsMap.get id (menuItemDB w)) ∧
    calls w' = calls w ++ List.map DeleteMenuItem (done ++ [bad]) ∧
    App.toast st' = Some ("Failed to delete some items", App.error) ∧
    App.menuItems st' = App.menuItems st.
Proof.
  intros Hnd Hall Hbad.
  destruct (delete_loop_ok done w Hnd Hall) as (w1 & Hrun & Hdb & Hcat & Hcalls & Hcons).
  assert (Hgone : JsMap.has bad (menuItemDB w1) = false).
  { unfold JsMap.has. rewrite Hdb, get_fold_delete.
    destruct (decide (bad ∈ done)) as [Hin | Hnin].
    - by rewrite bool_decide_eq_true_2.
    - rewrite bool_decide_eq_false_2 by done.
      destruct Hbad as [? | Hns]; [done |]. unfold stored, JsMap.has in Hns.
      by destruct (JsMap.get bad (menuItemDB w)). }
  unfold App.handleBulkDelete, tryCatch, mbind at 1, M_bind at 1.
  rewrite forEach_app, Hrun. cbn [forEach]. unfold mbind at 1, M_bind at 1.
  rewrite deleteMenuItem_run, Hgone.
  eexists _, _. split; [reflexivity |]. simpl. split; [done |]. split.
  { intros id. rewrite Hdb. apply get_fold_delete. }
  split; [| done]. by rewrite Hcalls, map_app, <- app_assoc.
Qed.

Lemma bulk_delete_stops_witness :
  ∃ st' w',
    App.handleBulkDelete (["item-1"] ++ "item-9" :: ["item-2"]) state0 world0 = (Ok st', w') ∧
    categoryDB w' = categoryDB world0 ∧
    (∀ id, JsMap.get id (menuItemDB w') =
           if bool_decide (id ∈ ["item-1"]) then None else JsMap.get id (menuItemDB world0)) ∧
    calls w' = calls world0 ++ List.map DeleteMenuItem (["item-1"] ++ ["item-9"]) ∧
    App.toast st' = Some ("Failed to delete some items", App.error) ∧
    App.menuItems st' = App.menuItems state0.
Proof.
  apply (bulk_delete_stops ["item-1"] "item-9" ["item-2"] state0 world0).
  - apply (bool_decide_unpack _). vm_compute. exact I.
  - repeat constructor.
  - right. unfold stored. vm_compute. discriminate.
Defined.

Lemma updateMenuItem_run (item : MenuItem.t) (w : World) :
  api.updateMenuItem item w =
  if JsMap.has (MenuItem.id item) (menuItemDB w)
  then (Ok (stamped (now w) item),
        advance 500 (setMenuItemDB (JsMap.set (MenuItem.id item) (stamped (now w) item))
                       (addCall (UpdateMenuItem item) w)))
  else (Throw "Menu item not found", addCall (UpdateMenuItem item) w).
Proof.
  unfold api.updateMenuItem. run. by destruct (JsMap.has (MenuItem.id item) (menuItemDB w)).
Qed.

Lemma has_set {V : Type} (m : JsMap.t V) (k k' : string) (v : V) :
  JsMap.has k' m = true → JsMap.has k' (JsMap.set k v m) = true.
Proof.
  unfold JsMap.has. destruct (decide (k = k')) as [-> | Hne].
  - by rewrite get_set_eq.
  - by rewrite get_set_ne.
Qed.

Lemma update_loop_ok (items : list MenuItem.t) (w : World) :
  NoDup (List.map MenuItem.id items) →
  Forall (fun item => stored w (MenuItem.id item)) items →
  ∃ w',
    forEach (fun _ item => api.updateMenuItem item;; mret tt) items tt w = (Ok tt, w') ∧
    categoryDB w' = categoryDB w ∧
    JsMap.keys (menuItemDB w') = JsMap.keys (menuItemDB w) ∧
    calls w' = calls w ++ List.map UpdateMenuItem items ∧
    console w' = console w ∧
    (∀ id, id ∉ List.map MenuItem.id items →
           JsMap.get id (menuItemDB w') = JsMap.get id (menuItemDB w)) ∧
    (∀ i item, items !! i = Some item →
               JsMap.get (MenuItem.id item) (menuItemDB w') =
               Some (stamped (now w + 500 * Z.of_nat i) item)).
Proof.
  revert w. induction items as [|item items IH]; intros w Hnd Hall.
  - exists w. simpl. rewrite app_nil_r. by split_and!.
  - simpl in Hnd. apply NoDup_cons in Hnd as [Hnin Hnd].
    apply Forall_cons in Hall as [Hid Hall].
    cbn [forEach]. unfold mbind at 1, M_bind at 1, mbind at 1, M_bind at 1.
    rewrite updateMenuItem_run. unfold stored in Hid. rewrite Hid.
    set (w1 := advance 500 _).
    destruct (IH w1) as (w' & Hrun & Hcat & Hkeys & Hcalls & Hcons & Hother & Hmine); [done | |].
    { apply Forall_forall. intros item' Hin.
      pose proof (proj1 (Forall_forall _ _) Hall item' Hin) as Hst.
      unfold stored. simpl. by apply has_set. }
    exists w'. split; [exact Hrun |]. subst w1. simpl in *.
    split; [done |]. split; [by rewrite Hkeys, keys_set, Hid |].
    split; [by rewrite Hcalls, <- app_assoc |]. split; [done |]. split.
    + intros id Hid'. apply not_elem_of_cons in Hid' as [Hne Hid'].
      rewrite Hother by done. by apply get_set_ne.
    + intros [|i] item' Hi; simpl in Hi.
      * injection Hi as <-. rewrite Hother by done. rewrite get_set_eq.
        do 2 f_equal. lia.
      * rewrite (Hmine i item' Hi). do 2 f_equal. lia.
Qed.

(** X22.  [handleBulkSave] asks for the items to be stored one after the
    other and stops at the first whose id the store does not hold.  The items
    before it, whose ids are pairwise different, are then stored as they were
    passed, each with the update stamp of its own call, half a second apart;
    no other entry changes and no key moves.  If the list is passed through
    to its end, the success toast shows the number of items, the open category
    is read again, the dialog is closed and its selection emptied.  If the
    loop stops, the failure toast is shown, the dialog stays as it was, the
    list on screen is not read again, and the items already stored stay
    stored. *)
Theorem bulk_save_stops_at_missing (done rest : list MenuItem.t) (st : App.State)
    (d : App.Dialogs) (w : World) :
  NoDup (List.map MenuItem.id done) →
  Forall (fun item => stored w (MenuItem.id item)) done →
  match rest with bad :: _ => ¬ stored w (MenuItem.id bad) | [] => True end →
  ∃ st' d' w',
    App.handleBulkSave (done ++ rest) st d w = (Ok (st', d'), w') ∧
    categoryDB w' = categoryDB w ∧
    JsMap.keys (menuItemDB w') = JsMap.keys (menuItemDB w) ∧
    (∀ id, id ∉ List.map MenuItem.id done →
           JsMap.get id (menuItemDB w') = JsMap.get id (menuItemDB w)) ∧
    (∀ i item, done !! i = Some item →
               JsMap.get (MenuItem.id item) (menuItemDB w') =
               Some (stamped (now w + 500 * Z.of_nat i) item)) ∧
    match rest with
    | [] =>
        calls w' = calls w ++ List.map UpdateMenuItem done ++ refreshOf st ∧
        App.toast st' =
          Some ("Successfully updated " +:+ Js.intToString (Z.of_nat (length done)) +:+
                " item(s)", App.success) ∧
        App.menuItems st' =
          match App.selectedCategory st with
          | Some sel => itemsOf (MenuCategory.id sel) w'
          | None => App.menuItems st
          end ∧
        App.isBulkModalOpen d' = false ∧
        App.selectedItemsForBulk d' = []
    | bad :: _ =>
        calls w' = calls w ++ List.map UpdateMenuItem (done ++ [bad]) ∧
        App.toast st' = Some ("Failed to update some items", App.error) ∧
        App.menuItems st' = App.menuItems st ∧
        d' = d
    end.
Proof.
  intros Hnd Hall Hbad.
  destruct (update_loop_ok done w Hnd Hall)
    as (w1 & Hrun & Hcat & Hkeys & Hcalls & Hcons & Hother & Hmine).
  unfold App.handleBulkSave.
  destruct rest as [|bad rest].
  - rewrite app_nil_r.
    set (st1 := App.showToast _ App.success st).
    destruct (fetchMenuItems_run st1 w1)
      as (st' & w' & Hrun' & [Hs1 Hs2] & Hcalls' & _ & Htoast & _ & _ & Hitems).
    exists st', (App.setSelectedItemsForBulk [] (App.setBulkModalOpen false d)), w'. split.
    { unfold tryCatch. erewrite bind_ok by exact Hrun. erewrite bind_ok by exact Hrun'. done. }
    rewrite Hs1, Hs2. do 4 (split; [done |]).
    split; [by rewrite Hcalls', Hcalls, <- app_assoc |].
    split; [by rewrite Htoast |].
    split; [| done]. rewrite Hitems. simpl. unfold itemsOf. by rewrite Hs2.
  - assert (Hgone : JsMap.has (MenuItem.id bad) (menuItemDB w1) = false).
    { unfold stored in Hbad. apply not_true_is_false in Hbad.
      unfold JsMap.has in *.
      destruct (decide (MenuItem.id bad ∈ List.map MenuItem.id done)) as [Hin | Hnin].
      - exfalso. apply list_elem_of_In, in_map_iff in Hin as (item & Heq & Hin).
        apply list_elem_of_In in Hin.
        pose proof (proj1 (Forall_forall _ _) Hall item Hin) as Hst.
        unfold stored, JsMap.has in Hst. rewrite Heq in Hst. congruence.
      - by rewrite Hother. }
    unfold tryCatch, mbind at 1, M_bind at 1.
    rewrite forEach_app, Hrun. cbn [forEach].
    unfold mbind at 1, M_bind at 1, mbind at 1, M_bind at 1.
    rewrite updateMenuItem_run, Hgone.
    eexists _, _, _. split; [reflexivity |]. simpl. split_and!; try done.
    by rewrite Hcalls, map_app, <- app_assoc.
Qed.

Lemma bulk_save_stops_at_missing_witness :
  ∃ st' d' w',
    App.handleBulkSave
      ([flipped (api.item "2023" "item-5" "Iced Latte" "Cold" "4.99" "u" [] "cat-4" "None" 80 5)] ++
       [flipped (api.item "2023" "item-7" "Mocha" "Hot" "5.49" "u" [] "cat-4" "None" 90 5);
        flipped (api.item "2023" "item-1" "Bruschetta" "Toast" "8.99" "u" [] "cat-1" "None" 120 10)])
      state0 (App.mkDialogs false None false None true []) world0 = (Ok (st', d'), w') ∧
    JsMap.get "item-5" (menuItemDB w') =
      Some (stamped 1700000000000
              (flipped (api.item "2023" "item-5" "Iced Latte" "Cold" "4.99" "u" [] "cat-4" "None" 80 5))) ∧
    JsMap.get "item-1" (menuItemDB w') = JsMap.get "item-1" (menuItemDB world0) ∧
    App.toast st' = Some ("Failed to update some items", App.error) ∧
    App.isBulkModalOpen d' = true.
Proof.
  destruct (bulk_save_stops_at_missing
              [flipped (api.item "2023" "item-5" "Iced Latte" "Cold" "4.99" "u" [] "cat-4" "None" 80 5)]
              [flipped (api.item "2023" "item-7" "Mocha" "Hot" "5.49" "u" [] "cat-4" "None" 90 5);
               flipped (api.item "2023" "item-1" "Bruschetta" "Toast" "8.99" "u" [] "cat-1" "None" 120 10)]
              state0 (App.mkDialogs false None false None true []) world0)
    as (st' & d' & w' & Hrun & _ & _ & Hother & Hmine & _ & Htoast & _ & Hd).
  - apply (bool_decide_unpack _). vm_compute. exact I.
  - repeat constructor.
  - unfold stored. vm_compute. discriminate.
  - exists st', d', w'. split; [exact Hrun |]. split.
    { exact (Hmine 0%nat _ eq_refl). }
    split; [apply Hother; simpl; intros H; apply list_elem_of_singleton in H; discriminate H |].
    split; [exact Htoast |]. by rewrite Hd.
Defined.

(** ** Saving a new order of the categories *)

Lemma updateCategory_run (cat : MenuCategory.t) (w : World) :
  api.updateCategory cat w =
  if JsMap.has (MenuCategory.id cat) (categoryDB w)
  then (Ok cat, advance 500 (setCategoryDB (JsMap.set (MenuCategory.id cat) cat)
                               (addCall (UpdateCategory cat) w)))
  else (Throw "Category not found", addCall (UpdateCategory cat) w).
Proof.
  unfold api.updateCategory. run. by destruct (JsMap.has (MenuCategory.id cat) (categoryDB w)).
Qed.

Lemma firstRejection_cons_throw {A : Type} (e : string) (t : Z) (rs : list (result A * Z)) :
  ∃ e' t', firstRejection ((Throw e, t) :: rs) = Some (e', t').
Proof.
  simpl. destruct (firstRejection rs) as [[e' t']|]; [| by eexists _, _].
  destruct (Z.ltb t' t); by eexists _, _.
Qed.

(** All the calls of [Promise.all] over [updateCategory] are made, whatever
    becomes of the others. *)
Lemma startAll_update (t : Z) (cats : list MenuCategory.t) (w : World) :
  NoDup (List.map MenuCategory.id cats) →
  ∃ rs w',
    startAll api.updateCategory t cats w = (rs, w') ∧
    menuItemDB w' = menuItemDB w ∧
    JsMap.keys (categoryDB w') = JsMap.keys (categoryDB w) ∧
    calls w' = calls w ++ List.map UpdateCategory cats ∧
    console w' = console w ∧
    (∀ cat, cat ∈ cats → known w cat = true →
            JsMap.get (MenuCategory.id cat) (categoryDB w') = Some cat) ∧
    (∀ id, id ∉ List.map MenuCategory.id cats →
           JsMap.get id (categoryDB w') = JsMap.get id (categoryDB w)) ∧
    if forallb (known w) cats then firstRejection rs = None
    else ∃ e t', firstRejection rs = Some (e, t').
Proof.
  revert w. induction cats as [|cat cats IH]; intros w Hnd.
  - exists [], w. simpl. rewrite app_nil_r. split_and!; try done.
    intros cat Hin. by apply elem_of_nil in Hin.
  - simpl in Hnd. apply NoDup_cons in Hnd as [Hnin Hnd].
    cbn [startAll]. rewrite updateCategory_run.
    change (categoryDB (setNow t w)) with (categoryDB w).
    assert (Hlater : ∀ w1, (∀ id, id ≠ MenuCategory.id cat →
                                  JsMap.get id (categoryDB w1) = JsMap.get id (categoryDB w)) →
                           forallb (known w1) cats = forallb (known w) cats).
    { intros w1 Hsame. clear IH Hnd. induction cats as [|c cats IHc]; simpl; [done |].
      apply not_elem_of_cons in Hnin as [Hne Hnin]. rewrite IHc by done. f_equal.
      unfold known, JsMap.has. rewrite Hsame; [done | congruence]. }
    destruct (JsMap.has (MenuCategory.id cat) (categoryDB w)) eqn:Hhas.
    + set (w1 := advance 500 _).
      destruct (IH w1 Hnd) as (rs & w' & Hrun & Hitems & Hkeys & Hcalls & Hcons & Hset & Hother & Hrej).
      rewrite Hrun. eexists _, w'. split; [reflexivity |]. subst w1. simpl in *.
      split; [done |]. split; [by rewrite Hkeys, keys_set, Hhas |].
      split; [by rewrite Hcalls, <- app_assoc |]. split; [done |]. split_and!.
      * intros c Hin Hknown. apply elem_of_cons in Hin as [-> | Hin].
        -- rewrite Hother by done. apply get_set_eq.
        -- apply Hset; [done |]. unfold known in *. simpl. by apply has_set.
      * intros id Hid. apply not_elem_of_cons in Hid as [Hne Hid].
        rewrite Hother by done. by apply get_set_ne.
      * unfold known at 1. rewrite Hhas. simpl.
        rewrite <- (Hlater (advance 500 (setCategoryDB (JsMap.set (MenuCategory.id cat) cat)
                                           (addCall (UpdateCategory cat) (setNow t w))))).
        -- exact Hrej.
        -- intros id Hne. simpl. by apply get_set_ne.
    + set (w1 := addCall _ _).
      destruct (IH w1 Hnd) as (rs & w' & Hrun & Hitems & Hkeys & Hcalls & Hcons & Hset & Hother & Hrej).
      rewrite Hrun. eexists _, w'. split; [reflexivity |]. subst w1. simpl in *.
      split; [done |]. split; [done |].
      split; [by rewrite Hcalls, <- app_assoc |]. split; [done |]. split_and!.
      * intros c Hin Hknown. apply elem_of_cons in Hin as [-> | Hin].
        -- unfold known in Hknown. congruence.
        -- by apply Hset.
      * intros id Hid. apply not_elem_of_cons in Hid as [Hne Hid]. by apply Hother.
      * unfold known at 1. rewrite Hhas. simpl. apply firstRejection_cons_throw.
Qed.

Lemma NoDup_map_filter {A B : Type} (f : A → B) (p : A → bool) (l : list A) :
  NoDup (List.map f l) → NoDup (List.map f (List.filter p l)).
Proof.
  induction l as [|x l IH]; simpl; [done |].
  rewrite NoDup_cons. intros [Hnin Hnd]. destruct (p x); simpl; [| by apply IH].
  apply NoDup_cons. split; [| by apply IH].
  intros Hin. apply Hnin. apply list_elem_of_In, in_map_iff in Hin as (y & Hy & Hin).
  apply list_elem_of_In, in_map_iff. exists y. split; [done |].
  by apply filter_In in Hin as [Hin _].
Qed.

(** The run of [handleReorderCategories], for use in the composition with
    [handleDrop] and [getCategories] below. *)
Lemma handleReorderCategories_run (reordered : list MenuCategory.t) (st : App.State) (w : World) :
  NoDup (List.map MenuCategory.id reordered) →
  ∃ st' w',
    App.handleReorderCategories reordered st w = (Ok st', w') ∧
    menuItemDB w' = menuItemDB w ∧
    JsMap.keys (categoryDB w') = JsMap.keys (categoryDB w) ∧
    calls w' = calls w ++ List.map UpdateCategory (List.filter (moved (App.categories st)) reordered) ∧
    (∀ cat, cat ∈ List.filter (moved (App.categories st)) reordered → known w cat = true →
            JsMap.get (MenuCategory.id cat) (categoryDB w') = Some cat) ∧
    (∀ id, id ∉ List.map MenuCategory.id (List.filter (moved (App.categories st)) reordered) →
           JsMap.get id (categoryDB w') = JsMap.get id (categoryDB w)) ∧
    if forallb (known w) (List.filter (moved (App.categories st)) reordered) then
      App.categories st' = reordered ∧
      App.toast st' =
        match List.filter (moved (App.categories st)) reordered with
        | [] => App.toast st
        | _ => Some ("Category order saved!", App.success)
        end
    else
      App.categories st' = App.categories st ∧
      App.toast st' = Some ("Failed to save new category order. Reverting...", App.error).
Proof.
  intros Hnd. unfold App.handleReorderCategories.
  fold (moved (App.categories st)).
  remember (List.filter (moved (App.categories st)) reordered) as sent eqn:Esent.
  assert (Hnd' : NoDup (List.map MenuCategory.id sent)).
  { rewrite Esent. by apply NoDup_map_filter. }
  clear Esent. destruct (Nat.eqb (length sent) 0) eqn:Elen.
  { destruct sent; [| discriminate Elen].
    exists (App.setCategories reordered st), w. split; [reflexivity |].
    simpl. rewrite app_nil_r. split_and!; try done. intros c Hin. by apply elem_of_nil in Hin. }
  destruct (startAll_update (now w) sent w Hnd')
    as (rs & w1 & Hrun & Hitems & Hkeys & Hcalls & Hcons & Hset & Hother & Hrej).
  unfold tryCatch, mbind at 1, M_bind at 1, promiseAll. rewrite Hrun.
  destruct (forallb (known w) sent).
  - rewrite Hrej. eexists _, _. split; [reflexivity |]. simpl.
    split_and!; try done. destruct sent; [discriminate Elen | done].
  - destruct Hrej as (e & t' & ->). eexists _, _. split; [reflexivity |]. simpl.
    by split_and!.
Qed.

(** X23.  [handleReorderCategories] sends to the collaborator exactly the
    categories that are on the screen with another sort order, all of them
    whatever becomes of the others, and always ends.  Every one of them whose
    id the store holds is stored as passed; no other entry changes and no key
    moves.  If the store holds them all, the new list stays on screen, with
    the toast that the order was saved when something was sent.  If one is
    missing, the failure toast is shown and the screen is put back to the old
    list, while the store keeps the categories that could be stored. *)
Theorem reorder_saves_what_it_can (reordered : list MenuCategory.t) (st : App.State) (w : World) :
  NoDup (List.map MenuCategory.id reordered) →
  ∃ st' w',
    App.handleReorderCategories reordered st w = (Ok st', w') ∧
    menuItemDB w' = menuItemDB w ∧
    JsMap.keys (categoryDB w') = JsMap.keys (categoryDB w) ∧
    calls w' = calls w ++ List.map UpdateCategory (List.filter (moved (App.categories st)) reordered) ∧
    (∀ cat, cat ∈ List.filter (moved (App.categories st)) reordered → known w cat = true →
            JsMap.get (MenuCategory.id cat) (categoryDB w') = Some cat) ∧
    (∀ id, id ∉ List.map MenuCategory.id (List.filter (moved (App.categories st)) reordered) →
           JsMap.get id (categoryDB w') = JsMap.get id (categoryDB w)) ∧
    if forallb (known w) (List.filter (moved (App.categories st)) reordered) then
      App.categories st' = reordered ∧
      App.toast st' =
        match List.filter (moved (App.categories st)) reordered with
        | [] => App.toast st
        | _ => Some ("Category order saved!", App.success)
        end
    else
      App.categories st' = App.categories st ∧
      App.toast st' = Some ("Failed to save new category order. Reverting...", App.error).
Proof.
  intros Hnd. unfold App.handleReorderCategories.
  fold (moved (App.categories st)).
  remember (List.filter (moved (App.categories st)) reordered) as sent eqn:Esent.
  assert (Hnd' : NoDup (List.map MenuCategory.id sent)).
  { rewrite Esent. by apply NoDup_map_filter. }
  clear Esent. destruct (Nat.eqb (length sent) 0) eqn:Elen.
  { destruct sent; [| discriminate Elen].
    exists (App.setCategories reordered st), w. split; [reflexivity |].
    simpl. rewrite app_nil_r. split_and!; try done. intros c Hin. by apply elem_of_nil in Hin. }
  destruct (startAll_update (now w) sent w Hnd')
    as (rs & w1 & Hrun & Hitems & Hkeys & Hcalls & Hcons & Hset & Hother & Hrej).
  unfold tryCatch, mbind at 1, M_bind at 1, promiseAll. rewrite Hrun.
  destruct (forallb (known w) sent).
  - rewrite Hrej. eexists _, _. split; [reflexivity |]. simpl.
    split_and!; try done. destruct sent; [discriminate Elen | done].
  - destruct Hrej as (e & t' & ->). eexists _, _. split; [reflexivity |]. simpl.
    by split_and!.
Qed.

Lemma reorder_saves_what_it_can_witness :
  ∃ st' w',
    App.handleReorderCategories reorderedStale staleState world0 = (Ok st', w') ∧
    calls w' = List.map UpdateCategory reorderedStale ∧
    JsMap.get "cat-1" (categoryDB w') =
      Some (api.category "cat-1" "Appetizers" "Start your meal with our delicious appetizers" 2) ∧
    JsMap.get "cat-3" (categoryDB w') = JsMap.get "cat-3" (categoryDB world0) ∧
    App.categories st' = App.categories staleState ∧
    App.toast st' = Some ("Failed to save new category order. Reverting...", App.error).
Proof.
  destruct (reorder_saves_what_it_can reorderedStale staleState world0)
    as (st' & w' & Hrun & _ & _ & Hcalls & Hset & Hother & Hcase).
  - apply (bool_decide_unpack _). vm_compute. exact I.
  - exists st', w'. split; [exact Hrun |]. split; [rewrite Hcalls; vm_compute; reflexivity |].
    split.
    { apply (Hset (api.category "cat-1" "Appetizers"
                     "Start your meal with our delicious appetizers" 2)).
      - apply list_elem_of_In. vm_compute. auto.
      - vm_compute. reflexivity. }
    split.
    { apply Hother. intros Hin. apply list_elem_of_In in Hin. vm_compute in Hin.
      intuition discriminate. }
    vm_compute in Hcase. exact Hcase.
Defined.

(** ** Dropping a dragged category row *)

Lemma findIndex_Some (id : string) (categories : list MenuCategory.t) (i : nat) :
  CategoryList.findIndex id categories = Some i →
  ∃ c, categories !! i = Some c ∧ MenuCategory.id c = id.
Proof.
  revert i. induction categories as [|c categories IH]; intros i; simpl; [done |].
  destruct (String.eqb (MenuCategory.id c) id) eqn:E.
  - intros [= <-]. exists c. split; [done | by apply String.eqb_eq].
  - destruct (CategoryList.findIndex id categories) as [k|]; [| done].
    simpl. intros [= <-]. by apply IH.
Qed.

Lemma findIndex_None (id : string) (categories : list MenuCategory.t) :
  CategoryList.findIndex id categories = None ↔ id ∉ List.map MenuCategory.id categories.
Proof.
  induction categories as [|c categories IH]; simpl.
  - split; [intros _; apply not_elem_of_nil | done].
  - rewrite not_elem_of_cons. destruct (String.eqb (MenuCategory.id c) id) eqn:E.
    + apply String.eqb_eq in E. split; [done | intros [Hne _]; congruence].
    + apply String.eqb_neq in E.
      destruct (CategoryList.findIndex id categories) as [k|]; simpl.
      * split; [done |]. intros [_ Hnin]. by apply IH in Hnin.
      * split; [| done]. intros _. split; [congruence | by apply IH].
Qed.

Lemma removeAt_length {A : Type} (i : nat) (xs : list A) :
  (i < length xs)%nat → length (CategoryList.removeAt i xs) = (length xs - 1)%nat.
Proof.
  intros Hi. unfold CategoryList.removeAt.
  rewrite length_app, length_take, length_drop. lia.
Qed.

Lemma insertAt_lookup {A : Type} (j : nat) (x : A) (xs : list A) :
  (j ≤ length xs)%nat → CategoryList.insertAt j x xs !! j = Some x.
Proof.
  intros Hj. unfold CategoryList.insertAt.
  rewrite lookup_app_r by (rewrite length_take; lia).
  rewrite length_take. by replace (j - j `min` length xs)%nat with 0%nat by lia.
Qed.

Lemma removeAt_insertAt {A : Type} (j : nat) (x : A) (xs : list A) :
  (j ≤ length xs)%nat → CategoryList.removeAt j (CategoryList.insertAt j x xs) = xs.
Proof.
  intros Hj. unfold CategoryList.removeAt, CategoryList.insertAt.
  rewrite take_app_le by (rewrite length_take; lia).
  rewrite take_take. replace (j `min` j)%nat with j by lia.
  rewrite drop_app_ge by (rewrite length_take; lia).
  rewrite length_take. replace (S j - j `min` length xs)%nat with 1%nat by lia.
  simpl. rewrite drop_0. apply take_drop.
Qed.

Lemma insertAt_removeAt_perm {A : Type} (i j : nat) (x : A) (xs : list A) :
  xs !! i = Some x →
  CategoryList.insertAt j x (CategoryList.removeAt i xs) ≡ₚ xs.
Proof.
  intros Hi. unfold CategoryList.insertAt.
  rewrite <- Permutation_middle, take_drop. unfold CategoryList.removeAt.
  rewrite Permutation_middle. by rewrite take_drop_middle.
Qed.

(** X24.  [handleDrop] calls [onReorderCategories] exactly when a row is
    being dragged whose id is not the empty string, the row is dropped on
    another id, and both ids are on the list: when it does not call, these
    do not all hold, and when it calls, they all hold.  The list it passes
    then is a rearrangement of the list on screen in which the dragged
    category stands at the place the target had and the others follow in
    their old order; all fields but the sort order are kept, and the sort
    order of each category is its place in the new list, counted from 0. *)
Theorem drop_moves_row (draggedItemId : option string) (dropTargetId : string)
    (categories : list MenuCategory.t) :
  match CategoryList.handleDrop draggedItemId dropTargetId categories with
  | None =>
      ¬ ∃ dragged, draggedItemId = Some dragged ∧ dragged ≠ EmptyString ∧
                   dragged ≠ dropTargetId ∧
                   dragged ∈ List.map MenuCategory.id categories ∧
                   dropTargetId ∈ List.map MenuCategory.id categories
  | Some passed =>
      ∃ dragged i j reordered,
        draggedItemId = Some dragged ∧ dragged ≠ EmptyString ∧
        dragged ≠ dropTargetId ∧
        dragged ∈ List.map MenuCategory.id categories ∧
        dropTargetId ∈ List.map MenuCategory.id categories ∧
        CategoryList.findIndex dragged categories = Some i ∧
        CategoryList.findIndex dropTargetId categories = Some j ∧
        reordered ≡ₚ categories ∧
        reordered !! j = categories !! i ∧
        CategoryList.removeAt j reordered = CategoryList.removeAt i categories ∧
        length passed = length categories ∧
        ∀ k c, reordered !! k = Some c →
               passed !! k = Some (MenuCategory.withSortOrder (Num.ofZ (Z.of_nat k)) c)
  end.
Proof.
  unfold CategoryList.handleDrop.
  destruct draggedItemId as [dragged|].
  2:{ intros (dragged & [=] & _). }
  destruct (Js.nonEmpty dragged) eqn:Hne; simpl.
  2:{ intros (d & [= <-] & Hd & _). destruct dragged; [done | discriminate Hne]. }
  destruct (String.eqb dragged dropTargetId) eqn:Heq.
  { apply String.eqb_eq in Heq. intros (d & [= <-] & _ & Hd & _). done. }
  destruct (CategoryList.findIndex dragged categories) as [i|] eqn:Hi.
  2:{ intros (d & [= <-] & _ & _ & Hd & _). by apply findIndex_None in Hi. }
  destruct (CategoryList.findIndex dropTargetId categories) as [j|] eqn:Hj.
  2:{ intros (d & [= <-] & _ & _ & _ & Hd). by apply findIndex_None in Hj. }
  destruct (findIndex_Some _ _ _ Hi) as (c & Hc & Hcid).
  destruct (findIndex_Some _ _ _ Hj) as (c' & Hc' & Hcid').
  rewrite Hc.
  assert (Hin : ∀ k x, categories !! k = Some x →
                       MenuCategory.id x ∈ List.map MenuCategory.id categories).
  { intros k x Hx. apply list_elem_of_In, in_map_iff. exists x. split; [done |].
    apply list_elem_of_In. by eapply list_elem_of_lookup_2. }
  assert (Hilt : (i < length categories)%nat) by by eapply lookup_lt_Some.
  assert (Hjlt : (j < length categories)%nat) by by eapply lookup_lt_Some.
  assert (Hjle : (j ≤ length (CategoryList.removeAt i categories))%nat).
  { rewrite removeAt_length by done. lia. }
  exists dragged, i, j, (CategoryList.insertAt j c (CategoryList.removeAt i categories)).
  split_and!; try done.
  - intros ->. discriminate Hne.
  - by apply String.eqb_neq.
  - rewrite <- Hcid. by eapply Hin.
  - rewrite <- Hcid'. by eapply Hin.
  - by apply insertAt_removeAt_perm.
  - by rewrite insertAt_lookup.
  - by apply removeAt_insertAt.
  - rewrite length_imap. by rewrite (insertAt_removeAt_perm i j c categories Hc).
  - intros k x Hk. rewrite list_lookup_imap, Hk. done.
Qed.

(** ** Saving a category from the form *)

Lemma fetchCategories_list (st : App.State) (w : World) :
  ∃ st' w',
    App.fetchCategories st w = (Ok st', w') ∧
    sameStores w w' ∧
    calls w' = calls w ++ [GetCategories "tenant-123"] ∧
    console w' = console w ∧
    App.toast st' = App.toast st ∧
    App.categories st' = listed w.
Proof.
  unfold App.fetchCategories, tryCatch, sameStores, listed. run.
  destruct (App.selectedCategory st); [destruct (existsb _ _) |]; simpl; eauto 10.
Qed.

Lemma listed_set (c : MenuCategory.t) (w w' : World) :
  MenuCategory.tenantId (MenuCategory.fields c) = "tenant-123" →
  categoryDB w' = JsMap.set (MenuCategory.id c) c (categoryDB w) →
  c ∈ listed w'.
Proof.
  intros Htenant Hdb. unfold listed. rewrite sortBySortOrder_perm, Hdb.
  apply list_elem_of_In, filter_In. split.
  - apply list_elem_of_In. apply in_values_set.
  - unfold ofTenant. rewrite Htenant. apply String.eqb_refl.
Qed.

Lemma sorted_of_store (tenantId : string) (m : JsMap.t MenuCategory.t) :
  Forall finiteOrder (JsMap.values m) →
  StronglySorted orderLe
    (api.sortBySortOrder (List.filter (ofTenant tenantId) (JsMap.values m))).
Proof.
  intros Hfin. apply sortBySortOrder_sorted.
  apply Forall_forall. intros c Hc. rewrite Forall_forall in Hfin. apply Hfin.
  apply list_elem_of_In, filter_In in Hc as [Hc _]. by apply list_elem_of_In.
Qed.

(** X25.  [handleSaveCategory] always ends, never touches the item store,
    and stores the form under the tenant tenant-123 whatever tenant the form
    carries.  With a category being edited whose id the store holds, the form
    replaces that category in place.  With none being edited, the form is
    stored as a new category under the id cat-<clock>.  In both cases the
    categories are then read again: the list on screen holds the categories
    of tenant-123 that the store holds, each as often as the store holds it,
    the saved category among them, and the dialog is closed.  When every sort
    order in the store is a finite number, the list on screen is in ascending
    sort order; nothing is said of the order when a sort order is NaN.  With a
    category being edited whose id the store does not hold, nothing is
    stored, the failure toast is shown, and the dialog stays as it was. *)
Theorem save_category_refreshes (categoryData : MenuCategory.data) (st : App.State)
    (d : App.Dialogs) (w : World) :
  ∃ st' d' w',
    App.handleSaveCategory categoryData st d w = (Ok (st', d'), w') ∧
    menuItemDB w' = menuItemDB w ∧
    match App.editingCategory d with
    | Some editing =>
        let c := savedAs (MenuCategory.id editing) categoryData in
        if JsMap.has (MenuCategory.id editing) (categoryDB w) then
          JsMap.get (MenuCategory.id editing) (categoryDB w') = Some c ∧
          JsMap.keys (categoryDB w') = JsMap.keys (categoryDB w) ∧
          (∀ id, id ≠ MenuCategory.id editing →
                 JsMap.get id (categoryDB w') = JsMap.get id (categoryDB w)) ∧
          calls w' = calls w ++ [UpdateCategory c; GetCategories "tenant-123"] ∧
          App.categories st' ≡ₚ
            List.filter (ofTenant "tenant-123") (JsMap.values (categoryDB w')) ∧
          (Forall finiteOrder (JsMap.values (categoryDB w')) →
           StronglySorted orderLe (App.categories st')) ∧
          c ∈ App.categories st' ∧
          App.toast st' = Some ("Category updated successfully!", App.success) ∧
          App.isCategoryModalOpen d' = false ∧
          App.editingCategory d' = None
        else
          categoryDB w' = categoryDB w ∧
          calls w' = calls w ++ [UpdateCategory c] ∧
          st' = App.showToast "Failed to save category." App.error st ∧
          d' = d
    | None =>
        let c := savedAs ("cat-" +:+ Js.intToString (now w)) categoryData in
        JsMap.get (MenuCategory.id c) (categoryDB w') = Some c ∧
        (∀ id, id ≠ MenuCategory.id c →
               JsMap.get id (categoryDB w') = JsMap.get id (categoryDB w)) ∧
        calls w' = calls w ++ [AddCategory (MenuCategory.fields c); GetCategories "tenant-123"] ∧
        App.categories st' ≡ₚ
          List.filter (ofTenant "tenant-123") (JsMap.values (categoryDB w')) ∧
        (Forall finiteOrder (JsMap.values (categoryDB w')) →
         StronglySorted orderLe (App.categories st')) ∧
        c ∈ App.categories st' ∧
        App.toast st' = Some ("Category added successfully!", App.success) ∧
        App.isCategoryModalOpen d' = false ∧
        App.editingCategory d' = None
    end.
Proof.
  unfold App.handleSaveCategory.
  destruct (App.editingCategory d) as [editing|] eqn:Hediting.
  - cbn zeta. set (c := savedAs (MenuCategory.id editing) categoryData).
    fold (savedAs (MenuCategory.id editing) categoryData). fold c.
    unfold tryCatch, mbind at 1, M_bind at 1, mbind at 1, M_bind at 1.
    rewrite updateCategory_run. change (MenuCategory.id c) with (MenuCategory.id editing).
    destruct (JsMap.has (MenuCategory.id editing) (categoryDB w)) eqn:Hhas.
    + set (w1 := advance 500 _). unfold mret at 1, M_ret at 1.
      set (st1 := App.showToast _ App.success st).
      destruct (fetchCategories_list st1 w1)
        as (st' & w' & Hrun & [Hs1 Hs2] & Hcalls & _ & Htoast & Hcats).
      rewrite (bind_ok _ _ _ _ _ Hrun). eexists _, _, _. split; [reflexivity |].
      rewrite Hs1, Hs2, Hcalls, Hcats. subst w1. simpl.
      split; [done |]. split; [apply get_set_eq |].
      split; [by rewrite keys_set, Hhas |].
      split; [intros id Hne; apply get_set_ne; congruence |].
      split; [by rewrite <- app_assoc |].
      split; [unfold listed; apply sortBySortOrder_perm |].
      split; [intros Hfin; unfold listed; simpl; by apply sorted_of_store |].
      split; [eapply (listed_set c); [done | reflexivity] |].
      by rewrite Htoast.
    + eexists _, _, _. split; [reflexivity |]. simpl. by split_and!.
  - cbn zeta. set (c := savedAs ("cat-" +:+ Js.intToString (now w)) categoryData).
    unfold tryCatch, mbind at 1, M_bind at 1, mbind at 1, M_bind at 1.
    rewrite addCategory_run.
    unfold mret at 1, M_ret at 1.
    set (st1 := App.showToast _ App.success st).
    match goal with |- context [mbind _ (App.fetchCategories st1) ?x] => set (w1 := x) end.
    destruct (fetchCategories_list st1 w1)
      as (st' & w' & Hrun & [Hs1 Hs2] & Hcalls & _ & Htoast & Hcats).
    rewrite (bind_ok _ _ _ _ _ Hrun). eexists _, _, _. split; [reflexivity |].
    rewrite Hs1, Hs2, Hcalls, Hcats. subst w1. simpl.
    split; [done |]. split; [apply get_set_eq |].
    split; [intros id Hne; apply get_set_ne; intros Heq; apply Hne; by rewrite <- Heq |].
    split; [by rewrite <- app_assoc |].
    split; [unfold listed; apply sortBySortOrder_perm |].
      split; [intros Hfin; unfold listed; simpl; by apply sorted_of_store |].
    split; [| by rewrite Htoast].
    eapply (listed_set c); [done |]. reflexivity.
Qed.

(** A new category saved on the initial data, with a sort order between
    those of two others and the tenant of another application on the form:
    it is stored for tenant-123, and the list on screen shows it in its
    place. *)
Lemma save_category_refreshes_witness :
  ∃ st' d' w',
    App.handleSaveCategory soupsForm state0 (App.mkDialogs true None false None false [])
                           world0 = (Ok (st', d'), w') ∧
    Forall finiteOrder (JsMap.values (categoryDB w')) ∧
    StronglySorted orderLe (App.categories st') ∧
    savedAs "cat-1700000000000" soupsForm ∈ App.categories st' ∧
    List.map MenuCategory.id (App.categories st') =
      ["cat-1"; "cat-1700000000000"; "cat-2"; "cat-3"; "cat-4"] ∧
    App.isCategoryModalOpen d' = false.
Proof.
  destruct (save_category_refreshes soupsForm state0
              (App.mkDialogs true None false None false []) world0)
    as (st' & d' & w' & Hrun & _ & Hcase).
  cbn [App.editingCategory] in Hcase. cbv zeta in Hcase.
  destruct Hcase as (_ & _ & _ & _ & Hsorted & Hin & _ & Hclosed & _).
  exists st', d', w'. split; [exact Hrun |].
  assert (Hfin : Forall finiteOrder (JsMap.values (categoryDB w'))).
  { pose proof Hrun as E. vm_compute in E. injection E as _ _ <-.
    repeat (constructor; [eexists; reflexivity |]). constructor. }
  split; [exact Hfin |]. split; [exact (Hsorted Hfin) |]. split; [exact Hin |].
  split; [| exact Hclosed].
  pose proof Hrun as E. vm_compute in E. injection E as <- _ _. reflexivity.
Defined.

(** ** Storing a batch of items *)

(** X26.  [addMenuItemsBatch] never fails and returns the number of items it
    was given.  The item at place [i] of the batch is stored under the id
    item-<clock + i>, with the moment of the call as creation and update
    stamp; these ids are pairwise different; an entry that was stored under
    one of them is overwritten, every other entry is as before, and the
    category store is not touched. *)
Theorem batch_stores_every_item (itemsData : list MenuItem.data) (w : World) :
  ∃ w',
    api.addMenuItemsBatch itemsData w = (Ok (length itemsData), w') ∧
    categoryDB w' = categoryDB w ∧
    calls w' = calls w ++ [AddMenuItemsBatch itemsData] ∧
    (∀ i item, itemsData !! i = Some item →
               JsMap.get (batchId (now w) i) (menuItemDB w') =
               Some (MenuItem.mk (batchId (now w) i) (Date.toISOString (now w))
                                 (Date.toISOString (now w)) item)) ∧
    (∀ i j, batchId (now w) i = batchId (now w) j → i = j) ∧
    (∀ id, (∀ i, (i < length itemsData)%nat → id ≠ batchId (now w) i) →
           JsMap.get id (menuItemDB w') = JsMap.get id (menuItemDB w)).
Proof.
  exists (afterBatch itemsData w). split; [apply addMenuItemsBatch_run |].
  split; [done |]. split; [done |]. split_and!.
  - intros i item Hi. simpl.
    apply (setBatch_get itemsData (now w) (Date.toISOString (now w)) 0 _ i item Hi).
  - intros i j. apply batchId_inj.
  - intros id Hid. simpl.
    assert (Hgen : ∀ (items : list MenuItem.data) (index : nat) (db : JsMap.t MenuItem.t),
              (∀ i, (i < length items)%nat → id ≠ batchId (now w) (index + i)) →
              JsMap.get id (api.setBatch (now w) (Date.toISOString (now w)) index items db) =
              JsMap.get id db).
    { induction items as [|x r IH]; intros index db Hne; [done |].
      cbn [api.setBatch]. rewrite IH.
      - apply get_set_ne. intros Heq. apply (Hne 0%nat); [simpl; lia |].
        rewrite Nat.add_0_r. by rewrite <- Heq.
      - intros i Hi. replace (S index + i)%nat with (index + S i)%nat by lia.
        apply Hne. simpl. lia. }
    apply Hgen. intros i Hi. by apply Hid.
Qed.

(** ** Saving an item from the form *)

Lemma addMenuItem_run (itemData : MenuItem.data) (w : World) :
  api.addMenuItem itemData w =
  (Ok (MenuItem.mk ("item-" +:+ Js.intToString (now w)) (Date.toISOString (now w))
                   (Date.toISOString (now w)) itemData),
   advance 500
     (setMenuItemDB
        (JsMap.set ("item-" +:+ Js.intToString (now w))
                   (MenuItem.mk ("item-" +:+ Js.intToString (now w)) (Date.toISOString (now w))
                                (Date.toISOString (now w)) itemData))
        (addCall (AddMenuItem itemData) w))).
Proof. reflexivity. Qed.

Lemma getMenuItems_run (tenantId categoryId : string) (w : World) :
  api.getMenuItems tenantId categoryId w =
  (Ok (List.filter
         (fun item =>
            (String.eqb (MenuItem.tenantId (MenuItem.fields item)) tenantId &&
             String.eqb (MenuItem.categoryId (MenuItem.fields item)) categoryId)%bool)
         (JsMap.values (menuItemDB w))),
   advance 500 (addCall (GetMenuItems tenantId categoryId) w)).
Proof. reflexivity. Qed.

(** X27.  [handleSaveMenuItem] does nothing when no category is open.  Else
    it stores the form under the tenant tenant-123: with an item being edited
    whose id the store holds, in place of that item, with its id and creation
    stamp and a new update stamp; with none being edited, as a new item under
    the id item-<clock>.  It then reads the items of the open category again
    and closes the dialog.  The saved item is on the list on screen when the
    category of the form is the open one.  With an item being edited whose id
    the store does not hold, nothing is stored, the failure toast is shown and
    the dialog stays as it was. *)
Theorem save_item_refreshes (itemData : MenuItem.data) (st : App.State)
    (d : App.Dialogs) (w : World) :
  ∃ st' d' w',
    App.handleSaveMenuItem itemData st d w = (Ok (st', d'), w') ∧
    categoryDB w' = categoryDB w ∧
    match App.selectedCategory st with
    | None => st' = st ∧ d' = d ∧ w' = w
    | Some sel =>
        match App.editingMenuItem d with
        | Some editing =>
            let item := savedItem (MenuItem.id editing) (MenuItem.createdAt editing) (now w)
                                  itemData in
            if JsMap.has (MenuItem.id editing) (menuItemDB w) then
              JsMap.get (MenuItem.id editing) (menuItemDB w') = Some item ∧
              JsMap.keys (menuItemDB w') = JsMap.keys (menuItemDB w) ∧
              (∀ id, id ≠ MenuItem.id editing →
                     JsMap.get id (menuItemDB w') = JsMap.get id (menuItemDB w)) ∧
              calls w' = calls w ++ [UpdateMenuItem item;
                                     GetMenuItems "tenant-123" (MenuCategory.id sel)] ∧
              App.menuItems st' = itemsOf (MenuCategory.id sel) w' ∧
              (MenuItem.categoryId itemData = MenuCategory.id sel → item ∈ App.menuItems st') ∧
              App.toast st' = Some ("Menu item updated successfully!", App.success) ∧
              App.isMenuItemModalOpen d' = false ∧
              App.editingMenuItem d' = None
            else
              menuItemDB w' = menuItemDB w ∧
              calls w' = calls w ++ [UpdateMenuItem item] ∧
              st' = App.showToast "Failed to save menu item." App.error st ∧
              d' = d
        | None =>
            let item := savedItem ("item-" +:+ Js.intToString (now w))
                                  (Date.toISOString (now w)) (now w) itemData in
            JsMap.get (MenuItem.id item) (menuItemDB w') = Some item ∧
            (∀ id, id ≠ MenuItem.id item →
                   JsMap.get id (menuItemDB w') = JsMap.get id (menuItemDB w)) ∧
            calls w' = calls w ++ [AddMenuItem (MenuItem.fields item);
                                   GetMenuItems "tenant-123" (MenuCategory.id sel)] ∧
            App.menuItems st' = itemsOf (MenuCategory.id sel) w' ∧
            (MenuItem.categoryId itemData = MenuCategory.id sel → item ∈ App.menuItems st') ∧
            App.toast st' = Some ("Menu item added successfully!", App.success) ∧
            App.isMenuItemModalOpen d' = false ∧
            App.editingMenuItem d' = None
        end
    end.
Proof.
  unfold App.handleSaveMenuItem.
  destruct (App.selectedCategory st) as [sel|].
  2:{ by eexists _, _, _. }
  destruct (App.editingMenuItem d) as [editing|].
  - cbn zeta.
    unfold tryCatch, mbind at 1, M_bind at 1, mbind at 1, M_bind at 1, mbind at 1, M_bind at 1.
    change (newDateISO w) with (Ok (Date.toISOString (now w)), w). cbv beta iota.
    rewrite updateMenuItem_run. cbn [MenuItem.id].
    destruct (JsMap.has (MenuItem.id editing) (menuItemDB w)) eqn:Hhas.
    + unfold mret at 1, M_ret at 1. unfold mbind at 1, M_bind at 1. rewrite getMenuItems_run.
      eexists _, _, _. split; [reflexivity |]. simpl.
      split; [done |]. split; [apply get_set_eq |].
      split; [by rewrite keys_set, Hhas |].
      split; [intros id Hne; apply get_set_ne; congruence |].
      split; [by rewrite <- app_assoc |]. split; [done |]. split; [| done].
      intros Hcat. apply list_elem_of_In, filter_In. split.
      * apply list_elem_of_In.
        exact (in_values_set _ (savedItem (MenuItem.id editing) (MenuItem.createdAt editing)
                                          (now w) itemData) _).
      * simpl. by rewrite Hcat, String.eqb_refl.
    + eexists _, _, _. split; [reflexivity |]. simpl. by split_and!.
  - cbn zeta.
    unfold tryCatch, mbind at 1, M_bind at 1, mbind at 1, M_bind at 1, mbind at 1, M_bind at 1.
    rewrite addMenuItem_run.
    unfold mret at 1, M_ret at 1. cbv beta iota. rewrite getMenuItems_run.
    eexists _, _, _. split; [reflexivity |]. simpl.
    split; [done |]. split; [apply get_set_eq |].
    split; [intros id Hne; apply get_set_ne; intros Heq; apply Hne; by rewrite <- Heq |].
    split; [by rewrite <- app_assoc |]. split; [done |]. split; [| done].
    intros Hcat. apply list_elem_of_In, filter_In. split.
    + apply list_elem_of_In.
      exact (in_values_set _ (savedItem ("item-" +:+ Js.intToString (now w))
                                        (Date.toISOString (now w)) (now w) itemData) _).
    + simpl. by rewrite Hcat, String.eqb_refl.
Qed.

(** ** The order that was dropped is the order that is listed *)

(** *** Whole numbers below 2^53 are numbers of the machine *)

Lemma roundHalfEven_int (q : Q) (n : Z) : q == inject_Z n → Num.roundHalfEven q = n.
Proof.
  intros Hq. unfold Num.roundHalfEven.
  assert (Hf : Qfloor q = n) by (rewrite Hq; apply Qfloor_Z).
  rewrite Hf.
  assert (Hlt : Qcompare (q - inject_Z n) (1 # 2) = Lt).
  { apply Qlt_alt. rewrite Hq. unfold Qminus. rewrite Qplus_opp_r. reflexivity. }
  by rewrite Hlt.
Qed.

Lemma pow2_nonneg (e : Z) : (0 <= e)%Z → Num.pow2 e == inject_Z (2 ^ e).
Proof. intros He. unfold Num.pow2. by rewrite (Zpower_Qpower 2 e He). Qed.

Lemma ofZ_exact (z : Z) : (0 <= z < 2 ^ 53)%Z → Num.ofZ z = Num.Finite (inject_Z z).
Proof.
  intros [H0 H53]. unfold Num.ofZ, Num.roundQ.
  destruct (Z.eq_dec z 0) as [-> | Hnz]; [reflexivity |].
  assert (Hpos : (0 < z)%Z) by lia.
  assert (Hc : Qcompare (inject_Z z) 0 = Gt).
  { apply Qgt_alt. unfold Qlt. simpl. lia. }
  rewrite Hc.
  assert (Ha : Qabs (inject_Z z) = inject_Z z).
  { unfold Qabs, inject_Z. by rewrite Z.abs_eq by lia. }
  rewrite Ha.
  assert (He : Num.floorLog2 (inject_Z z) = Z.log2 z).
  { unfold Num.floorLog2. simpl. rewrite Z.sub_0_r.
    assert (Hle : Qle_bool (Num.pow2 (Z.log2 z)) (inject_Z z) = true).
    { apply Qle_bool_iff. rewrite pow2_nonneg by apply Z.log2_nonneg.
      rewrite <- Zle_Qle. by apply Z.log2_spec. }
    by rewrite Hle. }
  rewrite He.
  assert (Hlog : (0 <= Z.log2 z <= 52)%Z).
  { split; [apply Z.log2_nonneg |].
    assert (Z.log2 z < 53)%Z; [| lia]. apply Z.log2_lt_pow2; lia. }
  rewrite Z.max_l by lia.
  set (e := Z.log2 z) in *.
  assert (Hm : Num.roundHalfEven (inject_Z z * Num.pow2 (52 - e)) = (z * 2 ^ (52 - e))%Z).
  { apply roundHalfEven_int. rewrite pow2_nonneg by lia. by rewrite inject_Z_mult. }
  rewrite Hm.
  assert (Hv : inject_Z (z * 2 ^ (52 - e)) * Num.pow2 (e - 52) == inject_Z z).
  { replace (e - 52)%Z with (- (52 - e))%Z by lia. unfold Num.pow2.
    rewrite Qpower_opp. rewrite inject_Z_mult. rewrite <- (Zpower_Qpower 2 (52 - e)) by lia.
    assert (Hne : ¬ inject_Z (2 ^ (52 - e)) == 0).
    { intros H. unfold Qeq in H. simpl in H.
      assert (0 < 2 ^ (52 - e))%Z by (apply Z.pow_pos_nonneg; lia). lia. }
    change (inject_Z 2) with (2 : Q). field. exact Hne. }
  assert (Hover : Qle_bool (Num.pow2 1024) (inject_Z (z * 2 ^ (52 - e)) * Num.pow2 (e - 52)) = false).
  { apply not_true_is_false. intros H. apply Qle_bool_iff in H. rewrite Hv in H.
    rewrite pow2_nonneg in H by lia. rewrite <- Zle_Qle in H.
    assert (2 ^ 53 < 2 ^ 1024)%Z by (apply Z.pow_lt_mono_r; lia). lia. }
  rewrite Hover. f_equal.
  rewrite (Qred_complete _ _ Hv). apply Qcanon.Qred_identity. simpl. apply Z.gcd_1_r.
Qed.

(** *** Lists of ids *)

Lemma indexOf_lookup (ids : list string) (k : nat) (id : string) :
  NoDup ids → ids !! k = Some id → indexOf id ids = k.
Proof.
  revert k. induction ids as [|h r IH]; intros k Hnd Hk; [done |].
  apply NoDup_cons in Hnd as [Hnin Hnd]. simpl.
  destruct k as [|k]; simpl in Hk.
  - injection Hk as ->. by rewrite String.eqb_refl.
  - destruct (String.eqb h id) eqn:E.
    + apply String.eqb_eq in E as ->. exfalso. apply Hnin. by eapply list_elem_of_lookup_2.
    + f_equal. by apply IH.
Qed.

Lemma indexOf_self (ids : list string) :
  NoDup ids → List.map (fun id => indexOf id ids) ids = seq 0 (length ids).
Proof.
  intros Hnd. apply list_eq. intros k.
  rewrite list_lookup_fmap. destruct (ids !! k) as [id|] eqn:Hk; simpl.
  - rewrite (indexOf_lookup ids k id Hnd Hk). symmetry. apply lookup_seq.
    split; [done |]. by eapply lookup_lt_Some.
  - symmetry. apply lookup_seq_ge. by apply lookup_ge_None.
Qed.

Lemma indexOf_inj (ids : list string) (a b : string) :
  a ∈ ids → b ∈ ids → indexOf a ids = indexOf b ids → a = b.
Proof.
  induction ids as [|h r IH]; intros Ha Hb; [by apply elem_of_nil in Ha |]. simpl.
  destruct (String.eqb h a) eqn:Ea, (String.eqb h b) eqn:Eb; try done.
  - apply String.eqb_eq in Ea, Eb. congruence.
  - apply String.eqb_neq in Ea, Eb. intros [= H].
    apply elem_of_cons in Ha as [-> | Ha]; [done |].
    apply elem_of_cons in Hb as [-> | Hb]; [done |]. by apply IH.
Qed.

Lemma NoDup_map_inj_in {A B : Type} (f : A → B) (l : list A) (x y : A) :
  NoDup (List.map f l) → x ∈ l → y ∈ l → f x = f y → x = y.
Proof.
  induction l as [|h r IH]; simpl; intros Hnd Hx Hy Heq; [by apply elem_of_nil in Hx |].
  apply NoDup_cons in Hnd as [Hnin Hnd].
  apply elem_of_cons in Hx as [-> | Hx]; apply elem_of_cons in Hy as [-> | Hy]; try done.
  - exfalso. apply Hnin. rewrite Heq. apply list_elem_of_In, in_map. by apply list_elem_of_In.
  - exfalso. apply Hnin. rewrite <- Heq. apply list_elem_of_In, in_map. by apply list_elem_of_In.
  - by apply IH.
Qed.

(** *** Two maps with the same keys *)

Lemma values_related {V : Type} (R : V → V → Prop) (m m' : JsMap.t V) :
  wf m → JsMap.keys m = JsMap.keys m' →
  (∀ k v, JsMap.get k m = Some v → ∃ v', JsMap.get k m' = Some v' ∧ R v v') →
  Forall2 R (JsMap.values m) (JsMap.values m').
Proof.
  unfold wf. revert m'. induction m as [|[k v] m IH]; intros m' Hwf Hkeys Hget.
  - destruct m'; [constructor | done].
  - destruct m' as [|[k' v'] m']; [done |]. simpl in Hkeys. injection Hkeys as <- Hkeys.
    simpl in Hwf. apply NoDup_cons in Hwf as [Hnin Hwf]. simpl. constructor.
    + destruct (Hget k v) as (v'' & Hv'' & HR); [simpl; by rewrite String.eqb_refl |].
      simpl in Hv''. rewrite String.eqb_refl in Hv''. by injection Hv'' as ->.
    + apply IH; [done | done |]. intros k0 v0 Hk0.
      assert (Hne : k ≠ k0).
      { intros ->. apply Hnin. apply get_Some_in, list_elem_of_In in Hk0.
        apply list_elem_of_In, in_map_iff. by exists (k0, v0). }
      destruct (Hget k0 v0) as (v0' & Hv0' & HR).
      { simpl. by rewrite (proj2 (String.eqb_neq _ _) Hne). }
      simpl in Hv0'. rewrite (proj2 (String.eqb_neq _ _) Hne) in Hv0'. eauto.
Qed.

Lemma Forall2_filter_same {A B : Type} (R : A → B → Prop) (p : A → bool) (q : B → bool)
    (l : list A) (l' : list B) :
  Forall2 R l l' → (∀ a b, R a b → p a = q b) →
  Forall2 R (List.filter p l) (List.filter q l').
Proof.
  intros H Hpq. induction H as [|a b l l' HR H IH]; simpl; [constructor |].
  rewrite <- (Hpq a b HR). destruct (p a); [by constructor | done].
Qed.

Lemma filed_ids (m : JsMap.t MenuCategory.t) :
  filedById m → List.map MenuCategory.id (JsMap.values m) = JsMap.keys m.
Proof.
  unfold filedById, JsMap.values, JsMap.keys. induction m as [|[k c] m IH]; intros H; [done |].
  simpl. f_equal.
  - apply (H k c), list_elem_of_here.
  - apply IH. intros k0 c0 Hin. apply H. by apply list_elem_of_further.
Qed.

(** *** The list [handleDrop] passes on *)

Lemma handleDrop_passed (draggedItemId : option string) (dropTargetId : string)
    (categories passed : list MenuCategory.t) :
  CategoryList.handleDrop draggedItemId dropTargetId categories = Some passed →
  ∃ reordered,
    reordered ≡ₚ categories ∧
    passed = imap (fun index category =>
                     MenuCategory.withSortOrder (Num.ofZ (Z.of_nat index)) category) reordered.
Proof.
  unfold CategoryList.handleDrop.
  destruct draggedItemId as [dragged|]; [| done].
  destruct (_ || _)%bool; [done |].
  destruct (CategoryList.findIndex dragged categories) as [i|] eqn:Hi; [| done].
  destruct (CategoryList.findIndex dropTargetId categories) as [j|]; [| done].
  destruct (findIndex_Some _ _ _ Hi) as (c & Hc & _). rewrite Hc. intros [= <-].
  eexists. split; [| reflexivity]. by apply insertAt_removeAt_perm.
Qed.

Lemma imap_ids (reordered : list MenuCategory.t) :
  List.map MenuCategory.id
    (imap (fun index category =>
             MenuCategory.withSortOrder (Num.ofZ (Z.of_nat index)) category) reordered) =
  List.map MenuCategory.id reordered.
Proof.
  apply list_eq. intros k. rewrite !list_lookup_fmap, list_lookup_imap.
  by destruct (reordered !! k).
Qed.

(** *** Sorting by place *)

Lemma eqb_ofZ (x : number) (k : nat) :
  (Z.of_nat k < 2 ^ 53)%Z →
  Num.eqb x (Num.ofZ (Z.of_nat k)) = true →
  ∃ q, x = Num.Finite q ∧ q == inject_Z (Z.of_nat k).
Proof.
  intros Hk. rewrite ofZ_exact by lia. destruct x as [|neg|q]; simpl; try done.
  intros H. exists q. split; [done |]. by apply Qeq_bool_iff.
Qed.

Lemma ofZ_eqb_refl (k : nat) :
  (Z.of_nat k < 2 ^ 53)%Z → Num.eqb (Num.ofZ (Z.of_nat k)) (Num.ofZ (Z.of_nat k)) = true.
Proof. intros Hk. rewrite ofZ_exact by lia. simpl. apply Qeq_bool_iff. reflexivity. Qed.

Lemma StronglySorted_seq (s n : nat) : StronglySorted le (seq s n).
Proof.
  revert s. induction n as [|n IH]; intros s; simpl; constructor; [apply IH |].
  apply Forall_forall. intros x Hx. apply list_elem_of_In, in_seq in Hx. lia.
Qed.

Lemma map_indexOf_inj (ids xs ys : list string) :
  Forall (fun id => id ∈ ids) xs → Forall (fun id => id ∈ ids) ys →
  List.map (fun id => indexOf id ids) xs = List.map (fun id => indexOf id ids) ys → xs = ys.
Proof.
  revert ys. induction xs as [|x xs IH]; intros [|y ys] Hxs Hys; simpl; try done.
  apply Forall_cons in Hxs as [Hx Hxs]. apply Forall_cons in Hys as [Hy Hys].
  intros [= Hxy Hrest]. f_equal; [by apply (indexOf_inj ids) | by apply IH].
Qed.

Lemma sorted_by_place (ids : list string) (L : list MenuCategory.t) :
  NoDup ids →
  (Z.of_nat (length ids) < 2 ^ 53)%Z →
  List.map MenuCategory.id L ≡ₚ ids →
  Forall (fun c => Num.eqb (MenuCategory.sortOrder (MenuCategory.fields c))
                           (Num.ofZ (Z.of_nat (indexOf (MenuCategory.id c) ids))) = true) L →
  List.map MenuCategory.id (api.sortBySortOrder L) = ids ∧
  ∀ k c, api.sortBySortOrder L !! k = Some c →
         Num.eqb (MenuCategory.sortOrder (MenuCategory.fields c)) (Num.ofZ (Z.of_nat k)) = true.
Proof.
  intros Hnd Hlen Hperm Hall.
  set (key := fun c : MenuCategory.t => indexOf (MenuCategory.id c) ids).
  assert (Hin : ∀ c, c ∈ L → MenuCategory.id c ∈ ids).
  { intros c Hc. rewrite <- Hperm. apply list_elem_of_In, in_map. by apply list_elem_of_In. }
  assert (Hsmall : ∀ c, c ∈ L → (Z.of_nat (key c) < 2 ^ 53)%Z).
  { intros c Hc. apply Hin, list_elem_of_lookup_1 in Hc as [k Hk].
    unfold key. rewrite (indexOf_lookup ids k _ Hnd Hk).
    apply lookup_lt_Some in Hk. lia. }
  assert (Hq : ∀ c, c ∈ L →
             ∃ q, MenuCategory.sortOrder (MenuCategory.fields c) = Num.Finite q ∧
                  q == inject_Z (Z.of_nat (key c))).
  { intros c Hc. apply eqb_ofZ; [by apply Hsmall |].
    by apply (proj1 (Forall_forall _ _) Hall c). }
  assert (Hfin : Forall finiteOrder L).
  { apply Forall_forall. intros c Hc. destruct (Hq c Hc) as (q & Hso & _). by exists q. }
  pose proof (sortBySortOrder_sorted L Hfin) as Hsorted.
  pose proof (sortBySortOrder_perm L) as Hp.
  remember (api.sortBySortOrder L) as l eqn:El. clear El.
  assert (Hkeys : StronglySorted le (List.map key l)).
  { assert (Hsub : ∀ c, c ∈ l → c ∈ L) by (intros c Hc; by rewrite <- Hp).
    clear Hp. induction Hsorted as [|a r Hr IH Ha]; simpl; constructor.
    - apply IH. intros c Hc. apply Hsub. by apply list_elem_of_further.
    - apply Forall_forall. intros kb Hkb.
      apply list_elem_of_In, in_map_iff in Hkb as (b & <- & Hb). apply list_elem_of_In in Hb.
      pose proof (proj1 (Forall_forall _ _) Ha b Hb) as Hle. unfold orderLe in Hle.
      destruct (Hq a) as (qa & Hqa & Hka); [apply Hsub, list_elem_of_here |].
      destruct (Hq b) as (qb & Hqb & Hkb); [by apply Hsub, list_elem_of_further |].
      rewrite Hqa, Hqb in Hle. simpl in Hle.
      apply negb_false_iff, Qle_bool_iff in Hle. rewrite Hka, Hkb in Hle.
      rewrite <- Zle_Qle in Hle. lia. }
  assert (Hkperm : List.map key l ≡ₚ seq 0 (length ids)).
  { rewrite Hp. rewrite <- (indexOf_self ids Hnd).
    change (List.map key L) with (List.map (fun c => indexOf (MenuCategory.id c) ids) L).
    rewrite <- (map_map MenuCategory.id (fun id => indexOf id ids)).
    by apply Permutation_map. }
  pose proof (StronglySorted_unique le _ _ Hkeys (StronglySorted_seq 0 (length ids)) Hkperm)
    as Hkeq.
  split.
  - rewrite <- (indexOf_self ids Hnd) in Hkeq.
    assert (Hmem : Forall (fun id => id ∈ ids) (List.map MenuCategory.id l)).
    { apply Forall_forall. intros id Hid.
      apply list_elem_of_In, in_map_iff in Hid as (c & <- & Hc). apply list_elem_of_In in Hc.
      apply Hin. by rewrite <- Hp. }
    change (List.map key l) with (List.map (fun c => indexOf (MenuCategory.id c) ids) l) in Hkeq.
    rewrite <- (map_map MenuCategory.id (fun id => indexOf id ids)) in Hkeq.
    apply (map_indexOf_inj ids); [done | apply Forall_forall; auto | done].
  - intros k c Hk.
    assert (Hkey : key c = k).
    { assert (List.map key l !! k = Some (key c)) as H.
      { rewrite list_lookup_fmap, Hk. done. }
      rewrite Hkeq in H. apply lookup_seq in H. lia. }
    rewrite <- Hkey. apply (proj1 (Forall_forall _ _) Hall c).
    rewrite <- Hp. by eapply list_elem_of_lookup_2.
Qed.

(** X28.  When the screen shows the categories the store holds for the
    tenant, fewer than 2^53 of them, and a drop hands a new list to
    [handleReorderCategories], the handler ends with that list on screen, and
    the list [getCategories] returns next has the same categories in the same
    order, each with its place in the list as sort order: the order that was
    dropped is the order a refresh shows. *)
Theorem dropped_order_is_listed (draggedItemId : option string) (dropTargetId : string)
    (passed : list MenuCategory.t) (st : App.State) (w : World) :
  inSync st w →
  (Z.of_nat (length (App.categories st)) < 2 ^ 53)%Z →
  CategoryList.handleDrop draggedItemId dropTargetId (App.categories st) = Some passed →
  ∃ st1 w1 l w2,
    App.handleReorderCategories passed st w = (Ok st1, w1) ∧
    App.categories st1 = passed ∧
    api.getCategories "tenant-123" w1 = (Ok l, w2) ∧
    List.map MenuCategory.id l = List.map MenuCategory.id passed ∧
    ∀ k c, l !! k = Some c →
           Num.eqb (MenuCategory.sortOrder (MenuCategory.fields c)) (Num.ofZ (Z.of_nat k)) = true.
Proof.
  intros (Hwf & Hfiled & Hperm) Hlen Hdrop.
  destruct (handleDrop_passed _ _ _ _ Hdrop) as (reordered & Hre & Hpassed).
  remember (App.categories st) as cats eqn:Ecats.
  set (ids := List.map MenuCategory.id passed).
  assert (Hids : ids = List.map MenuCategory.id reordered).
  { unfold ids. rewrite Hpassed. apply imap_ids. }
  assert (Hidsperm : ids ≡ₚ List.map MenuCategory.id cats).
  { rewrite Hids. by apply Permutation_map. }
  assert (Hnd_cats : NoDup (List.map MenuCategory.id cats)).
  { rewrite (Permutation_map MenuCategory.id Hperm).
    apply NoDup_map_filter. rewrite filed_ids by done. exact Hwf. }
  assert (Hnd : NoDup ids) by by rewrite Hidsperm.
  assert (Hlenids : length ids = length cats).
  { by rewrite Hidsperm, length_map. }
  assert (Hstored : ∀ c, c ∈ cats →
            JsMap.get (MenuCategory.id c) (categoryDB w) = Some c ∧
            ofTenant "tenant-123" c = true).
  { intros c Hc. rewrite Hperm in Hc. apply list_elem_of_In, filter_In in Hc as [Hc Ht].
    split; [| done]. apply in_map_iff in Hc as ([k c'] & Heq & Hin). simpl in Heq. subst c'.
    apply list_elem_of_In in Hin. rewrite (Hfiled k c Hin). by apply in_get_Some. }
  assert (Hplace : ∀ j p, passed !! j = Some p →
            ∃ c, c ∈ cats ∧ p = MenuCategory.withSortOrder (Num.ofZ (Z.of_nat j)) c ∧
                 ids !! j = Some (MenuCategory.id c)).
  { intros j p Hj. rewrite Hpassed, list_lookup_imap in Hj.
    destruct (reordered !! j) as [c|] eqn:Hc; [| done]. simpl in Hj. injection Hj as <-.
    exists c. split; [| split; [done |]].
    - rewrite <- Hre. by eapply list_elem_of_lookup_2.
    - rewrite Hids, list_lookup_fmap, Hc. done. }
  assert (Hsmall : ∀ j id, ids !! j = Some id → (Z.of_nat j < 2 ^ 53)%Z).
  { intros j id Hj. apply lookup_lt_Some in Hj. lia. }
  destruct (handleReorderCategories_run passed st w Hnd)
    as (st1 & w1 & Hrun & Hitems & Hkeys & Hcalls & Hset & Hother & Hcase).
  rewrite <- Ecats in Hcalls, Hset, Hother, Hcase.
  set (sent := List.filter (moved cats) passed) in *.
  assert (Hknown : forallb (known w) sent = true).
  { apply forallb_forall. intros p Hp. apply filter_In in Hp as [Hp _].
    apply list_elem_of_In, list_elem_of_lookup_1 in Hp as [j Hj].
    destruct (Hplace j p Hj) as (c & Hc & -> & _).
    unfold known, JsMap.has. simpl. by rewrite (proj1 (Hstored c Hc)). }
  rewrite Hknown in Hcase. destruct Hcase as [Hscreen _].
  exists st1, w1. eexists _, _. split; [exact Hrun |]. split; [exact Hscreen |].
  split; [apply getCategories_run |].
  assert (Hrel : Forall2
            (fun v v1 =>
               MenuCategory.id v1 = MenuCategory.id v ∧
               ofTenant "tenant-123" v1 = ofTenant "tenant-123" v ∧
               (ofTenant "tenant-123" v = true →
                Num.eqb (MenuCategory.sortOrder (MenuCategory.fields v1))
                        (Num.ofZ (Z.of_nat (indexOf (MenuCategory.id v) ids))) = true))
            (JsMap.values (categoryDB w)) (JsMap.values (categoryDB w1))).
  { apply values_related; [done | done |]. intros k v Hget.
    assert (Hkv : MenuCategory.id v = k) by (apply Hfiled; by apply get_Some_in).
    destruct (ofTenant "tenant-123" v) eqn:Htenant.
    - assert (Hv : v ∈ cats).
      { rewrite Hperm. apply list_elem_of_In, filter_In. split; [| done].
        apply in_map_iff. exists (k, v). split; [done |]. by apply list_elem_of_In, get_Some_in. }
      assert (Hvid : MenuCategory.id v ∈ ids).
      { rewrite Hidsperm. apply list_elem_of_In, in_map. by apply list_elem_of_In. }
      apply list_elem_of_lookup_1 in Hvid as [j Hj].
      assert (Hpj : ∃ p, passed !! j = Some p).
      { apply lookup_lt_is_Some. apply lookup_lt_Some in Hj. unfold ids in Hj.
        by rewrite length_map in Hj. }
      destruct Hpj as [p Hp]. destruct (Hplace j p Hp) as (c & Hc & Hpc & Hcid).
      assert (c = v) as ->.
      { apply (NoDup_map_inj_in MenuCategory.id cats); [done | done | done | congruence]. }
      rewrite (indexOf_lookup ids j _ Hnd Hj).
      destruct (moved cats p) eqn:Hmoved.
      + exists p. split.
        * rewrite <- Hkv. replace (MenuCategory.id v) with (MenuCategory.id p) by by rewrite Hpc.
          apply Hset.
          -- apply list_elem_of_In, filter_In. split; [| done].
             apply list_elem_of_In. by eapply list_elem_of_lookup_2.
          -- unfold known, JsMap.has. rewrite Hpc. simpl. by rewrite (proj1 (Hstored v Hv)).
        * rewrite Hpc. simpl. split; [done |]. split; [done |]. intros _.
          apply ofZ_eqb_refl. by eapply Hsmall.
      + exists v. split.
        * rewrite Hother; [done |]. intros Hin.
          apply list_elem_of_In, in_map_iff in Hin as (p' & Hp'id & Hp').
          apply filter_In in Hp' as [Hp' Hmoved'].
          assert (p' = p) as ->; [| congruence].
          apply (NoDup_map_inj_in MenuCategory.id passed); [done | by apply list_elem_of_In | |].
          -- by eapply list_elem_of_lookup_2.
          -- rewrite Hp'id, <- Hkv, Hpc. done.
        * split; [done |]. split; [done |]. intros _.
          unfold moved in Hmoved.
          destruct (List.find _ cats) as [old|] eqn:Hfind.
          -- apply find_some in Hfind as [Hold Hoid]. apply String.eqb_eq in Hoid.
             assert (old = v) as ->.
             { apply (NoDup_map_inj_in MenuCategory.id cats);
                 [done | by apply list_elem_of_In | done |]. rewrite Hoid, Hpc. done. }
             apply negb_false_iff in Hmoved. by rewrite Hpc in Hmoved.
          -- exfalso. apply list_elem_of_In in Hv.
             pose proof (find_none _ _ Hfind v Hv) as Hno. simpl in Hno.
             rewrite Hpc in Hno. simpl in Hno. by rewrite String.eqb_refl in Hno.
    - exists v. split; [| done].
      rewrite Hother; [done |]. intros Hin.
      apply list_elem_of_In, in_map_iff in Hin as (p & Hpid & Hp).
      apply filter_In in Hp as [Hp _].
      apply list_elem_of_In, list_elem_of_lookup_1 in Hp as [j Hj].
      destruct (Hplace j p Hj) as (c & Hc & Hpc & _).
      destruct (Hstored c Hc) as [Hgetc Htc].
      assert (MenuCategory.id c = k) as Hck by (rewrite <- Hpid, Hpc; done).
      rewrite Hck in Hgetc. congruence. }
  set (p := ofTenant "tenant-123") in *.
  pose proof (Forall2_filter_same _ p p _ _ Hrel (fun a b H => eq_sym (proj1 (proj2 H)))) as Hf.
  assert (Hids1 : List.map MenuCategory.id (List.filter p (JsMap.values (categoryDB w1))) =
                  List.map MenuCategory.id (List.filter p (JsMap.values (categoryDB w)))).
  { clear -Hf. induction Hf as [|a b l l' [Hid _] _ IH]; simpl; [done |]. by rewrite Hid, IH. }
  assert (Hall : Forall (fun c => Num.eqb (MenuCategory.sortOrder (MenuCategory.fields c))
                    (Num.ofZ (Z.of_nat (indexOf (MenuCategory.id c) ids))) = true)
                  (List.filter p (JsMap.values (categoryDB w1)))).
  { assert (Hleft : Forall (fun c => p c = true) (List.filter p (JsMap.values (categoryDB w)))).
    { apply Forall_forall. intros c Hc. by apply list_elem_of_In, filter_In in Hc as [_ Hc]. }
    clear -Hf Hleft. induction Hf as [|a b l l' (Hid & _ & Hso) _ IH]; [constructor |].
    apply Forall_cons in Hleft as [Ha Hleft]. constructor; [| by apply IH].
    rewrite Hid. by apply Hso. }
  apply sorted_by_place; [done | lia | | done].
  rewrite Hids1, Hidsperm. by rewrite <- (Permutation_map MenuCategory.id Hperm).
Qed.

(** The desserts are dragged onto the appetizers on the screen of the
    initial data. *)
Lemma dropped_order_is_listed_witness :
  ∃ st1 w1 l w2,
    App.handleReorderCategories dessertsFirst (App.setCategories api.initialCategoriesData state0)
                                world0 = (Ok st1, w1) ∧
    App.categories st1 = dessertsFirst ∧
    api.getCategories "tenant-123" w1 = (Ok l, w2) ∧
    List.map MenuCategory.id l = ["cat-3"; "cat-1"; "cat-2"; "cat-4"] ∧
    ∀ k c, l !! k = Some c →
           Num.eqb (MenuCategory.sortOrder (MenuCategory.fields c)) (Num.ofZ (Z.of_nat k)) = true.
Proof.
  apply (dropped_order_is_listed (Some "cat-3") "cat-1" dessertsFirst
           (App.setCategories api.initialCategoriesData state0) world0).
  - split; [| split].
    + apply (bool_decide_unpack _). vm_compute. exact I.
    + intros k c Hin.
      repeat (apply elem_of_cons in Hin as [Hin | Hin]; [by injection Hin as -> -> |]).
      by apply elem_of_nil in Hin.
    + reflexivity.
  - vm_compute. reflexivity.
  - vm_compute. reflexivity.
Defined.

(** ** Reading back what was exported *)

Lemma no_property (name : string) (props : list (string * exportImportService.json))
    (columns : list string) :
  (∀ key, key ∈ List.map fst props → key ∈ columns) → name ∉ columns →
  exportImportService.property name (exportImportService.JObj props) = None.
Proof.
  intros Hkeys Hname. unfold exportImportService.property.
  destruct (List.find _ props) as [[k v]|] eqn:Hfind; [| done].
  apply find_some in Hfind as [Hin Heq]. simpl in Heq. apply String.eqb_eq in Heq. subst k.
  exfalso. apply Hname, Hkeys. apply list_elem_of_In, in_map_iff. by exists (name, v).
Qed.

Lemma category_columns (categories : list MenuCategory.t) (key : string) :
  key ∈ List.flat_map (List.map fst) (List.map exportImportService.categorySheetRow categories) →
  key ∈ ["ID"; "Name"; "Description"; "Sort Order"; "Active"; "Tenant ID"].
Proof.
  intros Hin. apply list_elem_of_In, in_flat_map in Hin as (row & Hrow & Hkey).
  apply in_map_iff in Hrow as (c & <- & _). by apply list_elem_of_In.
Qed.

Lemma item_columns (categories : list MenuCategory.t) (menuItems : list MenuItem.t)
    (key : string) :
  key ∈ List.flat_map (List.map fst)
          (List.map (exportImportService.itemSheetRow categories) menuItems) →
  key ∈ ["ID"; "Name"; "Description"; "Price"; "Currency"; "Category ID"; "Category Name";
         "Special Type"; "Allergens"; "Availability Flag"; "Sold Out"; "Prep Time (min)";
         "Calories"; "Max Order Qty"; "BOGO"; "Complimentary"; "Image Orientation";
         "Created At"; "Updated At"].
Proof.
  intros Hin. apply list_elem_of_In, in_flat_map in Hin as (row & Hrow & Hkey).
  apply in_map_iff in Hrow as (c & <- & _). by apply list_elem_of_In.
Qed.

Lemma filter_none {A : Type} (p : A → bool) (l : list A) :
  Forall (fun a => p a = false) l → List.filter p l = [].
Proof.
  induction 1 as [|a l Ha _ IH]; simpl; [done |]. by rewrite Ha.
Qed.

(** X29.  A workbook written by [exportToXLSX] is never read back by
    [importFromXLSX]: the sheets are written under the column names ID, Name,
    Description, ..., and the reader keeps only row objects with the
    properties name and description, for an item also price and categoryId.
    So whatever the items and categories exported, when the row objects read
    have no other properties than the columns written, the import gives no
    item and no category, and its result says so with [success] false. *)
Theorem xlsx_export_is_not_read_back (menuItems : list MenuItem.t)
    (categories : list MenuCategory.t) (options : ExportOptions)
    (read : list (string * list exportImportService.json)) (w : World) :
  xlsxAvailable w = true →
  ∃ w1,
    exportImportService.exportToXLSX menuItems categories options w = (Ok tt, w1) ∧
    downloads w1 =
      downloads w ++ [mkDownload (exportName w "xlsx") (Workbook (sheetsWritten w1))] ∧
    (readFrom (sheetsWritten w1) read →
     exportImportService.importFromXLSX (Ok read) w1 =
       (Ok (exportImportService.Raw.mk false "Successfully imported 0 items and 0 categories"
              (Some []) (Some []) None), w1)).
Proof.
  intros Hx. unfold exportImportService.exportToXLSX, exportImportService.download. run.
  rewrite Hx. simpl. eexists. split; [reflexivity |].
  unfold sheetsWritten. simpl. rewrite last_snoc. split; [reflexivity |].
  intros Hread. unfold exportImportService.importFromXLSX, tryCatch. run. rewrite Hx. simpl.
  assert (Hcats : match exportImportService.sheetRowsOf "Categories" read with
                  | Some rows => List.filter exportImportService.validateCategory rows
                  | None => []
                  end = []).
  { destruct (exportImportService.sheetRowsOf "Categories" read) as [rows|] eqn:Hrows; [| done].
    destruct (Hread _ _ Hrows) as (ws & Hws & Hall). simpl in Hws. injection Hws as <-.
    apply filter_none. eapply Forall_impl; [exact Hall |]. intros obj (props & -> & Hkeys).
    unfold exportImportService.validateCategory.
    rewrite (no_property "name" props
               ["ID"; "Name"; "Description"; "Sort Order"; "Active"; "Tenant ID"]); [done | |].
    - intros key Hkey. by apply (category_columns categories), Hkeys.
    - apply (bool_decide_unpack _). vm_compute. exact I. }
  assert (Hitems : match exportImportService.sheetRowsOf "Menu Items" read with
                   | Some rows => List.filter exportImportService.validateMenuItem rows
                   | None => []
                   end = []).
  { destruct (exportImportService.sheetRowsOf "Menu Items" read) as [rows|] eqn:Hrows; [| done].
    destruct (Hread _ _ Hrows) as (ws & Hws & Hall). simpl in Hws. injection Hws as <-.
    apply filter_none. eapply Forall_impl; [exact Hall |]. intros obj (props & -> & Hkeys).
    unfold exportImportService.validateMenuItem.
    rewrite (no_property "name" props
               ["ID"; "Name"; "Description"; "Price"; "Currency"; "Category ID";
                "Category Name"; "Special Type"; "Allergens"; "Availability Flag"; "Sold Out";
                "Prep Time (min)"; "Calories"; "Max Order Qty"; "BOGO"; "Complimentary";
                "Image Orientation"; "Created At"; "Updated At"]); [done | |].
    - intros key Hkey. by apply (item_columns categories menuItems), Hkeys.
    - apply (bool_decide_unpack _). vm_compute. exact I. }
  rewrite Hcats, Hitems. reflexivity.
Qed.

Lemma xlsx_export_is_not_read_back_witness :
  ∃ w1,
    exportImportService.exportToXLSX (JsMap.values (menuItemDB world0))
      api.initialCategoriesData (mkOptions "xlsx" None None None) world0 = (Ok tt, w1) ∧
    exportImportService.importFromXLSX (Ok readSample) w1 =
      (Ok (exportImportService.Raw.mk false "Successfully imported 0 items and 0 categories"
             (Some []) (Some []) None), w1).
Proof.
  destruct (xlsx_export_is_not_read_back (JsMap.values (menuItemDB world0))
              api.initialCategoriesData (mkOptions "xlsx" None None None) readSample world0
              eq_refl) as (w1 & Hrun & Hfile & Hread).
  exists w1. split; [exact Hrun |]. apply Hread. clear Hread Hfile.
  pose proof Hrun as E. vm_compute in E. injection E as <-. clear Hrun.
  intros name rows Hrows. unfold exportImportService.sheetRowsOf, readSample in Hrows.
  cbn [List.find fst] in Hrows.
  destruct (String.eqb "Categories" name) eqn:Ec.
  { apply String.eqb_eq in Ec as <-. injection Hrows as <-. eexists. split; [reflexivity |].
    constructor; [| constructor]. eexists. split; [reflexivity |].
    intros key Hkey. apply list_elem_of_In. apply list_elem_of_In in Hkey.
    vm_compute in Hkey. vm_compute. tauto. }
  destruct (String.eqb "Menu Items" name) eqn:Em; [| discriminate Hrows].
  apply String.eqb_eq in Em as <-. injection Hrows as <-. eexists. split; [reflexivity |].
  constructor; [| constructor]. eexists. split; [reflexivity |].
  intros key Hkey. apply list_elem_of_In. apply list_elem_of_In in Hkey.
  vm_compute in Hkey. vm_compute. tauto.
Defined.

Lemma validateMenuItem_jsonOfItem (item : MenuItem.t) :
  exportImportService.validateMenuItem (exportImportService.jsonOfItem item) = finitePrice item.
Proof.
  unfold exportImportService.validateMenuItem, exportImportService.jsonOfItem, finitePrice.
  destruct (MenuItem.videoUrl (MenuItem.fields item));
    destruct (MenuItem.price (MenuItem.fields item)); reflexivity.
Qed.

Lemma validateCategory_jsonOfCategory (c : MenuCategory.t) :
  exportImportService.validateCategory (exportImportService.jsonOfCategory c) = true.
Proof. reflexivity. Qed.

Lemma filter_map_valid {A B : Type} (f : A → B) (p : A → bool) (q : B → bool) (l : list A) :
  (∀ a, q (f a) = p a) → List.filter q (List.map f l) = List.map f (List.filter p l).
Proof.
  intros H. induction l as [|a l IH]; simpl; [done |].
  rewrite H. destruct (p a); simpl; by rewrite IH.
Qed.

(** X30.  What [exportToJSON] writes, [importFromJSON] reads back: all the
    categories, and the items whose price is a finite number; an item whose
    price is NaN or infinite is written with the price [null] and is left out
    without a message.  [success] is true when one category or item came
    back.  A text that is not JSON, and the text null, give a result with
    [success] false that carries the error; the reader itself never fails and
    changes nothing. *)
Theorem json_export_read_back (menuItems : list MenuItem.t) (categories : list MenuCategory.t)
    (options : ExportOptions) (w : World) :
  ∃ doc w1,
    exportImportService.exportToJSON menuItems categories options w = (Ok tt, w1) ∧
    downloads w1 = downloads w ++ [mkDownload (exportName w "json") (JsonDoc doc)] ∧
    exportImportService.importFromJSON (Ok (exportImportService.jsonOfExport doc)) w1 =
      (Ok (exportImportService.Raw.mk
             (Nat.ltb 0 (length (List.filter finitePrice menuItems)) ||
              Nat.ltb 0 (length categories))%bool
             (exportImportService.importedMessage
                (length (List.filter finitePrice menuItems)) (length categories))
             (Some (List.map exportImportService.jsonOfItem (List.filter finitePrice menuItems)))
             (Some (List.map exportImportService.jsonOfCategory categories))
             None), w1) ∧
    (∀ e w0, exportImportService.importFromJSON (Throw e) w0 =
             (Ok (exportImportService.Raw.mk false ("Failed to parse JSON file: " +:+ e)
                    None None (Some [e])), w0)) ∧
    (∀ w0, exportImportService.importFromJSON (Ok exportImportService.JNull) w0 =
           (Ok (exportImportService.Raw.mk false
                  "Failed to parse JSON file: Cannot read properties of null (reading 'menuItems')"
                  None None (Some ["Cannot read properties of null (reading 'menuItems')"])), w0)).
Proof.
  unfold exportImportService.exportToJSON, exportImportService.download. run.
  eexists _, _. split; [reflexivity |]. split; [reflexivity |]. split; [| split; reflexivity].
  unfold exportImportService.importFromJSON, tryCatch, ofResult. run.
  unfold exportImportService.readProperty, exportImportService.jsonOfExport. simpl.
  destruct (default false (includeMetadata options)); simpl.
  - unfold mret, M_ret. simpl.
    rewrite (filter_map_valid _ finitePrice) by apply validateMenuItem_jsonOfItem.
    rewrite (filter_map_valid _ (fun _ => true)) by apply validateCategory_jsonOfCategory.
    unfold exportImportService.imported. rewrite !length_map.
    replace (List.filter (fun _ => true) categories) with categories; [done |].
    clear. induction categories as [|c l IH]; simpl; [done | by rewrite <- IH].
  - unfold mret, M_ret. simpl.
    rewrite (filter_map_valid _ finitePrice) by apply validateMenuItem_jsonOfItem.
    rewrite (filter_map_valid _ (fun _ => true)) by apply validateCategory_jsonOfCategory.
    unfold exportImportService.imported. rewrite !length_map.
    replace (List.filter (fun _ => true) categories) with categories; [done |].
    clear. induction categories as [|c l IH]; simpl; [done | by rewrite <- IH].
Qed.
